(** * ImmersiVerse OS backend: the prompt-to-world generator

    A shallow embedding of [app/services/world_generator.py] and of the
    Pydantic schemas of [app/schemas.py] it builds, with the properties
    the design document states about them.

    Conventions of the embedding.
    - A Python [str] is a Rocq [string]; [len] is [String.length].  The
      case mappings ([lower], [title]) and the white-space test of
      [split] are those of Python on ASCII characters; a character
      outside ASCII is carried along unchanged, as a caseless symbol
      that is not white space.
    - A [float] field that only ever holds integer-valued literals
      (coordinates, quaternion components, the unit scale) is a [Z].
    - A [dict] is a [gmap], [set] a [gset]; [Dict[str, Any]] values are
      the strings and booleans the literals of the source contain.
    - [uuid4()], the wall clock and the database session are explicit
      state ([Runtime]); an exception is the left summand of a result. *)

From Stdlib Require Import ZArith Ascii String.
From stdpp Require Import base option list gmap sets strings.

Local Open Scope string_scope.
Local Open Scope Z_scope.

(** ** Python string primitives *)

Module Py.

Definition is_upper (c : ascii) : bool :=
  let n := nat_of_ascii c in (Nat.leb 65 n && Nat.leb n 90)%bool.

Definition is_lower (c : ascii) : bool :=
  let n := nat_of_ascii c in (Nat.leb 97 n && Nat.leb n 122)%bool.

(** [str.isalpha] on a character, which for ASCII is "is cased". *)
Definition is_cased (c : ascii) : bool := (is_upper c || is_lower c)%bool.

Definition lower_char (c : ascii) : ascii :=
  if is_upper c then ascii_of_nat (nat_of_ascii c + 32) else c.

Definition upper_char (c : ascii) : ascii :=
  if is_lower c then ascii_of_nat (nat_of_ascii c - 32) else c.

(** [c.isspace()]: tab, line feed, vertical tab, form feed, carriage
    return, the four separators 0x1c-0x1f and the blank. *)
Definition is_space (c : ascii) : bool :=
  let n := nat_of_ascii c in
  ((Nat.leb 9 n && Nat.leb n 13) || (Nat.leb 28 n && Nat.leb n 32))%bool.

Fixpoint map_chars (f : ascii → ascii) (s : string) : string :=
  match s with
  | EmptyString => EmptyString
  | String c r => String (f c) (map_chars f r)
  end.

(** [s.lower()] and [s.upper()]. *)
Definition lower (s : string) : string := map_chars lower_char s.

(** [w in s] for strings: [w] occurs in [s] as a contiguous run. *)
Fixpoint contains (w s : string) : bool :=
  if String.prefix w s then true
  else match s with
       | EmptyString => false
       | String _ r => contains w r
       end.

(** [any(f(x) for x in l)]. *)
Definition any {A} (f : A → bool) (l : list A) : bool := existsb f l.

(** [s.split()] with no separator: the maximal runs of characters
    that are not white space, in order; no empty word is produced.
    [cur] is the word being read, latest character first. *)
Definition flush (cur : list ascii) (acc : list string) : list string :=
  match cur with
  | [] => acc
  | _ => string_of_list_ascii (rev cur) :: acc
  end.

Fixpoint split_go (s : string) (cur : list ascii) : list string :=
  match s with
  | EmptyString => flush cur []
  | String c r =>
      if is_space c then flush cur (split_go r [])
      else split_go r (c :: cur)
  end.

Definition split (s : string) : list string := split_go s [].

(** [sep.join(l)]. *)
Fixpoint join (sep : string) (l : list string) : string :=
  match l with
  | [] => ""
  | [w] => w
  | w :: r => w +:+ sep +:+ join sep r
  end.

(** [s.title()]: a cased character is upper-cased when the character
    before it is not cased (or there is none) and lower-cased
    otherwise; other characters are kept. *)
Fixpoint title_go (s : string) (previous_is_cased : bool) : string :=
  match s with
  | EmptyString => EmptyString
  | String c r =>
      String (if previous_is_cased then lower_char c else upper_char c)
             (title_go r (is_cased c))
  end.

Definition title (s : string) : string := title_go s false.

End Py.

(** ** Enumerations of [app/schemas.py] *)

Inductive WorldType : Set :=
  | FANTASY | SCI_FI | REALISTIC | SURREAL | HISTORICAL | URBAN | NATURE | SPACE.

Inductive PrefabType : Set :=
  | BUILDING | VEHICLE | CHARACTER | PROP | ENVIRONMENT | LIGHTING | EFFECT | UI.

(** The [str] value of each member ([class WorldType(str, Enum)]). *)
Definition WorldType_value (t : WorldType) : string :=
  match t with
  | FANTASY => "fantasy"
  | SCI_FI => "sci_fi"
  | REALISTIC => "realistic"
  | SURREAL => "surreal"
  | HISTORICAL => "historical"
  | URBAN => "urban"
  | NATURE => "nature"
  | SPACE => "space"
  end.

Definition WorldType_members : list WorldType :=
  [FANTASY; SCI_FI; REALISTIC; SURREAL; HISTORICAL; URBAN; NATURE; SPACE].

Global Instance WorldType_eq_dec : EqDecision WorldType.
Proof. solve_decision. Defined.

Global Instance PrefabType_eq_dec : EqDecision PrefabType.
Proof. solve_decision. Defined.

Definition WorldType_index (t : WorldType) : nat :=
  match t with
  | FANTASY => 0 | SCI_FI => 1 | REALISTIC => 2 | SURREAL => 3
  | HISTORICAL => 4 | URBAN => 5 | NATURE => 6 | SPACE => 7
  end%nat.

Global Instance WorldType_countable : Countable WorldType.
Proof.
  refine (inj_countable' WorldType_index
            (λ n, default SPACE (WorldType_members !! n)) _).
  intros []; reflexivity.
Defined.

(** [WorldType(s)]: the member whose value is [s], if any. *)
Definition WorldType_of_value (s : string) : option WorldType :=
  List.find (λ t, String.eqb (WorldType_value t) s) WorldType_members.

(** ** Values and exceptions *)

(** The values stored under [Dict[str, Any]] by the literals of the source. *)
Inductive PyValue : Set :=
  | PyStr (s : string)
  | PyBool (b : bool).

Global Instance PyValue_eq_dec : EqDecision PyValue.
Proof. solve_decision. Defined.

(** One line of a Pydantic [ValidationError]: the field and what failed. *)
Inductive ErrorKind : Set :=
  | string_too_short (min_length : nat)
  | string_too_long (max_length : nat)
  | enum_error
  | value_error (msg : string).

Record ErrorDetails : Set := mkError { err_loc : string; err_kind : ErrorKind }.

Inductive Exception : Set :=
  | ValueError (msg : string)
  | ValidationError (model : string) (errors : list ErrorDetails)
  | IntegrityError (primary_key : string)
  | WorldGenerationError (msg : string).

Definition Result (A : Type) : Type := Exception + A.

(** [Field(..., min_length=lo, max_length=hi)] on a [str] field. *)
Definition check_length (field : string) (lo hi : nat) (v : string)
  : list ErrorDetails :=
  if Nat.ltb (String.length v) lo then [mkError field (string_too_short lo)]
  else if Nat.ltb hi (String.length v) then [mkError field (string_too_long hi)]
  else [].

(** ** Records of [app/schemas.py] *)

Record Vector3 : Set := mkVector3 { v_x : Z; v_y : Z; v_z : Z }.

Record Quaternion : Set := mkQuaternion { q_x : Z; q_y : Z; q_z : Z; q_w : Z }.

Record PrefabInstance : Type := mkPrefabInstance {
  pi_id : string;
  pi_prefab_id : string;
  pi_prefab_type : PrefabType;
  pi_position : Vector3;
  pi_rotation : Quaternion;
  pi_scale : Vector3;
  pi_properties : gmap string PyValue
}.

Record WorldBlueprint : Type := mkWorldBlueprint {
  wb_id : string;
  wb_prompt : string;
  wb_world_type : WorldType;
  wb_title : string;
  wb_description : string;
  wb_environment_settings : gmap string PyValue;
  wb_prefab_instances : list PrefabInstance;
  wb_spawn_points : list Vector3;
  wb_created_at : Z;
  wb_updated_at : Z;
  wb_processing_time_ms : option Z
}.

Record PromptRequest : Set := mkPromptRequest {
  req_prompt : string;
  req_world_type : option WorldType;
  req_user_id : string
}.

(** The JSON body the HTTP layer hands to [PromptRequest]: [world_type]
    is still the text the client sent, or absent. *)
Record PromptRequestBody : Set := mkBody {
  body_prompt : string;
  body_world_type : option string;
  body_user_id : string
}.

(** Validation of [PromptRequest]: every field is checked and the
    failures are reported together. *)
Definition PromptRequest_validate (b : PromptRequestBody) : Result PromptRequest :=
  let prompt_errors := check_length "prompt" 1 1000 (body_prompt b) in
  let world_type := body_world_type b ≫= WorldType_of_value in
  let world_type_errors :=
    match body_world_type b, world_type with
    | Some _, None => [mkError "world_type" enum_error]
    | _, _ => []
    end in
  match (prompt_errors ++ world_type_errors)%list with
  | [] => inr (mkPromptRequest (body_prompt b) world_type (body_user_id b))
  | errors => inl (ValidationError "PromptRequest" errors)
  end.

(** [WorldBlueprint.validate_prefab_instances]. *)
Definition validate_prefab_instances (v : list PrefabInstance)
  : Result (list PrefabInstance) :=
  let instance_ids := pi_id <$> v in
  if decide (length instance_ids ≠ size (list_to_set instance_ids : gset string))
  then inl (ValueError "Prefab instances must have unique IDs")
  else inr v.

(** ** The database model of [app/models.py] and the session *)

(** A row of [world_blueprints].  The two timestamps are column
    defaults: they are absent on the object and filled at insertion. *)
Record WorldBlueprintModel : Type := mkWorldBlueprintModel {
  row_id : string;
  row_prompt : string;
  row_world_type : string;
  row_title : string;
  row_description : string;
  row_environment_settings : gmap string PyValue;
  row_prefab_instances : list PrefabInstance;
  row_spawn_points : list Vector3;
  row_created_at : option Z;
  row_updated_at : option Z
}.

(** A SQLAlchemy session over the table: the rows committed so far and
    the objects added but not yet flushed, both in order. *)
Record Session : Type := mkSession {
  committed : list WorldBlueprintModel;
  pending : list WorldBlueprintModel
}.

(** ** Runtime state and the monad of the service *)

(** What a call can observe or change besides its arguments: the
    identifiers [uuid4()] will return next, the readings the clock
    will give next (integer microseconds), and the database session. *)
Record Runtime : Type := mkRuntime {
  rng : nat → string;
  clock : nat → Z;
  db : Session
}.

Definition M (A : Type) : Type := Runtime → Result A * Runtime.

Definition ret {A} (a : A) : M A := λ s, (inr a, s).

Definition raise {A} (e : Exception) : M A := λ s, (inl e, s).

Definition bind {A B} (c : M A) (k : A → M B) : M B :=
  λ s, match c s with
       | (inr a, s') => k a s'
       | (inl e, s') => (inl e, s')
       end.

Global Instance M_ret : MRet M := @ret.
Global Instance M_bind : MBind M := λ A B k c, bind c k.

(** [str(uuid4())]. *)
Definition uuid4 : M string :=
  λ s, (inr (rng s 0%nat), mkRuntime (λ n, rng s (S n)) (clock s) (db s)).

(** A reading of the clock: [time.time()] and [datetime.utcnow()]. *)
Definition now : M Z :=
  λ s, (inr (clock s 0%nat), mkRuntime (rng s) (λ n, clock s (S n)) (db s)).

Definition time_time : M Z := now.
Definition datetime_utcnow : M Z := now.

(** [db.add(obj)]. *)
Definition db_add (obj : WorldBlueprintModel) : M unit :=
  λ s, (inr tt,
        mkRuntime (rng s) (clock s)
          (mkSession (committed (db s)) (pending (db s) ++ [obj])%list)).

(** The INSERT of one object: the primary key must be new. *)
Definition db_insert_row (row : WorldBlueprintModel) : M unit :=
  λ s, if existsb (λ r, String.eqb (row_id r) (row_id row)) (committed (db s))
       then (inl (IntegrityError (row_id row)), s)
       else (inr tt,
             mkRuntime (rng s) (clock s)
               (mkSession (committed (db s) ++ [row])%list (pending (db s)))).

(** An object with its two column defaults filled in. *)
Definition stamp (obj : WorldBlueprintModel) (created updated : Z)
  : WorldBlueprintModel :=
  mkWorldBlueprintModel
    (row_id obj) (row_prompt obj) (row_world_type obj)
    (row_title obj) (row_description obj)
    (row_environment_settings obj)
    (row_prefab_instances obj) (row_spawn_points obj)
    (Some created) (Some updated).

(** Flushing one object: the column defaults of [created_at] and
    [updated_at] read the clock, then the row is inserted. *)
Definition db_insert (obj : WorldBlueprintModel) : M unit :=
  created ← datetime_utcnow;
  updated ← datetime_utcnow;
  db_insert_row (stamp obj created updated).

Fixpoint db_flush (objs : list WorldBlueprintModel) : M unit :=
  match objs with
  | [] => mret tt
  | obj :: rest => db_insert obj;; db_flush rest
  end.

(** [db.commit()]: flush what is pending, in the order it was added. *)
Definition db_commit : M unit :=
  λ s, db_flush (pending (db s))
         (mkRuntime (rng s) (clock s) (mkSession (committed (db s)) [])).

(** ** Constructors of the schemas *)

(** [PrefabInstance(prefab_id=..., prefab_type=..., position=...,
    rotation=..., properties=...)]: [id] and [scale] take their
    defaults; no field is constrained. *)
Definition PrefabInstance_new (prefab_id : string) (prefab_type : PrefabType)
    (position : Vector3) (rotation : Quaternion)
    (properties : gmap string PyValue) : M PrefabInstance :=
  id ← uuid4;
  mret (mkPrefabInstance id prefab_id prefab_type position rotation
         (mkVector3 1 1 1) properties).

(** The failures of the constrained fields of [WorldBlueprint], in
    declaration order; the [ValueError] of the validator of
    [prefab_instances] becomes a line of the report. *)
Definition WorldBlueprint_errors (prompt title description : string)
    (prefab_instances : list PrefabInstance) : list ErrorDetails :=
  let prefab_instances_errors :=
    match validate_prefab_instances prefab_instances with
    | inl (ValueError msg) => [mkError "prefab_instances" (value_error msg)]
    | _ => []
    end in
  (check_length "prompt" 1 1000 prompt
   ++ check_length "title" 1 200 title
   ++ check_length "description" 1 2000 description
   ++ prefab_instances_errors)%list.

(** [WorldBlueprint(prompt=..., ..., spawn_points=...)].  The fields are
    validated in declaration order, the defaults of the absent ones
    ([id], [created_at], [updated_at], [processing_time_ms]) are
    produced on the way, and the failures are raised together. *)
Definition WorldBlueprint_new (prompt : string) (world_type : WorldType)
    (title description : string)
    (environment_settings : gmap string PyValue)
    (prefab_instances : list PrefabInstance)
    (spawn_points : list Vector3) : M WorldBlueprint :=
  id ← uuid4;
  let errors := WorldBlueprint_errors prompt title description prefab_instances in
  created_at ← datetime_utcnow;
  updated_at ← datetime_utcnow;
  match errors with
  | [] => mret (mkWorldBlueprint id prompt world_type title description
                  environment_settings prefab_instances spawn_points
                  created_at updated_at None)
  | _ => raise (ValidationError "WorldBlueprint" errors)
  end.

(** ** [WorldGeneratorService] of [app/services/world_generator.py] *)

(** [_infer_world_type]: keyword rules tried in the order written. *)
Definition _infer_world_type (prompt : string) : WorldType :=
  let prompt_lower := Py.lower prompt in
  if Py.any (λ word, Py.contains word prompt_lower)
       ["fantasy"; "magic"; "dragon"; "wizard"; "castle"]
  then FANTASY
  else if Py.any (λ word, Py.contains word prompt_lower)
            ["space"; "alien"; "robot"; "future"; "sci-fi"]
  then SCI_FI
  else if Py.any (λ word, Py.contains word prompt_lower)
            ["city"; "urban"; "street"; "building"]
  then URBAN
  else if Py.any (λ word, Py.contains word prompt_lower)
            ["forest"; "mountain"; "nature"; "wilderness"]
  then NATURE
  else if Py.any (λ word, Py.contains word prompt_lower)
            ["medieval"; "ancient"; "historical"; "vintage"]
  then HISTORICAL
  else REALISTIC.

(** [_generate_title]. *)
Definition _generate_title (prompt : string) (world_type : WorldType) : string :=
  let words := take 5 (Py.split prompt) in
  let title := Py.title (Py.join " " words) in
  title +:+ " World".

Definition base_descriptions : gmap WorldType string :=
  list_to_map
    [ (FANTASY, "A magical realm filled with wonder and enchantment.");
      (SCI_FI, "A futuristic world with advanced technology and alien landscapes.");
      (REALISTIC, "A realistic environment based on real-world locations.");
      (SURREAL, "A dreamlike world that defies conventional reality.");
      (HISTORICAL, "A historical setting that captures the essence of the past.");
      (URBAN, "A bustling urban environment with modern architecture.");
      (NATURE, "A natural environment filled with organic beauty.");
      (SPACE, "An otherworldly space environment with cosmic wonders.") ].

(** [_generate_description]. *)
Definition _generate_description (prompt : string) (world_type : WorldType)
  : string :=
  "Generated from: '" +:+ prompt +:+ "'. "
    +:+ default "A unique world to explore." (base_descriptions !! world_type).

(** The items of the literal [settings_templates], in the order written. *)
Definition settings_templates_items : list (WorldType * gmap string PyValue) :=
    [ (FANTASY,
       list_to_map [ ("lighting", PyStr "mystical");
                     ("weather", PyStr "ethereal");
                     ("ambient_sound", PyStr "magical_forest");
                     ("skybox", PyStr "fantasy_sky") ]);
      (SCI_FI,
       list_to_map [ ("lighting", PyStr "neon");
                     ("weather", PyStr "none");
                     ("ambient_sound", PyStr "space_station");
                     ("skybox", PyStr "space_stars") ]);
      (REALISTIC,
       list_to_map [ ("lighting", PyStr "natural");
                     ("weather", PyStr "clear");
                     ("ambient_sound", PyStr "city_traffic");
                     ("skybox", PyStr "realistic_sky") ]);
      (URBAN,
       list_to_map [ ("lighting", PyStr "street_lights");
                     ("weather", PyStr "overcast");
                     ("ambient_sound", PyStr "urban_bustle");
                     ("skybox", PyStr "city_skyline") ]);
      (NATURE,
       list_to_map [ ("lighting", PyStr "sunlight");
                     ("weather", PyStr "sunny");
                     ("ambient_sound", PyStr "birds_chirping");
                     ("skybox", PyStr "forest_canopy") ]) ].

Definition settings_templates : gmap WorldType (gmap string PyValue) :=
  list_to_map settings_templates_items.

(** [_generate_environment_settings]: [.get(world_type, default)], the
    default being the REALISTIC entry, which the literal contains. *)
Definition _generate_environment_settings (world_type : WorldType)
  : gmap string PyValue :=
  default (settings_templates !!! REALISTIC) (settings_templates !! world_type).

(** [_generate_prefab_instances]. *)
Definition _generate_prefab_instances (prompt : string) (world_type : WorldType)
  : M (list PrefabInstance) :=
  let instances : list PrefabInstance := [] in
  if decide (world_type = FANTASY) then
    a ← PrefabInstance_new "fantasy_castle_01" BUILDING
          (mkVector3 0 0 0) (mkQuaternion 0 0 0 1)
          (list_to_map [("theme", PyStr "medieval"); ("size", PyStr "large")]);
    b ← PrefabInstance_new "magic_tree_01" ENVIRONMENT
          (mkVector3 10 0 5) (mkQuaternion 0 0 0 1)
          (list_to_map [("glow", PyBool true); ("animated", PyBool true)]);
    mret (instances ++ [a; b])%list
  else if decide (world_type = SCI_FI) then
    a ← PrefabInstance_new "space_station_01" BUILDING
          (mkVector3 0 0 0) (mkQuaternion 0 0 0 1)
          (list_to_map [("theme", PyStr "futuristic"); ("size", PyStr "massive")]);
    b ← PrefabInstance_new "hologram_display_01" UI
          (mkVector3 5 2 0) (mkQuaternion 0 0 0 1)
          (list_to_map [("interactive", PyBool true); ("glow", PyBool true)]);
    mret (instances ++ [a; b])%list
  else
    a ← PrefabInstance_new "modern_building_01" BUILDING
          (mkVector3 0 0 0) (mkQuaternion 0 0 0 1)
          (list_to_map [("theme", PyStr "modern"); ("size", PyStr "medium")]);
    mret (instances ++ [a])%list.

(** [_generate_spawn_points]. *)
Definition _generate_spawn_points (world_type : WorldType) : list Vector3 :=
  if decide (world_type = FANTASY) then
    [mkVector3 0 1 0; mkVector3 10 1 5]
  else if decide (world_type = SCI_FI) then
    [mkVector3 0 1 0; mkVector3 5 1 0]
  else
    [mkVector3 0 1 0; mkVector3 5 1 5].

(** [_create_world_blueprint]. *)
Definition _create_world_blueprint (prompt : string) (world_type : WorldType)
  : M WorldBlueprint :=
  let title := _generate_title prompt world_type in
  let description := _generate_description prompt world_type in
  let environment_settings := _generate_environment_settings world_type in
  prefab_instances ← _generate_prefab_instances prompt world_type;
  let spawn_points := _generate_spawn_points world_type in
  WorldBlueprint_new prompt world_type title description
    environment_settings prefab_instances spawn_points.

(** Truth value of an enumeration member: that of its [str] value. *)
Definition WorldType_truthy (t : WorldType) : bool :=
  negb (String.eqb (WorldType_value t) "").

(** [request.world_type or self._infer_world_type(request.prompt)]. *)
Definition resolve_world_type (request : PromptRequest) : WorldType :=
  match req_world_type request with
  | Some t => if WorldType_truthy t then t else _infer_world_type (req_prompt request)
  | None => _infer_world_type (req_prompt request)
  end.

(** The object handed to [db.add]. *)
Definition WorldBlueprintModel_of (b : WorldBlueprint) : WorldBlueprintModel :=
  mkWorldBlueprintModel (wb_id b) (wb_prompt b)
    (WorldType_value (wb_world_type b)) (wb_title b) (wb_description b)
    (wb_environment_settings b) (wb_prefab_instances b) (wb_spawn_points b)
    None None.

Definition set_processing_time_ms (b : WorldBlueprint) (ms : Z) : WorldBlueprint :=
  mkWorldBlueprint (wb_id b) (wb_prompt b) (wb_world_type b) (wb_title b)
    (wb_description b) (wb_environment_settings b) (wb_prefab_instances b)
    (wb_spawn_points b) (wb_created_at b) (wb_updated_at b) (Some ms).

(** [generate_world_from_prompt].  With the clock in microseconds,
    [int((time.time() - start_time) * 1000)] is the difference divided
    by 1000, truncated, up to the rounding of the product of floats,
    which may give one less. *)
Definition generate_world_from_prompt (request : PromptRequest)
  : M WorldBlueprint :=
  start_time ← time_time;
  let world_type := resolve_world_type request in
  world_blueprint ← _create_world_blueprint (req_prompt request) world_type;
  let world_model := WorldBlueprintModel_of world_blueprint in
  db_add world_model;;
  db_commit;;
  end_time ← time_time;
  let processing_time := Z.quot (end_time - start_time) 1000 in
  mret (set_processing_time_ms world_blueprint processing_time).

(** ** The endpoint of [app/api/prompt2world.py] *)

Inductive HTTPStatus : Set :=
  | HTTP_200_OK
  | HTTP_400_BAD_REQUEST
  | HTTP_500_INTERNAL_SERVER_ERROR.

(** [convert_prompt_to_world], once the request is validated and the
    user authenticated: a [WorldGenerationError] is a bad request, any
    other exception an internal server error. *)
Definition convert_prompt_to_world (request : PromptRequest) (s : Runtime)
  : HTTPStatus * option WorldBlueprint * Runtime :=
  match generate_world_from_prompt request s with
  | (inr world_blueprint, s') => (HTTP_200_OK, Some world_blueprint, s')
  | (inl (WorldGenerationError _), s') => (HTTP_400_BAD_REQUEST, None, s')
  | (inl _, s') => (HTTP_500_INTERNAL_SERVER_ERROR, None, s')
  end.

(** ** A runtime to evaluate on *)

Definition digit (n : nat) : string :=
  String (ascii_of_nat (48 + n mod 10)) "".

(** The [n]-th identifier of a source that never repeats itself in
    its first hundred draws. *)
Definition sample_uuid (n : nat) : string :=
  "00000000-0000-4000-8000-0000000000" +:+ digit (n / 10) +:+ digit n.

Definition sample_clock (n : nat) : Z := 1700000000000000 + 1500 * Z.of_nat n.

Definition empty_session : Session := mkSession [] [].

Definition sample_runtime : Runtime :=
  mkRuntime sample_uuid sample_clock empty_session.

(** Another runtime: later identifiers, a later clock. *)
Definition later_runtime : Runtime :=
  mkRuntime (λ n, sample_uuid (n + 10)) (λ n, sample_clock (n + 100))
    empty_session.

(** A source of identifiers that always returns the same one. *)
Definition stuck_runtime : Runtime :=
  mkRuntime (λ _, "00000000-0000-4000-8000-000000000000") sample_clock
    empty_session.

(** ** The same service with its objects on a heap

    The dictionaries and lists the service builds are Python objects:
    a variable holds a reference, and two references may name one
    object.  Here they live in a store, so that what a caller does to
    the objects of one blueprint can be followed into the next call. *)

(** Locations are numbers, handed out in increasing order. *)
Abbreviation loc := nat.

Section heap.

(** Whether Pydantic stores a copy of a [dict] or [list] argument in
    the model (it does when it validates the field) or the argument
    itself.  Nothing below depends on which. *)
Variable pydantic_copies : bool.



Inductive Object : Type :=
  | DictObj (d : gmap string PyValue)
  | TemplatesObj (t : gmap WorldType loc)
  | InstancesObj (v : list PrefabInstance)
  | PointsObj (v : list Vector3).

(** The objects allocated so far and the next free location. *)
Record Store : Type := mkStore { objects : gmap loc Object; next : loc }.

Definition read_dict (st : Store) (l : loc) : gmap string PyValue :=
  match objects st !! l with Some (DictObj d) => d | _ => ∅ end.

Definition read_instances (st : Store) (l : loc) : list PrefabInstance :=
  match objects st !! l with Some (InstancesObj v) => v | _ => [] end.

Definition read_points (st : Store) (l : loc) : list Vector3 :=
  match objects st !! l with Some (PointsObj v) => v | _ => [] end.

(** A blueprint as Python holds it: the three containers by reference. *)
Record BlueprintRef : Type := mkBlueprintRef {
  ref_id : string;
  ref_prompt : string;
  ref_world_type : WorldType;
  ref_title : string;
  ref_description : string;
  ref_environment_settings : loc;
  ref_prefab_instances : loc;
  ref_spawn_points : loc;
  ref_created_at : Z;
  ref_updated_at : Z;
  ref_processing_time_ms : option Z
}.

(** What a reader of the blueprint sees in a given store. *)
Definition snapshot (st : Store) (b : BlueprintRef) : WorldBlueprint :=
  mkWorldBlueprint (ref_id b) (ref_prompt b) (ref_world_type b) (ref_title b)
    (ref_description b)
    (read_dict st (ref_environment_settings b))
    (read_instances st (ref_prefab_instances b))
    (read_points st (ref_spawn_points b))
    (ref_created_at b) (ref_updated_at b) (ref_processing_time_ms b).

(** Computations over the store and the runtime. *)
Definition HM (A : Type) : Type := Store → M (A * Store).

Definition hret {A} (a : A) : HM A := λ st, mret (a, st).

Definition hbind {A B} (c : HM A) (k : A → HM B) : HM B :=
  λ st, bind (c st) (λ r, k r.1 r.2).

Definition lift {A} (c : M A) : HM A := λ st, bind c (λ a, ret (a, st)).

Global Instance HM_ret : MRet HM := @hret.
Global Instance HM_bind : MBind HM := λ A B k c, hbind c k.

(** A new object. *)
Definition h_alloc (o : Object) : HM loc :=
  λ st, mret (next st, mkStore (<[next st := o]> (objects st)) (S (next st))).

(** [v.extend(items)] on the list object at [l]. *)
Definition h_extend (l : loc) (items : list PrefabInstance) : HM unit :=
  λ st, mret ((), mkStore
                    (alter (λ o, match o with
                                 | InstancesObj v => InstancesObj (v ++ items)
                                 | _ => o
                                 end) l (objects st))
                    (next st)).

Definition h_read_dict (l : loc) : HM (gmap string PyValue) :=
  λ st, mret (read_dict st l, st).

Definition h_read_instances (l : loc) : HM (list PrefabInstance) :=
  λ st, mret (read_instances st l, st).

Definition h_read_points (l : loc) : HM (list Vector3) :=
  λ st, mret (read_points st l, st).

(** The inner dictionaries of a literal, allocated in the order written. *)
Fixpoint h_alloc_items (items : list (WorldType * gmap string PyValue))
  : HM (list (WorldType * loc)) :=
  match items with
  | [] => mret []
  | (k, d) :: rest =>
      l ← h_alloc (DictObj d);
      r ← h_alloc_items rest;
      mret ((k, l) :: r)
  end.

(** [_generate_environment_settings]: the literal is evaluated at each
    call, and the value returned is a reference to one of the
    dictionaries just made. *)
Definition h_generate_environment_settings (world_type : WorldType) : HM loc :=
  items ← h_alloc_items settings_templates_items;
  let settings_templates : gmap WorldType loc := list_to_map items in
  _ ← h_alloc (TemplatesObj settings_templates);
  mret (default (settings_templates !!! REALISTIC)
          (settings_templates !! world_type)).

(** [_generate_prefab_instances]: [instances] is a new list, filled in place. *)
Definition h_generate_prefab_instances (prompt : string) (world_type : WorldType)
  : HM loc :=
  instances ← h_alloc (InstancesObj []);
  if decide (world_type = FANTASY) then
    a ← lift (PrefabInstance_new "fantasy_castle_01" BUILDING
                (mkVector3 0 0 0) (mkQuaternion 0 0 0 1)
                (list_to_map [("theme", PyStr "medieval"); ("size", PyStr "large")]));
    b ← lift (PrefabInstance_new "magic_tree_01" ENVIRONMENT
                (mkVector3 10 0 5) (mkQuaternion 0 0 0 1)
                (list_to_map [("glow", PyBool true); ("animated", PyBool true)]));
    h_extend instances [a; b];;
    mret instances
  else if decide (world_type = SCI_FI) then
    a ← lift (PrefabInstance_new "space_station_01" BUILDING
                (mkVector3 0 0 0) (mkQuaternion 0 0 0 1)
                (list_to_map [("theme", PyStr "futuristic"); ("size", PyStr "massive")]));
    b ← lift (PrefabInstance_new "hologram_display_01" UI
                (mkVector3 5 2 0) (mkQuaternion 0 0 0 1)
                (list_to_map [("interactive", PyBool true); ("glow", PyBool true)]));
    h_extend instances [a; b];;
    mret instances
  else
    a ← lift (PrefabInstance_new "modern_building_01" BUILDING
                (mkVector3 0 0 0) (mkQuaternion 0 0 0 1)
                (list_to_map [("theme", PyStr "modern"); ("size", PyStr "medium")]));
    h_extend instances [a];;
    mret instances.

(** [_generate_spawn_points]: a new list at each call. *)
Definition h_generate_spawn_points (world_type : WorldType) : HM loc :=
  if decide (world_type = FANTASY) then
    h_alloc (PointsObj [mkVector3 0 1 0; mkVector3 10 1 5])
  else if decide (world_type = SCI_FI) then
    h_alloc (PointsObj [mkVector3 0 1 0; mkVector3 5 1 0])
  else
    h_alloc (PointsObj [mkVector3 0 1 0; mkVector3 5 1 5]).

(** What Pydantic keeps of a container argument. *)
Definition h_keep (l : loc) (o : Object) : HM loc :=
  if pydantic_copies then h_alloc o else mret l.

(** [WorldBlueprint(...)] with its three containers given by reference. *)
Definition h_WorldBlueprint_new (prompt : string) (world_type : WorldType)
    (title description : string)
    (environment_settings prefab_instances spawn_points : loc)
  : HM BlueprintRef :=
  id ← lift uuid4;
  settings ← h_read_dict environment_settings;
  kept_settings ← h_keep environment_settings (DictObj settings);
  v ← h_read_instances prefab_instances;
  let errors := WorldBlueprint_errors prompt title description v in
  kept_instances ← h_keep prefab_instances (InstancesObj v);
  points ← h_read_points spawn_points;
  kept_points ← h_keep spawn_points (PointsObj points);
  created_at ← lift datetime_utcnow;
  updated_at ← lift datetime_utcnow;
  match errors with
  | [] => mret (mkBlueprintRef id prompt world_type title description
                  kept_settings kept_instances kept_points
                  created_at updated_at None)
  | _ => lift (raise (ValidationError "WorldBlueprint" errors))
  end.

Definition h_create_world_blueprint (prompt : string) (world_type : WorldType)
  : HM BlueprintRef :=
  let title := _generate_title prompt world_type in
  let description := _generate_description prompt world_type in
  environment_settings ← h_generate_environment_settings world_type;
  prefab_instances ← h_generate_prefab_instances prompt world_type;
  spawn_points ← h_generate_spawn_points world_type;
  h_WorldBlueprint_new prompt world_type title description
    environment_settings prefab_instances spawn_points.

Definition h_set_processing_time_ms (b : BlueprintRef) (ms : Z) : BlueprintRef :=
  mkBlueprintRef (ref_id b) (ref_prompt b) (ref_world_type b) (ref_title b)
    (ref_description b) (ref_environment_settings b) (ref_prefab_instances b)
    (ref_spawn_points b) (ref_created_at b) (ref_updated_at b) (Some ms).

(** [generate_world_from_prompt].  The row is written from what the
    containers hold when the session is committed, within the call. *)
Definition h_generate_world_from_prompt (request : PromptRequest)
  : HM BlueprintRef :=
  start_time ← lift time_time;
  let world_type := resolve_world_type request in
  world_blueprint ← h_create_world_blueprint (req_prompt request) world_type;
  settings ← h_read_dict (ref_environment_settings world_blueprint);
  instances ← h_read_instances (ref_prefab_instances world_blueprint);
  points ← h_read_points (ref_spawn_points world_blueprint);
  let world_model :=
    mkWorldBlueprintModel (ref_id world_blueprint) (ref_prompt world_blueprint)
      (WorldType_value (ref_world_type world_blueprint))
      (ref_title world_blueprint) (ref_description world_blueprint)
      settings instances points None None in
  lift (db_add world_model);;
  lift db_commit;;
  end_time ← lift time_time;
  let processing_time := Z.quot (end_time - start_time) 1000 in
  mret (h_set_processing_time_ms world_blueprint processing_time).

(** What a caller can do to the containers of a blueprint it was
    given: put any contents in the settings dictionary and in the
    instance list. *)
Definition mutate (b : BlueprintRef) (settings : gmap string PyValue)
    (instances : list PrefabInstance) (st : Store) : Store :=
  mkStore
    (<[ref_environment_settings b := DictObj settings]>
       (<[ref_prefab_instances b := InstancesObj instances]> (objects st)))
    (next st).

(** A store in which every object lies below the next free location. *)
Definition well_formed (st : Store) : Prop :=
  ∀ l, is_Some (objects st !! l) → (l < next st)%nat.

Definition empty_store : Store := mkStore ∅ 0%nat.

(** [st1] has everything [st] has, unchanged, and possibly more. *)
Definition extends (st st1 : Store) : Prop :=
  (next st ≤ next st1)%nat
  ∧ ∀ l, (l < next st)%nat → objects st1 !! l = objects st !! l.

End heap.

(** ** The dependency [get_current_user_id] of [app/api/dependencies.py] *)

(** [s.split(sep, 1)] for a one-character separator: the text before
    the first separator and the text after it, or the text alone when
    it holds no separator. *)
Fixpoint split_maxsplit_1 (sep : ascii) (s : string) : list string :=
  match s with
  | EmptyString => [""]
  | String c rest =>
      if Ascii.eqb c sep then [""; rest]
      else match split_maxsplit_1 sep rest with
           | head :: tail => String c head :: tail
           | [] => [s]
           end
  end.

(** Truth value of a [str]: false for the empty one only. *)
Definition str_truthy (s : string) : bool := negb (String.eqb s "").

(** [HTTPException(status_code=..., detail=...)]; the members of
    [fastapi.status] are the integers of their names. *)
Record HTTPException : Set := mkHTTPException {
  status_code : Z;
  detail : string
}.

(** The members of [fastapi.status] that the endpoints name. *)
Module status.
Definition HTTP_400_BAD_REQUEST : Z := 400.
Definition HTTP_401_UNAUTHORIZED : Z := 401.
Definition HTTP_404_NOT_FOUND : Z := 404.
Definition HTTP_500_INTERNAL_SERVER_ERROR : Z := 500.
End status.

Section dependencies.

(** [jwt.decode(token, settings.secret_key, algorithms=[settings.algorithm])]:
    the claims of the payload, or nothing where it raises [JWTError]. *)
Variable jwt_decode : string → option (gmap string string).

(** [SessionService.validate_token]. *)
Definition validate_token (token : string) : option string :=
  match jwt_decode token with
  | Some payload => payload !! "sub"
  | None => None
  end.

(** [get_current_user_id]: the unpacking of the split header raises
    [ValueError] unless there are exactly two parts, and the handler
    turns it, like the one raised for a foreign scheme, into a 401. *)
Definition get_current_user_id (authorization : option string)
  : HTTPException + string :=
  match authorization with
  | None =>
      inl (mkHTTPException status.HTTP_401_UNAUTHORIZED
             "Authorization header required")
  | Some authorization =>
      if negb (str_truthy authorization) then
        inl (mkHTTPException status.HTTP_401_UNAUTHORIZED
               "Authorization header required")
      else
        match split_maxsplit_1 " " authorization with
        | [scheme; token] =>
            if negb (String.eqb (Py.lower scheme) "bearer") then
              inl (mkHTTPException status.HTTP_401_UNAUTHORIZED
                     "Invalid authorization header format")
            else
              match validate_token token with
              | Some user_id =>
                  if negb (str_truthy user_id) then
                    inl (mkHTTPException status.HTTP_401_UNAUTHORIZED
                           "Invalid or expired token")
                  else inr user_id
              | None =>
                  inl (mkHTTPException status.HTTP_401_UNAUTHORIZED
                         "Invalid or expired token")
              end
        | _ =>
            inl (mkHTTPException status.HTTP_401_UNAUTHORIZED
                   "Invalid authorization header format")
        end
  end.

End dependencies.

(** ** The prefab catalog: [PrefabService] of [app/services/prefab_service.py] *)

Definition PrefabType_value (t : PrefabType) : string :=
  match t with
  | BUILDING => "building"
  | VEHICLE => "vehicle"
  | CHARACTER => "character"
  | PROP => "prop"
  | ENVIRONMENT => "environment"
  | LIGHTING => "lighting"
  | EFFECT => "effect"
  | UI => "ui"
  end.

Definition PrefabType_members : list PrefabType :=
  [BUILDING; VEHICLE; CHARACTER; PROP; ENVIRONMENT; LIGHTING; EFFECT; UI].

Definition PrefabType_of_value (s : string) : option PrefabType :=
  List.find (λ t, String.eqb (PrefabType_value t) s) PrefabType_members.

(** [PrefabType(value)]. *)
Definition PrefabType_new (value : string) : Result PrefabType :=
  match PrefabType_of_value value with
  | Some t => inr t
  | None => inl (ValueError ("'" +:+ value +:+ "' is not a valid PrefabType"))
  end.

Definition PrefabType_truthy (t : PrefabType) : bool :=
  str_truthy (PrefabType_value t).

(** The values the catalog stores under [Dict[str, Any]]. *)
Inductive JSONValue : Set :=
  | JSONInt (n : Z)
  | JSONBool (b : bool)
  | JSONStr (s : string).

Record PrefabCatalogItem : Type := mkPrefabCatalogItem {
  item_id : string;
  item_name : string;
  item_type : PrefabType;
  item_description : string;
  item_thumbnail_url : option string;
  item_download_url : string;
  item_size_bytes : Z;
  item_version : string;
  item_tags : list string;
  item_properties : gmap string JSONValue
}.

(** A row of [prefab_catalog]; the two timestamps are column defaults,
    absent on the object and filled at insertion. *)
Record PrefabCatalogModel : Type := mkPrefabCatalogModel {
  pcm_id : string;
  pcm_name : string;
  pcm_type : string;
  pcm_description : string;
  pcm_thumbnail_url : option string;
  pcm_download_url : string;
  pcm_size_bytes : Z;
  pcm_version : string;
  pcm_tags : list string;
  pcm_properties : gmap string JSONValue;
  pcm_created_at : option Z;
  pcm_updated_at : option Z
}.

(** The session a request gives the service: the clock the column
    defaults read and the rows of the table, in the order queries
    without [ORDER BY] return them.  Nothing else is pending in it:
    the service commits each object as soon as it has added it. *)
Record CatalogSession : Type := mkCatalogSession {
  catalog_clock : nat → Z;
  prefab_catalog : list PrefabCatalogModel
}.

Definition CM (A : Type) : Type := CatalogSession → Result A * CatalogSession.

Section prefab_service.

#[local] Instance CM_ret : MRet CM := λ A a s, (inr a, s).

#[local] Instance CM_bind : MBind CM :=
  λ A B k c s, match c s with
               | (inr a, s') => k a s'
               | (inl e, s') => (inl e, s')
               end.

(** A computation that cannot touch the session. *)
Definition of_result {A} (r : Result A) : CM A := λ s, (r, s).

(** [PrefabCatalogItem(id=prefab.id, ..., type=PrefabType(prefab.type), ...)]. *)
Definition PrefabCatalogItem_of (prefab : PrefabCatalogModel)
  : Result PrefabCatalogItem :=
  match PrefabType_new (pcm_type prefab) with
  | inl e => inl e
  | inr type =>
      inr (mkPrefabCatalogItem (pcm_id prefab) (pcm_name prefab) type
             (pcm_description prefab) (pcm_thumbnail_url prefab)
             (pcm_download_url prefab) (pcm_size_bytes prefab)
             (pcm_version prefab) (pcm_tags prefab) (pcm_properties prefab))
  end.

(** The list comprehension over the rows: the first row that cannot be
    converted raises. *)
Fixpoint PrefabCatalogItems_of (prefab_models : list PrefabCatalogModel)
  : Result (list PrefabCatalogItem) :=
  match prefab_models with
  | [] => inr []
  | prefab :: rest =>
      match PrefabCatalogItem_of prefab with
      | inl e => inl e
      | inr item =>
          match PrefabCatalogItems_of rest with
          | inl e => inl e
          | inr items => inr (item :: items)
          end
      end
  end.

(** [if prefab_type: query = query.filter(PrefabCatalogModel.type == prefab_type.value)]. *)
Definition filter_by_type (prefab_type : option PrefabType)
    (query : list PrefabCatalogModel) : list PrefabCatalogModel :=
  match prefab_type with
  | Some t =>
      if PrefabType_truthy t
      then filter (λ row, pcm_type row = PrefabType_value t) query
      else query
  | None => query
  end.

(** [get_prefab_catalog], for a limit and an offset that are not negative. *)
Definition get_prefab_catalog (prefab_type : option PrefabType)
    (limit offset : nat) : CM (list PrefabCatalogItem) :=
  λ s, let query := filter_by_type prefab_type (prefab_catalog s) in
       let prefab_models := take limit (drop offset query) in
       (PrefabCatalogItems_of prefab_models, s).

(** [query.filter(PrefabCatalogModel.id == prefab_id).first()]. *)
Definition first_by_id (prefab_id : string) : CM (option PrefabCatalogModel) :=
  λ s, (inr (List.find (λ row, String.eqb (pcm_id row) prefab_id)
               (prefab_catalog s)), s).

(** [get_prefab_by_id]. *)
Definition get_prefab_by_id (prefab_id : string) : CM (option PrefabCatalogItem) :=
  prefab_model ← first_by_id prefab_id;
  match prefab_model with
  | None => mret None
  | Some prefab_model =>
      item ← of_result (PrefabCatalogItem_of prefab_model);
      mret (Some item)
  end.

(** The object handed to [db.add]. *)
Definition PrefabCatalogModel_of (prefab_item : PrefabCatalogItem)
  : PrefabCatalogModel :=
  mkPrefabCatalogModel (item_id prefab_item) (item_name prefab_item)
    (PrefabType_value (item_type prefab_item)) (item_description prefab_item)
    (item_thumbnail_url prefab_item) (item_download_url prefab_item)
    (item_size_bytes prefab_item) (item_version prefab_item)
    (item_tags prefab_item) (item_properties prefab_item) None None.

Definition stamp_prefab (obj : PrefabCatalogModel) (created updated : Z)
  : PrefabCatalogModel :=
  mkPrefabCatalogModel (pcm_id obj) (pcm_name obj) (pcm_type obj)
    (pcm_description obj) (pcm_thumbnail_url obj) (pcm_download_url obj)
    (pcm_size_bytes obj) (pcm_version obj) (pcm_tags obj) (pcm_properties obj)
    (Some created) (Some updated).

(** A reading of the session's clock. *)
Definition catalog_utcnow : CM Z :=
  λ s, (inr (catalog_clock s 0%nat),
        mkCatalogSession (λ n, catalog_clock s (S n)) (prefab_catalog s)).

(** The INSERT of one row: the primary key must be new.  The sizes of
    the columns are not checked here. *)
Definition catalog_insert_row (row : PrefabCatalogModel) : CM unit :=
  λ s, if existsb (λ r, String.eqb (pcm_id r) (pcm_id row)) (prefab_catalog s)
       then (inl (IntegrityError (pcm_id row)), s)
       else (inr tt,
             mkCatalogSession (catalog_clock s) (prefab_catalog s ++ [row])%list).

(** [db.add(obj); db.commit()]: the column defaults of [created_at]
    and [updated_at] read the clock, then the row is inserted. *)
Definition catalog_add_commit (obj : PrefabCatalogModel) : CM unit :=
  created ← catalog_utcnow;
  updated ← catalog_utcnow;
  catalog_insert_row (stamp_prefab obj created updated).

(** [add_prefab_to_catalog]. *)
Definition add_prefab_to_catalog (prefab_item : PrefabCatalogItem)
  : CM PrefabCatalogItem :=
  let prefab_model := PrefabCatalogModel_of prefab_item in
  catalog_add_commit prefab_model;;
  mret prefab_item.

(** [get_total_prefab_count]. *)
Definition get_total_prefab_count (prefab_type : option PrefabType) : CM nat :=
  λ s, (inr (length (filter_by_type prefab_type (prefab_catalog s))), s).

Definition default_prefabs : list PrefabCatalogItem :=
  [ mkPrefabCatalogItem "fantasy_castle_01" "Medieval Castle" BUILDING
      "A grand medieval castle with towers and battlements" None
      "https://example.com/prefabs/fantasy_castle_01.unitypackage"
      1024000 "1.0.0" ["fantasy"; "medieval"; "castle"; "building"]
      (list_to_map [("poly_count", JSONInt 5000); ("textures", JSONInt 8);
                    ("materials", JSONInt 3)]);
    mkPrefabCatalogItem "space_station_01" "Space Station Alpha" BUILDING
      "A futuristic space station with docking bays" None
      "https://example.com/prefabs/space_station_01.unitypackage"
      2048000 "1.0.0" ["sci-fi"; "space"; "station"; "building"]
      (list_to_map [("poly_count", JSONInt 8000); ("textures", JSONInt 12);
                    ("materials", JSONInt 5)]);
    mkPrefabCatalogItem "magic_tree_01" "Enchanted Tree" ENVIRONMENT
      "A mystical tree with glowing leaves and magical aura" None
      "https://example.com/prefabs/magic_tree_01.unitypackage"
      512000 "1.0.0" ["fantasy"; "nature"; "magic"; "environment"]
      (list_to_map [("poly_count", JSONInt 2000); ("animated", JSONBool true);
                    ("glow_effect", JSONBool true)]);
    mkPrefabCatalogItem "hologram_display_01" "Holographic Display" UI
      "A futuristic holographic interface display" None
      "https://example.com/prefabs/hologram_display_01.unitypackage"
      256000 "1.0.0" ["sci-fi"; "ui"; "hologram"; "display"]
      (list_to_map [("interactive", JSONBool true); ("glow_effect", JSONBool true);
                    ("animated", JSONBool true)]);
    mkPrefabCatalogItem "modern_building_01" "Modern Office Building" BUILDING
      "A sleek modern office building with glass facade" None
      "https://example.com/prefabs/modern_building_01.unitypackage"
      1536000 "1.0.0" ["modern"; "urban"; "building"; "office"]
      (list_to_map [("poly_count", JSONInt 6000); ("textures", JSONInt 10);
                    ("materials", JSONInt 4)]) ].

(** The loop of [seed_default_prefabs]: a prefab is added unless a row
    with its identifier exists. *)
Fixpoint seed_prefabs (prefabs : list PrefabCatalogItem) : CM unit :=
  match prefabs with
  | [] => mret tt
  | prefab :: rest =>
      existing ← first_by_id (item_id prefab);
      match existing with
      | Some _ => mret tt
      | None => add_prefab_to_catalog prefab;; mret tt
      end;;
      seed_prefabs rest
  end.

(** [seed_default_prefabs]. *)
Definition seed_default_prefabs : CM unit := seed_prefabs default_prefabs.

End prefab_service.

(** ** Publishing: [ExperienceService] of [app/services/experience_service.py] *)

Record PublishRequest : Set := mkPublishRequest {
  pub_world_blueprint_id : string;
  pub_title : string;
  pub_description : string;
  pub_tags : list string;
  pub_is_public : bool;
  pub_user_id : string
}.

(** The failures of the constrained fields of [PublishRequest]; an
    instance of the class has none. *)
Definition PublishRequest_errors (request : PublishRequest) : list ErrorDetails :=
  (check_length "title" 1 200 (pub_title request)
   ++ check_length "description" 1 2000 (pub_description request))%list.

Section experience_service.

(** Ratings are [float]s, which publishing never computes with: the
    type is left open, with the failures [Field(None, ge=0.0, le=5.0)]
    reports on a rating. *)
Context {float : Type}.
Variable rating_errors : float → list ErrorDetails.

(** A row of [experience_cards]. *)
Record ExperienceCardModel : Type := mkExperienceCardModel {
  exp_id : string;
  exp_world_blueprint_id : string;
  exp_title : string;
  exp_description : string;
  exp_thumbnail_url : option string;
  exp_tags : list string;
  exp_author_id : string;
  exp_is_public : bool;
  exp_play_count : Z;
  exp_rating : option float;
  exp_created_at : Z;
  exp_updated_at : Z
}.

Record ExperienceCard : Type := mkExperienceCard {
  card_id : string;
  card_world_blueprint_id : string;
  card_title : string;
  card_description : string;
  card_thumbnail_url : option string;
  card_tags : list string;
  card_author_id : string;
  card_is_public : bool;
  card_play_count : Z;
  card_rating : option float;
  card_created_at : Z;
  card_updated_at : Z
}.

(** The session a request gives the service: the identifiers and the
    clock readings to come, and the rows of the two tables.  Nothing is
    pending in it at entry. *)
Record ExperienceSession : Type := mkExperienceSession {
  es_rng : nat → string;
  es_clock : nat → Z;
  world_blueprints : list WorldBlueprintModel;
  experience_cards : list ExperienceCardModel
}.

Definition EM (A : Type) : Type :=
  ExperienceSession → Result A * ExperienceSession.

#[local] Instance EM_ret : MRet EM := λ A a s, (inr a, s).

#[local] Instance EM_bind : MBind EM :=
  λ A B k c s, match c s with
               | (inr a, s') => k a s'
               | (inl e, s') => (inl e, s')
               end.

Definition es_raise {A} (e : Exception) : EM A := λ s, (inl e, s).

(** A computation that cannot touch the session. *)
Definition es_of_result {A} (r : Result A) : EM A := λ s, (r, s).

Definition es_uuid4 : EM string :=
  λ s, (inr (es_rng s 0%nat),
        mkExperienceSession (λ n, es_rng s (S n)) (es_clock s)
          (world_blueprints s) (experience_cards s)).

Definition es_utcnow : EM Z :=
  λ s, (inr (es_clock s 0%nat),
        mkExperienceSession (es_rng s) (λ n, es_clock s (S n))
          (world_blueprints s) (experience_cards s)).

(** [db.query(WorldBlueprintModel).filter(WorldBlueprintModel.id == id).first()]. *)
Definition first_world_blueprint (id : string) : EM (option WorldBlueprintModel) :=
  λ s, (inr (List.find (λ row, String.eqb (row_id row) id) (world_blueprints s)),
        s).

(** [db.query(ExperienceCardModel).filter(ExperienceCardModel.id == id).first()]. *)
Definition first_experience (id : string) : EM (option ExperienceCardModel) :=
  λ s, (inr (List.find (λ row, String.eqb (exp_id row) id) (experience_cards s)),
        s).

(** The INSERT of one row: the primary key must be new.  The sizes of
    the columns are not checked here. *)
Definition experience_insert_row (row : ExperienceCardModel) : EM unit :=
  λ s, if existsb (λ r, String.eqb (exp_id r) (exp_id row)) (experience_cards s)
       then (inl (IntegrityError (exp_id row)), s)
       else (inr tt,
             mkExperienceSession (es_rng s) (es_clock s) (world_blueprints s)
               (experience_cards s ++ [row])%list).

(** [db.add(experience_model); db.commit(); db.refresh(experience_model)]
    for an object made with the six fields [publish_experience] gives:
    the flush fills the column defaults ([id], [play_count], the two
    timestamps), the other columns are NULL; the refreshed object is
    the row. *)
Definition experience_add_commit (world_blueprint_id title description : string)
    (tags : list string) (author_id : string) (is_public : bool)
  : EM ExperienceCardModel :=
  id ← es_uuid4;
  created_at ← es_utcnow;
  updated_at ← es_utcnow;
  let row := mkExperienceCardModel id world_blueprint_id title description
               None tags author_id is_public 0 None created_at updated_at in
  experience_insert_row row;;
  mret row.

(** The failures of the constrained fields of [ExperienceCard]. *)
Definition ExperienceCard_errors (title description : string)
    (rating : option float) : list ErrorDetails :=
  (check_length "title" 1 200 title
   ++ check_length "description" 1 2000 description
   ++ from_option rating_errors [] rating)%list.

(** [ExperienceCard(id=experience_model.id, ...)]. *)
Definition ExperienceCard_of (experience_model : ExperienceCardModel)
  : Result ExperienceCard :=
  match ExperienceCard_errors (exp_title experience_model)
          (exp_description experience_model) (exp_rating experience_model) with
  | [] =>
      inr (mkExperienceCard (exp_id experience_model)
             (exp_world_blueprint_id experience_model)
             (exp_title experience_model) (exp_description experience_model)
             (exp_thumbnail_url experience_model) (exp_tags experience_model)
             (exp_author_id experience_model) (exp_is_public experience_model)
             (exp_play_count experience_model) (exp_rating experience_model)
             (exp_created_at experience_model) (exp_updated_at experience_model))
  | errors => inl (ValidationError "ExperienceCard" errors)
  end.

(** [publish_experience]. *)
Definition publish_experience (request : PublishRequest) : EM ExperienceCard :=
  world_blueprint ← first_world_blueprint (pub_world_blueprint_id request);
  match world_blueprint with
  | None =>
      es_raise (ValueError ("World blueprint " +:+ pub_world_blueprint_id request
                            +:+ " not found"))
  | Some _ =>
      experience_model ←
        experience_add_commit (pub_world_blueprint_id request)
          (pub_title request) (pub_description request) (pub_tags request)
          (pub_user_id request) (pub_is_public request);
      es_of_result (ExperienceCard_of experience_model)
  end.

(** [get_experience_by_id]. *)
Definition get_experience_by_id (experience_id : string)
  : EM (option ExperienceCard) :=
  experience_model ← first_experience experience_id;
  match experience_model with
  | None => mret None
  | Some experience_model =>
      card ← es_of_result (ExperienceCard_of experience_model);
      mret (Some card)
  end.

(** The endpoint [publish_experience] of [app/api/publish.py], once
    the request is validated and the user authenticated: the status it
    answers with (200 for a returned response) and the card.  Pydantic's
    [ValidationError] is a [ValueError]; its text is left open. *)
Variable validation_error_str : string → list ErrorDetails → string.

Definition publish_endpoint (request : PublishRequest) (s : ExperienceSession)
  : Z * option ExperienceCard * ExperienceSession :=
  match publish_experience request s with
  | (inr experience_card, s') => (200, Some experience_card, s')
  | (inl e, s') =>
      let not_found_or_bad_request (text : string) :=
        if Py.contains "not found" (Py.lower text)
        then status.HTTP_404_NOT_FOUND
        else status.HTTP_400_BAD_REQUEST in
      match e with
      | ValueError msg => (not_found_or_bad_request msg, None, s')
      | ValidationError model errors =>
          (not_found_or_bad_request (validation_error_str model errors), None, s')
      | _ => (status.HTTP_500_INTERNAL_SERVER_ERROR, None, s')
      end
  end.

End experience_service.

(** ** The design document's wording, for comparison with the code *)






(** [default_instances_for]: the instance templates of a category,
    each waiting for the identifier of the instance made from it. *)
Definition default_instances_for (category : WorldType)
  : list (string → PrefabInstance) :=
  match category with
  | FANTASY =>
      [ λ id, mkPrefabInstance id "fantasy_castle_01" BUILDING
                (mkVector3 0 0 0) (mkQuaternion 0 0 0 1) (mkVector3 1 1 1)
                (list_to_map [("theme", PyStr "medieval"); ("size", PyStr "large")]);
        λ id, mkPrefabInstance id "magic_tree_01" ENVIRONMENT
                (mkVector3 10 0 5) (mkQuaternion 0 0 0 1) (mkVector3 1 1 1)
                (list_to_map [("glow", PyBool true); ("animated", PyBool true)]) ]
  | SCI_FI =>
      [ λ id, mkPrefabInstance id "space_station_01" BUILDING
                (mkVector3 0 0 0) (mkQuaternion 0 0 0 1) (mkVector3 1 1 1)
                (list_to_map [("theme", PyStr "futuristic"); ("size", PyStr "massive")]);
        λ id, mkPrefabInstance id "hologram_display_01" UI
                (mkVector3 5 2 0) (mkQuaternion 0 0 0 1) (mkVector3 1 1 1)
                (list_to_map [("interactive", PyBool true); ("glow", PyBool true)]) ]
  | _ =>
      [ λ id, mkPrefabInstance id "modern_building_01" BUILDING
                (mkVector3 0 0 0) (mkQuaternion 0 0 0 1) (mkVector3 1 1 1)
                (list_to_map [("theme", PyStr "modern"); ("size", PyStr "medium")]) ]
  end.

(** The template count of a category. *)
Definition template_count (category : WorldType) : nat :=
  match category with FANTASY | SCI_FI => 2 | _ => 1 end.


(** The templates made into instances, the [i]-th one with the [i]-th
    identifier drawn. *)
Definition materialize (templates : list (string → PrefabInstance))
    (ids : nat → string) : list PrefabInstance :=
  imap (λ i template, template (ids i)) templates.

(** The runtime after [n] identifiers and [m] clock readings. *)
Definition advance (n m : nat) (s : Runtime) : Runtime :=
  mkRuntime (λ k, rng s (n + k)%nat) (λ k, clock s (m + k)%nat) (db s).

(** What of a blueprint comes from the templates and the prompt: the
    blueprint with its generated identifiers and its time-derived
    fields blanked. *)
Definition template_content (b : WorldBlueprint) : WorldBlueprint :=
  mkWorldBlueprint "" (wb_prompt b) (wb_world_type b) (wb_title b)
    (wb_description b) (wb_environment_settings b)
    ((λ i, mkPrefabInstance "" (pi_prefab_id i) (pi_prefab_type i)
             (pi_position i) (pi_rotation i) (pi_scale i) (pi_properties i))
       <$> wb_prefab_instances b)
    (wb_spawn_points b) 0 0 None.

(** Archetype and position of each instance, in order. *)
Definition placements (b : WorldBlueprint) : list (string * Vector3) :=
  (λ i, (pi_prefab_id i, pi_position i)) <$> wb_prefab_instances b.

Definition forest_prompt : string :=
  "A magical forest with ancient trees and glowing mushrooms".

(** The categories inference can answer. *)
Definition inferable : list WorldType :=
  [FANTASY; SCI_FI; URBAN; NATURE; HISTORICAL; REALISTIC].

(** A prompt made of white space only (and the empty one). *)
Definition whitespace_only (s : string) : bool :=
  forallb Py.is_space (list_ascii_of_string s).

(** [s * n]: the string repeated. *)
Fixpoint str_mul (s : string) (n : nat) : string :=
  match n with
  | O => ""
  | S m => s +:+ str_mul s m
  end.

(** [c * n]: the character repeated. *)
Fixpoint repeat_char (c : ascii) (n : nat) : string :=
  match n with
  | O => ""
  | S m => String c (repeat_char c m)
  end.

(** ** Text beyond ASCII

    [Py.lower], [Py.upper], [Py.title] and [Py.split] are Python's on
    ASCII text.  They keep the other characters as they are and take
    them for uncased and for no white space, which is not what Python
    does with all of them: what depends on the case or on the white
    space of such characters is stated for ASCII text only. *)

(** [s.isascii()]. *)
Definition str_isascii (s : string) : bool :=
  forallb (λ c, Nat.ltb (nat_of_ascii c) 128) (list_ascii_of_string s).




(** ** Notions used to state further properties of the code *)

(** The place of a category in the chain of [_infer_world_type]:
    the earlier the test, the smaller the number; the two categories
    inference never answers come last. *)
Definition precedence (t : WorldType) : nat :=
  match t with
  | FANTASY => 0 | SCI_FI => 1 | URBAN => 2 | NATURE => 3
  | HISTORICAL => 4 | REALISTIC => 5 | SURREAL => 6 | SPACE => 7
  end%nat.

(** The first five words of a prompt, joined: what the title is made of. *)
Definition title_words (prompt : string) : string :=
  Py.join " " (take 5 (Py.split prompt)).

(** A runtime in which calls cannot collide: nothing is pending in the
    session, the identifier source never repeats itself nor returns a
    key of the table, and the keys of the table are distinct. *)
Definition healthy (s : Runtime) : Prop :=
  pending (db s) = []
  ∧ (∀ i j, rng s i = rng s j → i = j)
  ∧ (∀ i, rng s i ∉ (row_id <$> committed (db s)))
  ∧ NoDup (row_id <$> committed (db s)).

(** A runtime whose [n]-th identifier is [n] letters long. *)
Definition unary_runtime : Runtime :=
  mkRuntime (repeat_char "u") sample_clock empty_session.

(** A catalog whose rows all hold the value of a prefab type. *)
Definition catalog_typed (s : CatalogSession) : Prop :=
  Forall (λ row, is_Some (PrefabType_of_value (pcm_type row))) (prefab_catalog s).

(** The identifiers of the rows, in order. *)
Definition catalog_ids (s : CatalogSession) : list string :=
  pcm_id <$> prefab_catalog s.

Definition empty_catalog : CatalogSession := mkCatalogSession sample_clock [].

(** An item whose fields fit the columns of [prefab_catalog]
    ([String(200)], [String(500)], [String(50)], [Integer]).  Not
    every database enforces the sizes of its columns; what is said of
    a successful insertion is said of such items. *)
Definition fits_prefab_catalog (prefab_item : PrefabCatalogItem) : Prop :=
  (String.length (item_name prefab_item) ≤ 200)%nat
  ∧ (from_option String.length 0%nat (item_thumbnail_url prefab_item) ≤ 500)%nat
  ∧ (String.length (item_download_url prefab_item) ≤ 500)%nat
  ∧ (String.length (item_version prefab_item) ≤ 50)%nat
  ∧ -2147483648 ≤ item_size_bytes prefab_item ≤ 2147483647.

(** The catalog a first seeding leaves. *)
Definition seeded_catalog : CatalogSession := (seed_default_prefabs empty_catalog).2.

(** The session of a later request over the tables a runtime leaves,
    with the experience cards given. *)
Definition publishing_session {float : Type} (s : Runtime)
    (cards : list (@ExperienceCardModel float)) : ExperienceSession :=
  mkExperienceSession (rng s) (clock s) (committed (db s)) cards.

(** A request whose author fits the [String(100)] of the column
    [author_id]; the title fits its column by its own constraint. *)
Definition fits_experience_cards (request : PublishRequest) : Prop :=
  (String.length (pub_user_id request) ≤ 100)%nat.

(** The row [publish_experience] inserts for a request, and the card
    it returns for it. *)
Definition published_row {float : Type} (request : PublishRequest)
    (s : @ExperienceSession float) : @ExperienceCardModel float :=
  mkExperienceCardModel (es_rng s 0%nat) (pub_world_blueprint_id request)
    (pub_title request) (pub_description request) None (pub_tags request)
    (pub_user_id request) (pub_is_public request) 0 None
    (es_clock s 0%nat) (es_clock s 1%nat).

Definition published_card {float : Type} (request : PublishRequest)
    (s : @ExperienceSession float) : @ExperienceCard float :=
  mkExperienceCard (es_rng s 0%nat) (pub_world_blueprint_id request)
    (pub_title request) (pub_description request) None (pub_tags request)
    (pub_user_id request) (pub_is_public request) 0 None
    (es_clock s 0%nat) (es_clock s 1%nat).

(** A session with one blueprint and no card, and a request for it. *)
Definition sample_publishing_session : @ExperienceSession Z :=
  mkExperienceSession sample_uuid sample_clock
    [mkWorldBlueprintModel "blueprint-1" "a castle" "fantasy" "A Castle World"
       "Generated from: 'a castle'." ∅ [] [] (Some 0) (Some 0)]
    [].

Definition sample_publish_request : PublishRequest :=
  mkPublishRequest "blueprint-1" "My castle" "A castle to visit" ["castle"]
    true "test_user".

(** * Properties *)

(** ** The primitives and the service on examples *)

Example split_example :
  Py.split "  a magical	forest " = ["a"; "magical"; "forest"].
Proof. reflexivity. Qed.

Example split_blank_example : Py.split "   " = [].
Proof. reflexivity. Qed.

Example title_example : Py.title "a maGical don't 3d" = "A Magical Don'T 3D".
Proof. reflexivity. Qed.

Example contains_example :
  Py.contains "magic" "a magical forest" = true
  ∧ Py.contains "city" "a magical forest" = false
  ∧ Py.contains "" "" = true.
Proof. repeat split; reflexivity. Qed.

(** [test_convert_prompt_to_world_long_prompt]: 1700 characters. *)
Example long_prompt_is_rejected :
  PromptRequest_validate (mkBody (str_mul "A magical forest " 100) None "test_user")
  = inl (ValidationError "PromptRequest"
           [mkError "prompt" (string_too_long 1000)]).
Proof. vm_compute. reflexivity. Qed.

(** [test_world_generator_service]: an explicit category is kept. *)
Example explicit_category_example :
  ∃ blueprint,
    (generate_world_from_prompt
       (mkPromptRequest "A magical forest with ancient trees" (Some FANTASY)
          "test_user") sample_runtime).1 = inr blueprint
    ∧ wb_world_type blueprint = FANTASY
    ∧ wb_title blueprint = "A Magical Forest With Ancient World".
Proof. eexists. split; [vm_compute; reflexivity | split; reflexivity]. Qed.

(** A prompt the request accepts can still make the blueprint fail:
    the title is built from the first five words whatever their
    length, and the title field holds 200 characters. *)
Example long_first_word_example :
  PromptRequest_validate (mkBody (repeat_char "a" 201) None "test_user")
  = inr (mkPromptRequest (repeat_char "a" 201) None "test_user")
  ∧ (_create_world_blueprint (repeat_char "a" 201) REALISTIC sample_runtime).1
    = inl (ValidationError "WorldBlueprint"
             [mkError "title" (string_too_long 200)]).
Proof. split; vm_compute; reflexivity. Qed.

(** With a source of identifiers that repeats itself the validator
    fires, and the endpoint answers with an internal server error. *)
Example repeated_identifier_example :
  (generate_world_from_prompt
     (mkPromptRequest forest_prompt None "test_user") stuck_runtime).1
  = inl (ValidationError "WorldBlueprint"
           [mkError "prefab_instances"
              (value_error "Prefab instances must have unique IDs")])
  ∧ (convert_prompt_to_world
       (mkPromptRequest forest_prompt None "test_user") stuck_runtime).1
    = (HTTP_500_INTERNAL_SERVER_ERROR, None).
Proof. split; vm_compute; reflexivity. Qed.

(** ** Strings *)

Section string_facts.

Lemma app_nil_l (t : string) : "" +:+ t = t.
Proof. reflexivity. Qed.

Lemma app_cons (c : ascii) (s t : string) :
  String c s +:+ t = String c (s +:+ t).
Proof. reflexivity. Qed.

Lemma length_app (s t : string) :
  String.length (s +:+ t) = (String.length s + String.length t)%nat.
Proof.
  induction s as [|c s IH]; [done|].
  rewrite app_cons. simpl. by rewrite IH.
Qed.

Lemma prefix_iff (w s : string) :
  String.prefix w s = true ↔ ∃ b, s = w +:+ b.
Proof.
  revert s. induction w as [|c w IH]; intros [|d s]; simpl.
  - split; [intros _; by exists "" | done].
  - split; [intros _; by exists (String d s) | done].
  - split; [done | intros [b Hb]; discriminate].
  - destruct (Ascii.ascii_dec c d) as [->|Hne].
    + rewrite IH. split; intros [b Hb]; exists b;
        rewrite ?app_cons in *; congruence.
    + split; [done | intros [b Hb]; rewrite app_cons in Hb; congruence].
Qed.

Lemma contains_unfold (w s : string) :
  Py.contains w s
  = if String.prefix w s then true
    else match s with
         | EmptyString => false
         | String _ r => Py.contains w r
         end.
Proof. by destruct s. Qed.

(** [Py.contains] decides occurrence as a contiguous run. *)
Lemma contains_iff (w s : string) :
  Py.contains w s = true ↔ ∃ a b, s = a +:+ w +:+ b.
Proof.
  induction s as [|d s IH]; rewrite contains_unfold.
  - destruct (String.prefix w "") eqn:Hp.
    + apply prefix_iff in Hp as [b Hb]. split; [|done].
      intros _. by exists "", b.
    + split; [done |]. intros ([|x a] & b & Hab); [|discriminate].
      assert (String.prefix w "" = true) as Hp'
        by (apply prefix_iff; by exists b).
      congruence.
  - destruct (String.prefix w (String d s)) eqn:Hp.
    + apply prefix_iff in Hp as [b Hb]. split; [|done].
      intros _. by exists "", b.
    + rewrite IH. split.
      * intros (a & b & ->). by exists (String d a), b.
      * intros ([|x a] & b & Hab).
        -- assert (String.prefix w (String d s) = true) as Hp'
             by (apply prefix_iff; by exists b).
           congruence.
        -- rewrite app_cons in Hab. injection Hab as _ ->. by exists a, b.
Qed.





End string_facts.

(** ** The uniqueness validator *)

Section unique_ids.

Lemma length_remove_dups_le (l : list string) :
  (length (remove_dups l) ≤ length l)%nat.
Proof.
  induction l as [|x l IH]; simpl; [done|].
  destruct (decide_rel _ x l); simpl; lia.
Qed.

Lemma length_remove_dups_NoDup (l : list string) :
  length (remove_dups l) = length l ↔ NoDup l.
Proof.
  induction l as [|x l IH]; simpl.
  - split; [intros; constructor | done].
  - pose proof (length_remove_dups_le l).
    destruct (decide_rel _ x l) as [Hin|Hnin]; simpl.
    + split; [lia | intros Hnd; by apply NoDup_cons in Hnd as [? _]].
    + rewrite NoDup_cons. split.
      * intros Hlen. split; [done | apply IH; lia].
      * intros [_ Hnd]. apply IH in Hnd. lia.
Qed.

Lemma size_list_to_set_remove_dups (l : list string) :
  size (list_to_set l : gset string) = length (remove_dups l).
Proof.
  rewrite <-(size_list_to_set (C:=gset string) (remove_dups l))
    by apply NoDup_remove_dups.
  f_equal. apply set_eq. intros x.
  by rewrite !elem_of_list_to_set, elem_of_remove_dups.
Qed.

(** [len(ids) != len(set(ids))] exactly when an identifier repeats. *)
Lemma len_set_NoDup (l : list string) :
  length l = size (list_to_set l : gset string) ↔ NoDup l.
Proof.
  rewrite size_list_to_set_remove_dups, <-length_remove_dups_NoDup.
  split; congruence.
Qed.

Lemma validate_prefab_instances_ok (v : list PrefabInstance) :
  NoDup (pi_id <$> v) → validate_prefab_instances v = inr v.
Proof.
  intros Hnd. unfold validate_prefab_instances.
  case_decide as Hne; [|done]. by apply len_set_NoDup in Hnd.
Qed.

Lemma validate_prefab_instances_dup (v : list PrefabInstance) :
  ¬ NoDup (pi_id <$> v) →
  validate_prefab_instances v
  = inl (ValueError "Prefab instances must have unique IDs").
Proof.
  intros Hnd. unfold validate_prefab_instances.
  case_decide as Hne; [done|].
  destruct Hnd. apply len_set_NoDup.
  by destruct (decide (length (pi_id <$> v)
                       = size (list_to_set (pi_id <$> v) : gset string))).
Qed.

End unique_ids.

(** ** The classifier *)

Section classifier.





Lemma infer_world_type_inferable (prompt : string) :
  _infer_world_type prompt ∈ inferable.
Proof.
  unfold _infer_world_type, inferable.
  repeat match goal with
         | |- context [if Py.any ?f ?l then _ else _] => destruct (Py.any f l)
         end; set_solver.
Qed.

End classifier.

(** ** Running the service *)

Section runs.

Lemma bind_run {A B} (c : M A) (k : A → M B) (s : Runtime) :
  (c ≫= k) s
  = match c s with
    | (inr a, s') => k a s'
    | (inl e, s') => (inl e, s')
    end.
Proof. reflexivity. Qed.

Lemma bind_inr {A B} (c : M A) (k : A → M B) (s s' : Runtime) (b : B) :
  (c ≫= k) s = (inr b, s') →
  ∃ a s1, c s = (inr a, s1) ∧ k a s1 = (inr b, s').
Proof.
  rewrite bind_run. destruct (c s) as [[e|a] s1]; [done|]. by exists a, s1.
Qed.

(** A run is known from its result alone, whatever state it leaves. *)
Lemma run_fst {A} (c : M A) (s : Runtime) (a : A) :
  (c s).1 = inr a → ∃ s', c s = (inr a, s').
Proof. destruct (c s) as [r s']. simpl. intros ->. by exists s'. Qed.

(** The instances generated are the templates of the category, with
    the identifiers drawn in order; nothing else is consumed. *)
Lemma generate_prefab_instances_run prompt world_type s :
  _generate_prefab_instances prompt world_type s
  = (inr (materialize (default_instances_for world_type) (rng s)),
     advance (template_count world_type) 0 s).
Proof. by destruct world_type. Qed.




(** What [_create_world_blueprint] returns, and the state it leaves. *)
Lemma create_world_blueprint_run prompt world_type s :
  _create_world_blueprint prompt world_type s
  = let n := template_count world_type in
    let title := _generate_title prompt world_type in
    let description := _generate_description prompt world_type in
    let instances := materialize (default_instances_for world_type) (rng s) in
    let errors := WorldBlueprint_errors prompt title description instances in
    (match errors with
     | [] => inr (mkWorldBlueprint (rng s n) prompt world_type title description
                    (_generate_environment_settings world_type) instances
                    (_generate_spawn_points world_type)
                    (clock s 0%nat) (clock s 1%nat) None)
     | _ => inl (ValidationError "WorldBlueprint" errors)
     end,
     advance (S n) 2 s).
Proof.
  unfold _create_world_blueprint. rewrite bind_run, generate_prefab_instances_run.
  cbv zeta. unfold WorldBlueprint_new.
  destruct (WorldBlueprint_errors _ _ _ _) as [|e errs]; by destruct world_type.
Qed.

(** Inversion of a successful [_create_world_blueprint]. *)
Lemma create_world_blueprint_inr prompt world_type s blueprint s' :
  _create_world_blueprint prompt world_type s = (inr blueprint, s') →
  let instances := materialize (default_instances_for world_type) (rng s) in
  WorldBlueprint_errors prompt (_generate_title prompt world_type)
    (_generate_description prompt world_type) instances = []
  ∧ blueprint
    = mkWorldBlueprint (rng s (template_count world_type)) prompt world_type
        (_generate_title prompt world_type)
        (_generate_description prompt world_type)
        (_generate_environment_settings world_type) instances
        (_generate_spawn_points world_type)
        (clock s 0%nat) (clock s 1%nat) None
  ∧ s' = advance (S (template_count world_type)) 2 s.
Proof.
  rewrite create_world_blueprint_run. cbv zeta.
  destruct (WorldBlueprint_errors _ _ _ _); [|done].
  by intros [= <- <-].
Qed.

Lemma check_length_nil field lo hi v :
  check_length field lo hi v = []
  ↔ (lo ≤ String.length v ∧ String.length v ≤ hi)%nat.
Proof.
  unfold check_length.
  destruct (Nat.ltb_spec (String.length v) lo);
    [|destruct (Nat.ltb_spec hi (String.length v))];
    split; try done; lia.
Qed.

Lemma check_length_loc field lo hi v e :
  e ∈ check_length field lo hi v → err_loc e = field.
Proof.
  unfold check_length.
  destruct (Nat.ltb (String.length v) lo);
    [|destruct (Nat.ltb hi (String.length v))];
    intros He; repeat (inversion He as [|? ? ? He']; subst; clear He;
                       try done; rename He' into He).
Qed.

(** The blueprint is accepted exactly when the three lengths are in
    range and the instance identifiers do not repeat. *)
Lemma WorldBlueprint_errors_nil prompt title description instances :
  WorldBlueprint_errors prompt title description instances = []
  ↔ (1 ≤ String.length prompt ≤ 1000)%nat
    ∧ (1 ≤ String.length title ≤ 200)%nat
    ∧ (1 ≤ String.length description ≤ 2000)%nat
    ∧ NoDup (pi_id <$> instances).
Proof.
  unfold WorldBlueprint_errors.
  rewrite !app_nil, !check_length_nil.
  destruct (decide (NoDup (pi_id <$> instances))) as [Hnd|Hnd].
  - rewrite (validate_prefab_instances_ok _ Hnd). tauto.
  - rewrite (validate_prefab_instances_dup _ Hnd).
    split; [intros (_ & _ & _ & [=]) | tauto].
Qed.

Lemma existsb_row_id_false rows id :
  id ∉ (row_id <$> rows) →
  existsb (λ r, String.eqb (row_id r) id) rows = false.
Proof.
  induction rows as [|r rows IH]; simpl; [done|].
  intros Hid. apply not_elem_of_cons in Hid as [Hne Hid].
  rewrite (IH Hid), orb_false_r. apply String.eqb_neq. congruence.
Qed.

(** A successful flush appends one stamped row per object, in order,
    and leaves the identifier source and the pending list alone. *)
Lemma db_flush_inr objs s s' :
  db_flush objs s = (inr (), s') →
  rng s' = rng s ∧ pending (db s') = pending (db s)
  ∧ ∃ rows, committed (db s') = (committed (db s) ++ rows)%list
            ∧ Forall2 (λ obj row, ∃ c u, row = stamp obj c u) objs rows.
Proof.
  revert s. induction objs as [|obj objs IH]; intros s; simpl.
  - intros [= <-]. repeat split. exists []. by rewrite app_nil_r.
  - intros Hrun. apply bind_inr in Hrun as ([] & s1 & Hins & Hrest).
    apply IH in Hrest as (Hrng & Hpend & rows & Hrows & Hall).
    unfold db_insert in Hins.
    apply bind_inr in Hins as (c & sa & [= <- <-] & Hins).
    apply bind_inr in Hins as (u & sb & [= <- <-] & Hins).
    unfold db_insert_row in Hins. simpl in Hins.
    destruct (existsb _ _); [done|]. injection Hins as <-.
    simpl in *. repeat split; [done..|].
    exists (stamp obj (clock s 0%nat) (clock s 1%nat) :: rows). split.
    + by rewrite Hrows, <-app_assoc.
    + constructor; [by eexists _, _ | done].
Qed.

Lemma db_commit_inr s s' :
  db_commit s = (inr (), s') →
  rng s' = rng s ∧ pending (db s') = []
  ∧ ∃ rows, committed (db s') = (committed (db s) ++ rows)%list
            ∧ Forall2 (λ obj row, ∃ c u, row = stamp obj c u)
                (pending (db s)) rows.
Proof. intros Hrun. by apply db_flush_inr in Hrun. Qed.

(** Inversion of a successful [generate_world_from_prompt]. *)
Lemma generate_world_from_prompt_inr request s blueprint s' :
  generate_world_from_prompt request s = (inr blueprint, s') →
  ∃ built ms earlier created updated,
    _create_world_blueprint (req_prompt request) (resolve_world_type request)
      (advance 0 1 s)
    = (inr built, advance (S (template_count (resolve_world_type request))) 3 s)
    ∧ blueprint = set_processing_time_ms built ms
    ∧ pending (db s') = []
    ∧ committed (db s')
      = (committed (db s) ++ earlier
         ++ [stamp (WorldBlueprintModel_of blueprint) created updated])%list
    ∧ length earlier = length (pending (db s)).
Proof.
  unfold generate_world_from_prompt. intros Hrun.
  apply bind_inr in Hrun as (t0 & s0 & [= <- <-] & Hrun).
  apply bind_inr in Hrun as (built & s1 & Hcreate & Hrun).
  apply bind_inr in Hrun as ([] & s2 & [= <-] & Hrun).
  apply bind_inr in Hrun as ([] & s3 & Hcommit & Hrun).
  apply bind_inr in Hrun as (t1 & s4 & [= <- <-] & [= <- <-]).
  pose proof Hcreate as Hcreate'.
  rewrite create_world_blueprint_run in Hcreate'. cbv zeta in Hcreate'.
  injection Hcreate' as _ <-.
  apply db_commit_inr in Hcommit as (_ & Hpend & rows & Hrows & Hall).
  simpl in Hrows, Hall.
  apply Forall2_app_inv_l in Hall as (earlier & last & Hearlier & Hlast & ->).
  apply Forall2_cons_inv_l in Hlast as (row & nil & (c & u & ->) & Hnil & ->).
  apply Forall2_nil_inv_l in Hnil as ->.
  exists built, (Z.quot (clock s3 0%nat - clock s 0%nat) 1000), earlier, c, u.
  repeat split; try done.
  by apply Forall2_length in Hearlier.
Qed.

Lemma create_world_blueprint_ok prompt world_type s :
  let instances := materialize (default_instances_for world_type) (rng s) in
  WorldBlueprint_errors prompt (_generate_title prompt world_type)
    (_generate_description prompt world_type) instances = [] →
  _create_world_blueprint prompt world_type s
  = (inr (mkWorldBlueprint (rng s (template_count world_type)) prompt
            world_type (_generate_title prompt world_type)
            (_generate_description prompt world_type)
            (_generate_environment_settings world_type) instances
            (_generate_spawn_points world_type)
            (clock s 0%nat) (clock s 1%nat) None),
     advance (S (template_count world_type)) 2 s).
Proof.
  intros instances Herrors. rewrite create_world_blueprint_run. cbv zeta.
  fold instances. by rewrite Herrors.
Qed.

Lemma materialize_ids world_type ids :
  pi_id <$> materialize (default_instances_for world_type) ids
  = ids <$> seq 0 (template_count world_type).
Proof. by destruct world_type. Qed.

Lemma template_content_materialize world_type ids ids' :
  (λ i, mkPrefabInstance "" (pi_prefab_id i) (pi_prefab_type i)
          (pi_position i) (pi_rotation i) (pi_scale i) (pi_properties i))
    <$> materialize (default_instances_for world_type) ids
  = (λ i, mkPrefabInstance "" (pi_prefab_id i) (pi_prefab_type i)
            (pi_position i) (pi_rotation i) (pi_scale i) (pi_properties i))
      <$> materialize (default_instances_for world_type) ids'.
Proof. by destruct world_type. Qed.

(** The fields of a blueprint [generate_world_from_prompt] returns. *)
Lemma generate_world_from_prompt_fields request s blueprint s' :
  generate_world_from_prompt request s = (inr blueprint, s') →
  let world_type := resolve_world_type request in
  let prompt := req_prompt request in
  wb_prompt blueprint = prompt
  ∧ wb_world_type blueprint = world_type
  ∧ wb_title blueprint = _generate_title prompt world_type
  ∧ wb_description blueprint = _generate_description prompt world_type
  ∧ wb_environment_settings blueprint = _generate_environment_settings world_type
  ∧ wb_prefab_instances blueprint
    = materialize (default_instances_for world_type) (rng s)
  ∧ wb_spawn_points blueprint = _generate_spawn_points world_type
  ∧ NoDup (pi_id <$> wb_prefab_instances blueprint).
Proof.
  intros Hrun.
  apply generate_world_from_prompt_inr in Hrun
    as (built & ms & earlier & c & u & Hcreate & -> & _).
  apply create_world_blueprint_inr in Hcreate as (Herrors & -> & _).
  apply WorldBlueprint_errors_nil in Herrors as (_ & _ & _ & Hnd).
  by repeat split.
Qed.

(** The run of [generate_world_from_prompt] on a session with
    nothing pending, when the blueprint is accepted and its
    identifier is not yet a key of the table.  The clock is read six
    times: start, [created_at], [updated_at], the two column
    defaults of the row, end. *)
Lemma generate_world_from_prompt_ok request s :
  let world_type := resolve_world_type request in
  let prompt := req_prompt request in
  let n := template_count world_type in
  let title := _generate_title prompt world_type in
  let description := _generate_description prompt world_type in
  let instances := materialize (default_instances_for world_type) (rng s) in
  let blueprint ms :=
    mkWorldBlueprint (rng s n) prompt world_type title description
      (_generate_environment_settings world_type) instances
      (_generate_spawn_points world_type)
      (clock s 1%nat) (clock s 2%nat) ms in
  WorldBlueprint_errors prompt title description instances = [] →
  pending (db s) = [] →
  rng s n ∉ (row_id <$> committed (db s)) →
  generate_world_from_prompt request s
  = (inr (blueprint (Some (Z.quot (clock s 5%nat - clock s 0%nat) 1000))),
     mkRuntime (λ k, rng s (S n + k)%nat) (λ k, clock s (6 + k)%nat)
       (mkSession
          (committed (db s)
           ++ [stamp (WorldBlueprintModel_of (blueprint None))
                 (clock s 3%nat) (clock s 4%nat)])%list [])).
Proof.
  intros world_type prompt n title description instances blueprint
    Herrors Hpending Hfresh.
  unfold generate_world_from_prompt.
  rewrite bind_run. cbn [time_time now].
  rewrite bind_run, create_world_blueprint_run. cbv zeta.
  unfold advance. cbn [rng clock db].
  fold world_type prompt n title description instances. rewrite Herrors.
  rewrite bind_run. cbn [db_add rng clock db committed pending].
  rewrite bind_run. unfold db_commit. cbn [rng clock db committed pending].
  rewrite Hpending. cbn [app db_flush].
  rewrite bind_run. unfold db_insert.
  rewrite bind_run. cbn [datetime_utcnow now rng clock db].
  rewrite bind_run. cbn [datetime_utcnow now rng clock db].
  unfold db_insert_row. cbn [rng clock db committed pending].
  rewrite existsb_row_id_false by done.
  reflexivity.
Qed.

End runs.

(** ** The claims about the classifier *)



(** C9.  Inference answers one of fantasy, sci_fi, urban, nature,
    historical, realistic, never surreal or space; a blueprint of
    category surreal or space comes from a request that names that
    category, and such requests do produce one. *)
Theorem C9_inferred_categories :
  (∀ prompt, _infer_world_type prompt ∈ inferable
             ∧ _infer_world_type prompt ≠ SURREAL
             ∧ _infer_world_type prompt ≠ SPACE)
  ∧ (∀ request s blueprint s',
       generate_world_from_prompt request s = (inr blueprint, s') →
       wb_world_type blueprint = SURREAL ∨ wb_world_type blueprint = SPACE →
       req_world_type request = Some (wb_world_type blueprint))
  ∧ (∀ category, category = SURREAL ∨ category = SPACE →
       ∃ blueprint s',
         generate_world_from_prompt
           (mkPromptRequest "a quiet place" (Some category) "test_user")
           sample_runtime = (inr blueprint, s')
         ∧ wb_world_type blueprint = category
         ∧ _infer_world_type "a quiet place" = REALISTIC).
Proof.
  assert (∀ prompt, _infer_world_type prompt ≠ SURREAL
                    ∧ _infer_world_type prompt ≠ SPACE) as Hnever.
  { intros prompt. pose proof (infer_world_type_inferable prompt) as Hin.
    unfold inferable in Hin.
    split; intros Heq; rewrite Heq in Hin;
      repeat (apply elem_of_cons in Hin as [[=]|Hin]); by apply elem_of_nil in Hin. }
  split; [|split].
  - intros prompt. split; [apply infer_world_type_inferable | apply Hnever].
  - intros request s blueprint s' Hrun Hcat.
    apply generate_world_from_prompt_inr in Hrun
      as (built & ms & earlier & c & u & Hcreate & -> & _).
    apply create_world_blueprint_inr in Hcreate as (_ & -> & _).
    cbn [set_processing_time_ms wb_world_type] in *.
    unfold resolve_world_type in *.
    destruct (req_world_type request) as [t|].
    + by destruct t.
    + destruct (Hnever (req_prompt request)). by destruct Hcat.
  - intros category Hcat.
    destruct (run_fst
                (generate_world_from_prompt
                   (mkPromptRequest "a quiet place" (Some category) "test_user"))
                sample_runtime
                (mkWorldBlueprint (sample_uuid 1) "a quiet place" category
                   "A Quiet Place World"
                   (_generate_description "a quiet place" category)
                   (_generate_environment_settings category)
                   (materialize (default_instances_for category) sample_uuid)
                   (_generate_spawn_points category)
                   (sample_clock 1) (sample_clock 2) (Some 7)))
      as [s' Hrun].
    { by destruct Hcat as [-> | ->]; vm_compute. }
    eexists _, s'. split; [exact Hrun | done].
Qed.

(** ** The claims about validation *)

Section lengths.

Lemma fragment_length world_type :
  (String.length
     (default "A unique world to explore." (base_descriptions !! world_type))
   ≤ 65)%nat.
Proof. destruct world_type; vm_compute; lia. Qed.

Lemma description_length prompt world_type :
  String.length (_generate_description prompt world_type)
  = (20 + String.length prompt
     + String.length
         (default "A unique world to explore."
            (base_descriptions !! world_type)))%nat.
Proof.
  unfold _generate_description. rewrite !length_app.
  change (String.length "Generated from: '") with 17%nat.
  change (String.length "'. ") with 3%nat. lia.
Qed.

Lemma title_length prompt world_type :
  String.length (_generate_title prompt world_type)
  = (String.length (Py.title (Py.join " " (take 5 (Py.split prompt)))) + 6)%nat.
Proof. unfold _generate_title. by rewrite length_app. Qed.

(** The title-casing of the model keeps the length. *)
Lemma length_title_go (s : string) (previous_is_cased : bool) :
  String.length (Py.title_go s previous_is_cased) = String.length s.
Proof.
  revert previous_is_cased. induction s as [|c s IH]; intros b; simpl; [done|].
  by rewrite IH.
Qed.

Lemma generate_title_length (prompt : string) (world_type : WorldType) :
  String.length (_generate_title prompt world_type)
  = (String.length (title_words prompt) + 6)%nat.
Proof.
  rewrite title_length. unfold Py.title. by rewrite length_title_go.
Qed.

Lemma length_repeat_char c n : String.length (repeat_char c n) = n.
Proof. induction n as [|n IH]; simpl; [done | by rewrite IH]. Qed.

End lengths.

(** C10.  For a prompt of 1 to 1000 characters and any category the
    description "Generated from: '{prompt}'. {fragment}" has between 1
    and 2000 characters, so the length check of the description field
    passes, and no validation error [_create_world_blueprint] raises
    is about the description. *)
Theorem C10_description_length_in_range prompt world_type :
  (1 ≤ String.length prompt ≤ 1000)%nat →
  (1 ≤ String.length (_generate_description prompt world_type) ≤ 2000)%nat
  ∧ check_length "description" 1 2000 (_generate_description prompt world_type) = []
  ∧ (∀ s model errors s' e,
       _create_world_blueprint prompt world_type s
       = (inl (ValidationError model errors), s') →
       e ∈ errors → err_loc e ≠ "description").
Proof.
  intros Hprompt.
  assert (1 ≤ String.length (_generate_description prompt world_type) ≤ 2000)%nat
    as Hlen.
  { rewrite description_length. pose proof (fragment_length world_type). lia. }
  split; [done|]. split; [by apply check_length_nil|].
  intros s model errors s' e Hrun He.
  rewrite create_world_blueprint_run in Hrun. cbv zeta in Hrun.
  destruct (WorldBlueprint_errors _ _ _ _) as [|e0 errs] eqn:Herrors; [done|].
  injection Hrun as <- <- <-. rewrite <-Herrors in He.
  unfold WorldBlueprint_errors in He.
  apply (check_length_nil "description") in Hlen. rewrite Hlen in He.
  rewrite !elem_of_app in He. destruct He as [He|[He|[He|He]]].
  - by rewrite (check_length_loc _ _ _ _ _ He).
  - by rewrite (check_length_loc _ _ _ _ _ He).
  - by apply elem_of_nil in He.
  - destruct (validate_prefab_instances _) as [[]|];
      try by apply elem_of_nil in He.
    apply list_elem_of_singleton in He as ->. done.
Qed.

Lemma C10_witness :
  (1 ≤ String.length (_generate_description (repeat_char "a" 1000) SCI_FI) ≤ 2000)%nat.
Proof.
  apply (C10_description_length_in_range (repeat_char "a" 1000) SCI_FI).
  rewrite length_repeat_char. lia.
Defined.

(** C4, as stated, fails: a prompt of white space only is not rejected. *)
Lemma C4_counterexample :
  ¬ (∀ body, whitespace_only (body_prompt body) = true →
             ∃ errors, PromptRequest_validate body
                       = inl (ValidationError "PromptRequest" errors)).
Proof.
  intros Hclaim.
  destruct (Hclaim (mkBody "   " None "test_user")) as [errors Herr]; [done|].
  vm_compute in Herr. discriminate.
Qed.

(** C4, amended.  A request is accepted exactly on the length of its
    prompt and the spelling of its category: a prompt of 1 to 1000
    characters (1000 included, white space counting like any other
    character) with no category or a recognized one is accepted; the
    empty prompt and a prompt of 1001 characters or more are rejected
    with a validation error on the prompt; a category that is not a
    value of the enumeration is rejected with a validation error on
    the category. *)
Theorem C4_prompt_request_validation (body : PromptRequestBody) :
  ((1 ≤ String.length (body_prompt body) ≤ 1000)%nat →
   (∀ w, body_world_type body = Some w → is_Some (WorldType_of_value w)) →
   PromptRequest_validate body
   = inr (mkPromptRequest (body_prompt body)
            (body_world_type body ≫= WorldType_of_value) (body_user_id body)))
  ∧ (String.length (body_prompt body) = 0%nat →
     ∃ errors, PromptRequest_validate body
               = inl (ValidationError "PromptRequest" errors)
               ∧ mkError "prompt" (string_too_short 1) ∈ errors)
  ∧ ((1001 ≤ String.length (body_prompt body))%nat →
     ∃ errors, PromptRequest_validate body
               = inl (ValidationError "PromptRequest" errors)
               ∧ mkError "prompt" (string_too_long 1000) ∈ errors)
  ∧ (∀ w, body_world_type body = Some w → WorldType_of_value w = None →
     ∃ errors, PromptRequest_validate body
               = inl (ValidationError "PromptRequest" errors)
               ∧ mkError "world_type" enum_error ∈ errors).
Proof.
  unfold PromptRequest_validate, check_length.
  repeat split.
  - intros Hlen Hcat.
    destruct (Nat.ltb_spec (String.length (body_prompt body)) 1); [lia|].
    destruct (Nat.ltb_spec 1000 (String.length (body_prompt body))); [lia|].
    destruct (body_world_type body) as [w|]; [|done].
    change (Some w ≫= WorldType_of_value) with (WorldType_of_value w).
    by destruct (Hcat w eq_refl) as [t ->].
  - intros ->. simpl. eexists. split; [|by left].
    reflexivity.
  - intros Hlen.
    destruct (Nat.ltb_spec (String.length (body_prompt body)) 1); [lia|].
    destruct (Nat.ltb_spec 1000 (String.length (body_prompt body))); [|lia].
    eexists. split; [|by left].
    reflexivity.
  - intros w -> Hw.
    change (Some w ≫= WorldType_of_value) with (WorldType_of_value w).
    rewrite Hw.
    destruct (Nat.ltb _ 1); [|destruct (Nat.ltb 1000 _)]; simpl;
      eexists; (split; [done|]); set_solver.
Qed.

Lemma C4_witness :
  PromptRequest_validate (mkBody (repeat_char "a" 1000) (Some "sci_fi") "test_user")
  = inr (mkPromptRequest (repeat_char "a" 1000) (Some SCI_FI) "test_user")
  ∧ (∃ errors,
       PromptRequest_validate (mkBody (repeat_char "a" 1001) None "test_user")
       = inl (ValidationError "PromptRequest" errors))
  ∧ (∃ errors,
       PromptRequest_validate (mkBody "" None "test_user")
       = inl (ValidationError "PromptRequest" errors))
  ∧ (∃ errors,
       PromptRequest_validate (mkBody "a city" (Some "sci-fi") "test_user")
       = inl (ValidationError "PromptRequest" errors))
  ∧ PromptRequest_validate (mkBody "   " None "test_user")
    = inr (mkPromptRequest "   " None "test_user").
Proof.
  split; [|split; [|split; [|split]]].
  - apply (C4_prompt_request_validation
             (mkBody (repeat_char "a" 1000) (Some "sci_fi") "test_user")).
    + cbn [body_prompt]. rewrite length_repeat_char. lia.
    + simpl. intros w [= <-]. by exists SCI_FI.
  - destruct (C4_prompt_request_validation
                (mkBody (repeat_char "a" 1001) None "test_user"))
      as (_ & _ & H & _).
    destruct H as (errors & H & _); [|by exists errors].
    cbn [body_prompt]. rewrite length_repeat_char. lia.
  - destruct (C4_prompt_request_validation (mkBody "" None "test_user"))
      as (_ & H & _).
    destruct H as (errors & H & _); [reflexivity | by exists errors].
  - destruct (C4_prompt_request_validation
                (mkBody "a city" (Some "sci-fi") "test_user"))
      as (_ & _ & _ & H).
    destruct (H "sci-fi") as (errors & H' & _); [reflexivity.. | by exists errors].
  - apply (C4_prompt_request_validation (mkBody "   " None "test_user")).
    + simpl. lia.
    + simpl. intros w [=].
Defined.

(** ** The claims about the synthesized blueprint *)

(** C1.  In every blueprint [_create_world_blueprint] (and so
    [generate_world_from_prompt]) returns, the identifiers of the
    prefab instances are pairwise distinct, and the instances are all
    those generated.  The check is the validator of the field: it
    returns the list it was given when no identifier repeats and
    raises otherwise; a repeated identifier makes the construction of
    the blueprint fail with that error, which the endpoint answers
    with an internal server error. *)
Theorem C1_instance_identifiers_distinct :
  (∀ prompt world_type s blueprint s',
     _create_world_blueprint prompt world_type s = (inr blueprint, s') →
     NoDup (pi_id <$> wb_prefab_instances blueprint)
     ∧ _generate_prefab_instances prompt world_type s
       = (inr (wb_prefab_instances blueprint),
          advance (template_count world_type) 0 s))
  ∧ (∀ request s blueprint s',
       generate_world_from_prompt request s = (inr blueprint, s') →
       NoDup (pi_id <$> wb_prefab_instances blueprint))
  ∧ (∀ v, NoDup (pi_id <$> v) → validate_prefab_instances v = inr v)
  ∧ (∀ v, ¬ NoDup (pi_id <$> v) →
          validate_prefab_instances v
          = inl (ValueError "Prefab instances must have unique IDs"))
  ∧ (∀ prompt world_type s instances s1,
       _generate_prefab_instances prompt world_type s = (inr instances, s1) →
       ¬ NoDup (pi_id <$> instances) →
       ∃ errors,
         (_create_world_blueprint prompt world_type s).1
         = inl (ValidationError "WorldBlueprint" errors)
         ∧ mkError "prefab_instances"
             (value_error "Prefab instances must have unique IDs") ∈ errors)
  ∧ (∀ request s,
       ¬ NoDup (pi_id <$> materialize
                  (default_instances_for (resolve_world_type request)) (rng s)) →
       (convert_prompt_to_world request s).1
       = (HTTP_500_INTERNAL_SERVER_ERROR, None)).
Proof.
  split; [|split; [|split; [|split; [|split]]]].
  - intros prompt world_type s blueprint s' Hrun.
    apply create_world_blueprint_inr in Hrun as (Herrors & -> & _).
    apply WorldBlueprint_errors_nil in Herrors as (_ & _ & _ & Hnd).
    split; [done | apply generate_prefab_instances_run].
  - intros request s blueprint s' Hrun.
    by apply generate_world_from_prompt_fields in Hrun as (_&_&_&_&_&_&_&?).
  - apply validate_prefab_instances_ok.
  - apply validate_prefab_instances_dup.
  - intros prompt world_type s instances s1 Hgen Hdup.
    rewrite generate_prefab_instances_run in Hgen. injection Hgen as <- _.
    rewrite create_world_blueprint_run. cbv zeta.
    destruct (WorldBlueprint_errors _ _ _ _) as [|e errors] eqn:Herrors.
    { by apply WorldBlueprint_errors_nil in Herrors as (_ & _ & _ & Hnd). }
    exists (e :: errors). split; [done|]. rewrite <-Herrors.
    unfold WorldBlueprint_errors.
    rewrite (validate_prefab_instances_dup _ Hdup), !elem_of_app.
    right. right. right. by left.
  - intros request s Hdup. unfold convert_prompt_to_world.
    unfold generate_world_from_prompt.
    rewrite bind_run. cbn [time_time now].
    rewrite bind_run, create_world_blueprint_run. cbv zeta.
    cbn [rng clock db].
    destruct (WorldBlueprint_errors _ _ _ _) as [|e errors] eqn:Herrors; [|done].
    by apply WorldBlueprint_errors_nil in Herrors as (_ & _ & _ & Hnd).
Qed.

Lemma C1_witness :
  NoDup ["00000000-0000-4000-8000-000000000000";
         "00000000-0000-4000-8000-000000000001"].
Proof.
  destruct C1_instance_identifiers_distinct as (Hdistinct & _).
  apply (Hdistinct forest_prompt FANTASY sample_runtime _ _
           (create_world_blueprint_ok forest_prompt FANTASY sample_runtime
              eq_refl)).
Defined.




(** ** The claims about [generate_world_from_prompt] *)

Section sample_runs.

Lemma sample_errors_nil request :
  req_prompt request = forest_prompt →
  req_world_type request = None →
  ∀ s, rng s 0%nat ≠ rng s 1%nat →
  let world_type := resolve_world_type request in
  WorldBlueprint_errors (req_prompt request)
    (_generate_title (req_prompt request) world_type)
    (_generate_description (req_prompt request) world_type)
    (materialize (default_instances_for world_type) (rng s)) = [].
Proof.
  intros Hprompt Hcategory s Hids world_type. subst world_type.
  unfold resolve_world_type. rewrite Hcategory, Hprompt.
  change (_infer_world_type forest_prompt) with FANTASY.
  apply WorldBlueprint_errors_nil. repeat split; try (vm_compute; lia).
  rewrite materialize_ids. cbn [template_count seq fmap list_fmap].
  apply NoDup_cons. split; [by rewrite list_elem_of_singleton|].
  apply NoDup_singleton.
Qed.

End sample_runs.

(** C5, as stated, fails: a successful call changes the database. *)
Lemma C5_counterexample :
  ¬ (∀ request s blueprint s',
       generate_world_from_prompt request s = (inr blueprint, s') →
       db s' = db s).
Proof.
  intros Hclaim.
  pose proof (generate_world_from_prompt_ok
                (mkPromptRequest forest_prompt None "test_user") sample_runtime
                eq_refl eq_refl) as Hrun.
  cbv zeta in Hrun.
  specialize (Hclaim _ _ _ _ (Hrun (not_elem_of_nil _))).
  cbn [db sample_runtime empty_session committed app] in Hclaim.
  discriminate Hclaim.
Qed.

(** C5, amended.  A successful [generate_world_from_prompt] has
    persisted the blueprint it returns: it adds the row of the
    blueprint to the session and commits, so that on return nothing is
    pending and the committed rows are those of before, then the rows
    of what was pending, then the row of the blueprint. *)
Theorem C5_generate_persists request s blueprint s' :
  generate_world_from_prompt request s = (inr blueprint, s') →
  pending (db s') = []
  ∧ ∃ earlier created updated,
      committed (db s')
      = (committed (db s) ++ earlier
         ++ [stamp (WorldBlueprintModel_of blueprint) created updated])%list
      ∧ length earlier = length (pending (db s))
      ∧ row_id (stamp (WorldBlueprintModel_of blueprint) created updated)
        = wb_id blueprint.
Proof.
  intros Hrun.
  apply generate_world_from_prompt_inr in Hrun
    as (built & ms & earlier & c & u & _ & _ & Hpending & Hcommitted & Hlen).
  split; [done|]. by exists earlier, c, u.
Qed.

Lemma C5_witness :
  ∃ blueprint s',
    generate_world_from_prompt
      (mkPromptRequest forest_prompt None "test_user") sample_runtime
    = (inr blueprint, s')
    ∧ row_id <$> committed (db s') = [wb_id blueprint].
Proof.
  pose proof (generate_world_from_prompt_ok
                (mkPromptRequest forest_prompt None "test_user") sample_runtime
                eq_refl eq_refl (not_elem_of_nil _)) as Hrun.
  cbv zeta in Hrun. eexists _, _. split; [exact Hrun|].
  destruct (C5_generate_persists _ _ _ _ Hrun)
    as (_ & earlier & c & u & Hcommitted & Hlen & _).
  destruct earlier; [|discriminate Hlen].
  rewrite Hcommitted. reflexivity.
Defined.

(** C6, as stated, fails: the title has five words before the suffix. *)
Lemma C6_counterexample :
  ∃ blueprint,
    (generate_world_from_prompt
       (mkPromptRequest forest_prompt None "test_user") sample_runtime).1
    = inr blueprint
    ∧ wb_title blueprint ≠ "A Magical Forest With World".
Proof. eexists. split; [vm_compute; reflexivity | discriminate]. Qed.

(** C6, amended.  For the prompt "A magical forest with ancient trees
    and glowing mushrooms" and no explicit category, the category is
    fantasy, the title is "A Magical Forest With Ancient World" (the
    first five words, title-cased, joined with spaces, then " World"),
    the instances are the castle at (0,0,0) and the tree at (10,0,5),
    and the spawn points are [(0,1,0), (10,1,5)]; the call returns when
    the two instance identifiers differ, nothing is pending in the
    session and the identifier of the blueprint is not yet a key. *)
Theorem C6_forest_example (user_id : string) (s : Runtime) :
  let request := mkPromptRequest forest_prompt None user_id in
  (∀ blueprint s',
     generate_world_from_prompt request s = (inr blueprint, s') →
     wb_world_type blueprint = FANTASY
     ∧ wb_title blueprint = "A Magical Forest With Ancient World"
     ∧ placements blueprint
       = [("fantasy_castle_01", mkVector3 0 0 0);
          ("magic_tree_01", mkVector3 10 0 5)]
     ∧ wb_spawn_points blueprint = [mkVector3 0 1 0; mkVector3 10 1 5])
  ∧ (rng s 0%nat ≠ rng s 1%nat → pending (db s) = [] →
     rng s 2%nat ∉ (row_id <$> committed (db s)) →
     ∃ blueprint s',
       generate_world_from_prompt request s = (inr blueprint, s'))
  ∧ take 5 (Py.split forest_prompt) = ["A"; "magical"; "forest"; "with"; "ancient"]
  ∧ _generate_title forest_prompt FANTASY
    = Py.title (Py.join " " (take 5 (Py.split forest_prompt))) +:+ " World".
Proof.
  intros request. split; [|split; [|split; reflexivity]].
  - intros blueprint s' Hrun.
    apply generate_world_from_prompt_fields in Hrun
      as (_ & Hcategory & Htitle & _ & _ & Hinstances & Hspawn & _).
    unfold placements. rewrite Hcategory, Htitle, Hinstances, Hspawn.
    change (resolve_world_type request) with FANTASY.
    repeat split.
  - intros Hids Hpending Hfresh. eexists _, _.
    apply (generate_world_from_prompt_ok request s); [|done..].
    by apply sample_errors_nil.
Qed.

Lemma C6_witness :
  ∃ blueprint s',
    generate_world_from_prompt
      (mkPromptRequest forest_prompt None "test_user") sample_runtime
    = (inr blueprint, s')
    ∧ wb_title blueprint = "A Magical Forest With Ancient World".
Proof.
  destruct (C6_forest_example "test_user" sample_runtime) as (Hfields & Hruns & _).
  destruct Hruns as (blueprint & s' & Hrun).
  - vm_compute. discriminate.
  - reflexivity.
  - apply not_elem_of_nil.
  - exists blueprint, s'. split; [exact Hrun|].
    by destruct (Hfields blueprint s' Hrun) as (_ & Htitle & _).
Defined.

(** C7.  Two successful calls with the same prompt and the same
    category, from any two states, return blueprints with the same
    environment settings, the same description, the same archetype
    and position of each instance and the same spawn points; the two
    blueprints are equal once the generated identifiers and the
    time-derived fields (the two timestamps and the processing time)
    are blanked. *)
Theorem C7_same_request_same_content r1 r2 s1 s2 b1 b2 s1' s2' :
  req_prompt r1 = req_prompt r2 →
  req_world_type r1 = req_world_type r2 →
  generate_world_from_prompt r1 s1 = (inr b1, s1') →
  generate_world_from_prompt r2 s2 = (inr b2, s2') →
  wb_environment_settings b1 = wb_environment_settings b2
  ∧ wb_description b1 = wb_description b2
  ∧ placements b1 = placements b2
  ∧ wb_spawn_points b1 = wb_spawn_points b2
  ∧ template_content b1 = template_content b2.
Proof.
  intros Hprompt Hcategory Hrun1 Hrun2.
  apply generate_world_from_prompt_fields in Hrun1
    as (Hp1 & Hc1 & Ht1 & Hd1 & He1 & Hi1 & Hs1 & _).
  apply generate_world_from_prompt_fields in Hrun2
    as (Hp2 & Hc2 & Ht2 & Hd2 & He2 & Hi2 & Hs2 & _).
  assert (resolve_world_type r1 = resolve_world_type r2) as Hresolve.
  { unfold resolve_world_type. by rewrite Hprompt, Hcategory. }
  rewrite Hresolve, Hprompt in *.
  assert (template_content b1 = template_content b2) as Hcontent.
  { unfold template_content.
    rewrite Hp1, Hc1, Ht1, Hd1, He1, Hi1, Hs1, Hp2, Hc2, Ht2, Hd2, He2, Hi2, Hs2.
    f_equal. apply template_content_materialize. }
  repeat split; [congruence.. | | congruence | done].
  unfold placements. rewrite Hi1, Hi2.
  by destruct (resolve_world_type r2).
Qed.

Lemma C7_witness :
  ∃ b1 b2,
    (generate_world_from_prompt
       (mkPromptRequest forest_prompt None "test_user") sample_runtime).1
    = inr b1
    ∧ (generate_world_from_prompt
         (mkPromptRequest forest_prompt None "other_user") later_runtime).1
      = inr b2
    ∧ wb_id b1 ≠ wb_id b2
    ∧ template_content b1 = template_content b2.
Proof.
  pose proof (generate_world_from_prompt_ok
                (mkPromptRequest forest_prompt None "test_user") sample_runtime
                eq_refl eq_refl (not_elem_of_nil _)) as Hrun1.
  pose proof (generate_world_from_prompt_ok
                (mkPromptRequest forest_prompt None "other_user") later_runtime
                eq_refl eq_refl (not_elem_of_nil _)) as Hrun2.
  cbv zeta in Hrun1, Hrun2.
  eexists _, _. split; [by rewrite Hrun1|]. split; [by rewrite Hrun2|].
  split; [vm_compute; discriminate|].
  apply (C7_same_request_same_content _ _ _ _ _ _ _ _ eq_refl eq_refl Hrun1 Hrun2).
Defined.

(** ** The classifier on the prompts of the test suite *)


Lemma C9_witness :
  req_world_type (mkPromptRequest "a quiet place" (Some SURREAL) "test_user")
  = Some SURREAL.
Proof.
  destruct C9_inferred_categories as (_ & Honly & Hreach).
  destruct (Hreach SURREAL (or_introl eq_refl)) as (blueprint & s' & Hrun & Hcat & _).
  pose proof (Honly _ sample_runtime blueprint s' Hrun (or_introl Hcat)) as Hreq.
  rewrite Hcat in Hreq. exact Hreq.
Defined.

(** ** The service on the heap *)

Section heap_facts.

Lemma extends_refl st : extends st st.
Proof. by split. Qed.

Lemma extends_trans st st1 st2 :
  extends st st1 → extends st1 st2 → extends st st2.
Proof.
  intros [Hn1 Ho1] [Hn2 Ho2]. split; [lia|].
  intros l Hl. rewrite Ho2 by lia. by apply Ho1.
Qed.

Lemma extends_alloc o st :
  extends st (mkStore (<[next st := o]> (objects st)) (S (next st))).
Proof.
  split; simpl; [lia|]. intros l Hl. apply lookup_insert_ne. lia.
Qed.

Lemma read_dict_extends st st1 l :
  extends st st1 → (l < next st)%nat → read_dict st1 l = read_dict st l.
Proof. intros [_ Ho] Hl. unfold read_dict. by rewrite Ho. Qed.

Lemma read_instances_extends st st1 l :
  extends st st1 → (l < next st)%nat →
  read_instances st1 l = read_instances st l.
Proof. intros [_ Ho] Hl. unfold read_instances. by rewrite Ho. Qed.

Lemma read_points_extends st st1 l :
  extends st st1 → (l < next st)%nat → read_points st1 l = read_points st l.
Proof. intros [_ Ho] Hl. unfold read_points. by rewrite Ho. Qed.

Lemma hbind_run {A B} (c : HM A) (k : A → HM B) st s :
  (c ≫= k) st s
  = match c st s with
    | (inr (a, st1), s1) => k a st1 s1
    | (inl e, s1) => (inl e, s1)
    end.
Proof.
  unfold mbind, HM_bind, hbind, bind.
  by destruct (c st s) as [[e|[a st1]] s1].
Qed.

Lemma lift_run {A} (c : M A) st s :
  lift c st s
  = match c s with
    | (inr a, s1) => (inr (a, st), s1)
    | (inl e, s1) => (inl e, s1)
    end.
Proof. unfold lift, bind. by destruct (c s) as [[e|a] s1]. Qed.

(** Each dictionary of a literal gets a location of its own, in the
    range the evaluation allocates, and is what that location holds. *)
Lemma h_alloc_items_run items st s :
  ∃ refs st1,
    h_alloc_items items st s = (inr (refs, st1), s)
    ∧ extends st st1
    ∧ Forall2 (λ item ref,
                 item.1 = ref.1
                 ∧ (next st ≤ ref.2 < next st1)%nat
                 ∧ read_dict st1 ref.2 = item.2) items refs.
Proof.
  revert st. induction items as [|[k d] items IH]; intros st.
  - exists [], st. repeat split; [apply extends_refl | constructor].
  - set (st0 := mkStore (<[next st := DictObj d]> (objects st)) (S (next st))).
    destruct (IH st0) as (refs & st1 & Hrun & Hext & Hall).
    exists ((k, next st) :: refs), st1. split; [|split].
    + cbn [h_alloc_items]. rewrite hbind_run. cbn [h_alloc mret M_ret ret].
      fold st0. rewrite hbind_run, Hrun. reflexivity.
    + eapply extends_trans; [apply extends_alloc | exact Hext].
    + destruct Hext as [Hnext Hobjects]. constructor.
      * repeat split; cbn [fst snd next st0] in *; [lia..|].
        unfold read_dict. rewrite Hobjects by (simpl; lia).
        simpl. by rewrite lookup_insert_eq.
      * eapply Forall2_impl; [exact Hall|].
        intros [k1 d1] [k2 l2] (? & ? & ?). cbn [fst snd next st0] in *.
        repeat split; [done | lia..| done].
Qed.

(** Looking a key up in the literal and in its references agree. *)
Lemma lookup_refs st st0 st1 items refs key
    (literal : gmap WorldType (gmap string PyValue))
    (references : gmap WorldType loc) :
  literal = list_to_map items →
  references = list_to_map refs →
  Forall2 (λ item ref,
             item.1 = ref.1
             ∧ (next st0 ≤ ref.2 < next st1)%nat
             ∧ read_dict st ref.2 = item.2) items refs →
  match literal !! key, references !! key with
  | Some d, Some l => (next st0 ≤ l < next st1)%nat ∧ read_dict st l = d
  | None, None => True
  | _, _ => False
  end.
Proof.
  intros -> -> Hall.
  induction Hall as [|[k d] [k' l] items refs (Hk & Hl & Hd) Hall IH];
    cbn [fst snd] in *.
  - by rewrite !list_to_map_nil, !lookup_empty.
  - subst k'. rewrite !list_to_map_cons, !lookup_insert.
    by destruct (decide (k = key)).
Qed.

(** [_generate_environment_settings] on the heap returns a dictionary
    allocated by this very call, holding the settings of the category. *)
Lemma h_generate_environment_settings_run world_type st s :
  ∃ l st1,
    h_generate_environment_settings world_type st s = (inr (l, st1), s)
    ∧ extends st st1
    ∧ (next st ≤ l < next st1)%nat
    ∧ read_dict st1 l = _generate_environment_settings world_type.
Proof.
  destruct (h_alloc_items_run settings_templates_items st s)
    as (refs & st0 & Hrun & Hext & Hall).
  remember (list_to_map refs : gmap WorldType loc) as references eqn:Hrefs.
  pose proof (lookup_refs st0 st st0 _ _ REALISTIC settings_templates
                references eq_refl Hrefs Hall) as Hrealistic.
  pose proof (lookup_refs st0 st st0 _ _ world_type settings_templates
                references eq_refl Hrefs Hall) as Hcategory.
  destruct (settings_templates !! REALISTIC) as [d0|] eqn:Hd0;
    [|by vm_compute in Hd0].
  destruct (references !! REALISTIC) as [l0|] eqn:Hl0; [|done].
  set (st1 := mkStore
                (<[next st0 := TemplatesObj references]> (objects st0))
                (S (next st0))).
  assert (extends st0 st1) as Hext1 by apply extends_alloc.
  exists (default l0 (references !! world_type)), st1.
  split; [|split; [by eapply extends_trans|]].
  { unfold h_generate_environment_settings.
    rewrite hbind_run, Hrun. cbv zeta. rewrite hbind_run.
    cbn [h_alloc mret M_ret ret]. rewrite <-Hrefs. fold st1.
    by rewrite lookup_total_alt, Hl0. }
  unfold _generate_environment_settings. rewrite lookup_total_alt, Hd0.
  destruct (settings_templates !! world_type) as [d|],
           (references !! world_type) as [l|]; try done;
    unfold default, from_option, id.
  - destruct Hcategory as [Hl Hd]. split; [simpl; lia|].
    rewrite (read_dict_extends st0 st1) by (done || lia). done.
  - destruct Hrealistic as [Hl Hd]. split; [simpl; lia|].
    rewrite (read_dict_extends st0 st1) by (done || lia). done.
Qed.

(** [_generate_prefab_instances] on the heap returns a list allocated
    by this call, holding the instances the category calls for. *)
Lemma h_generate_prefab_instances_run prompt world_type st s :
  ∃ st1,
    h_generate_prefab_instances prompt world_type st s
    = (inr (next st, st1), advance (template_count world_type) 0 s)
    ∧ extends st st1
    ∧ next st1 = S (next st)
    ∧ read_instances st1 (next st)
      = materialize (default_instances_for world_type) (rng s).
Proof.
  set (v := materialize (default_instances_for world_type) (rng s)).
  exists (mkStore
            (alter (λ o, match o with
                         | InstancesObj v0 => InstancesObj (v0 ++ v)
                         | _ => o
                         end) (next st)
               (<[next st := InstancesObj []]> (objects st)))
            (S (next st))).
  split; [by destruct world_type|]. split; [|split; [done|]].
  - split; simpl; [lia|]. intros l Hl.
    rewrite lookup_alter_ne, lookup_insert_ne by lia. done.
  - unfold read_instances. simpl.
    by rewrite lookup_alter_eq, lookup_insert_eq.
Qed.

(** [_generate_spawn_points] on the heap returns a list allocated by
    this call. *)
Lemma h_generate_spawn_points_run world_type st s :
  h_generate_spawn_points world_type st s
  = (inr (next st,
          mkStore (<[next st := PointsObj (_generate_spawn_points world_type)]>
                     (objects st))
            (S (next st))), s).
Proof. by destruct world_type. Qed.

Local Ltac hstep :=
  first [ rewrite hbind_run | rewrite lift_run ];
  cbn [h_read_dict h_read_instances h_read_points h_keep h_alloc h_extend
       mret M_ret ret HM_ret hret uuid4 datetime_utcnow time_time now raise
       objects next rng clock db fst snd].

Local Ltac reads :=
  unfold snapshot, read_dict, read_instances, read_points;
  cbn [objects next ref_environment_settings ref_prefab_instances
       ref_spawn_points];
  repeat first [ rewrite lookup_insert_eq | rewrite lookup_insert_ne by lia ].

(** The constructor keeps, for each container, either the object it
    was given or a copy allocated now; what the blueprint shows is
    what the containers held. *)
Lemma h_WorldBlueprint_new_run copies prompt world_type title description
    environment_settings prefab_instances spawn_points st s :
  (environment_settings < next st)%nat →
  (prefab_instances < next st)%nat →
  (spawn_points < next st)%nat →
  ∃ b st1,
    h_WorldBlueprint_new copies prompt world_type title description
      environment_settings prefab_instances spawn_points st s
    = (match WorldBlueprint_errors prompt title description
               (read_instances st prefab_instances) with
       | [] => inr (b, st1)
       | errors => inl (ValidationError "WorldBlueprint" errors)
       end, advance 1 2 s)
    ∧ extends st st1
    ∧ snapshot st1 b
      = mkWorldBlueprint (rng s 0%nat) prompt world_type title description
          (read_dict st environment_settings)
          (read_instances st prefab_instances)
          (read_points st spawn_points)
          (clock s 0%nat) (clock s 1%nat) None
    ∧ (ref_environment_settings b < next st1)%nat
    ∧ (ref_prefab_instances b < next st1)%nat
    ∧ (ref_spawn_points b < next st1)%nat
    ∧ (ref_environment_settings b = environment_settings
       ∨ next st ≤ ref_environment_settings b)%nat
    ∧ (ref_prefab_instances b = prefab_instances
       ∨ next st ≤ ref_prefab_instances b)%nat
    ∧ (ref_spawn_points b = spawn_points
       ∨ next st ≤ ref_spawn_points b)%nat.
Proof.
  intros Henv Hinst Hpts. unfold h_WorldBlueprint_new.
  destruct copies.
  - eexists _, _. split.
    + repeat hstep. reads.
      destruct (WorldBlueprint_errors _ _ _ _); reflexivity.
    + split; [|split].
      * split; cbn [objects next]; [lia|]. intros l Hl.
        by rewrite !lookup_insert_ne by lia.
      * reads. reflexivity.
      * cbn [ref_environment_settings ref_prefab_instances ref_spawn_points
             next]. lia.
  - eexists _, _. split.
    + repeat hstep.
      destruct (WorldBlueprint_errors _ _ _ _); reflexivity.
    + split; [apply extends_refl|]. split; [reflexivity|].
      cbn [ref_environment_settings ref_prefab_instances ref_spawn_points].
      repeat split; by (done || left).
Qed.

(** [_create_world_blueprint] on the heap: the same outcome as on
    values, with containers that this call allocated. *)
Lemma h_create_world_blueprint_run copies prompt world_type st s :
  let n := template_count world_type in
  let title := _generate_title prompt world_type in
  let description := _generate_description prompt world_type in
  let instances := materialize (default_instances_for world_type) (rng s) in
  ∃ b st1,
    h_create_world_blueprint copies prompt world_type st s
    = (match WorldBlueprint_errors prompt title description instances with
       | [] => inr (b, st1)
       | errors => inl (ValidationError "WorldBlueprint" errors)
       end, advance (S n) 2 s)
    ∧ extends st st1
    ∧ snapshot st1 b
      = mkWorldBlueprint (rng s n) prompt world_type title description
          (_generate_environment_settings world_type) instances
          (_generate_spawn_points world_type)
          (clock s 0%nat) (clock s 1%nat) None
    ∧ (next st ≤ ref_environment_settings b < next st1)%nat
    ∧ (next st ≤ ref_prefab_instances b < next st1)%nat
    ∧ (next st ≤ ref_spawn_points b < next st1)%nat.
Proof.
  intros n title description instances. subst n title description instances.
  set (n := template_count world_type).
  destruct (h_generate_environment_settings_run world_type st s)
    as (le & sta & Hrun_e & Hext_a & Hle & Hread_e).
  destruct (h_generate_prefab_instances_run prompt world_type sta s)
    as (stb & Hrun_i & Hext_b & Hnext_b & Hread_i).
  fold n in Hrun_i.
  pose proof (h_generate_spawn_points_run world_type stb
                (advance n 0 s)) as Hrun_p.
  set (stc := mkStore
                (<[next stb := PointsObj (_generate_spawn_points world_type)]>
                   (objects stb))
                (S (next stb))) in Hrun_p.
  assert (extends stb stc) as Hext_c by apply extends_alloc.
  assert (next stc = S (next stb)) as Hnext_c by done.
  destruct Hext_a as [Hna Hoa]; destruct Hext_b as [Hnb Hob].
  destruct (h_WorldBlueprint_new_run copies prompt world_type
              (_generate_title prompt world_type)
              (_generate_description prompt world_type)
              le (next sta) (next stb) stc (advance n 0 s))
    as (b & st1 & Hrun_n & Hext_1 & Hsnap & Hb1 & Hb2 & Hb3 & Hf1 & Hf2 & Hf3);
    [lia..|].
  assert (read_dict stc le = _generate_environment_settings world_type) as Hr1.
  { rewrite (read_dict_extends stb stc), (read_dict_extends sta stb);
      [done | by split | lia | done | lia]. }
  assert (read_instances stc (next sta)
          = materialize (default_instances_for world_type) (rng s)) as Hr2.
  { rewrite (read_instances_extends stb stc); [done | done | lia]. }
  assert (read_points stc (next stb) = _generate_spawn_points world_type) as Hr3.
  { unfold read_points, stc. cbn [objects]. by rewrite lookup_insert_eq. }
  rewrite Hr1, Hr2, Hr3 in Hsnap. rewrite Hr2 in Hrun_n.
  exists b, st1. split; [|split; [|split]].
  - unfold h_create_world_blueprint. cbv zeta.
    rewrite hbind_run, Hrun_e, hbind_run, Hrun_i, hbind_run, Hrun_p, Hrun_n.
    destruct (WorldBlueprint_errors _ _ _ _); by destruct world_type.
  - destruct Hext_1 as [Hn1 Ho1]. split; [lia|]. intros l Hl.
    rewrite Ho1 by lia. destruct Hext_c as [_ Hoc].
    rewrite Hoc, Hob, Hoa by lia. done.
  - rewrite Hsnap. f_equal. subst n. cbn [advance rng clock].
    by rewrite Nat.add_0_r.
  - destruct Hext_1 as [Hn1 _]. lia.
Qed.

(** Simulation: a call on the heap ends as the call on values does,
    and what its blueprint shows in the final store is the blueprint
    the call on values returns.  The containers of the blueprint were
    allocated by the call. *)
Lemma h_generate_world_from_prompt_simulates copies request st s :
  match h_generate_world_from_prompt copies request st s with
  | (inr (b, st1), s1) =>
      generate_world_from_prompt request s = (inr (snapshot st1 b), s1)
      ∧ extends st st1
      ∧ (next st ≤ ref_environment_settings b < next st1)%nat
      ∧ (next st ≤ ref_prefab_instances b < next st1)%nat
      ∧ (next st ≤ ref_spawn_points b < next st1)%nat
  | (inl e, s1) => generate_world_from_prompt request s = (inl e, s1)
  end.
Proof.
  unfold h_generate_world_from_prompt, generate_world_from_prompt.
  rewrite hbind_run, lift_run, bind_run. cbn [time_time now].
  rewrite hbind_run, bind_run, create_world_blueprint_run. cbv zeta.
  set (s0 := mkRuntime (rng s) (λ n, clock s (S n)) (db s)).
  destruct (h_create_world_blueprint_run copies (req_prompt request)
              (resolve_world_type request) st s0)
    as (b & st1 & Hrun & Hext & Hsnap & Hb1 & Hb2 & Hb3).
  cbv zeta in Hrun. rewrite Hrun.
  destruct (WorldBlueprint_errors _ _ _ _) as [|e errors]; [|done].
  rewrite <-Hsnap.
  repeat (rewrite hbind_run;
          cbn [h_read_dict h_read_instances h_read_points mret M_ret ret]).
  rewrite lift_run, bind_run.
  change (mkWorldBlueprintModel (ref_id b) (ref_prompt b)
            (WorldType_value (ref_world_type b)) (ref_title b)
            (ref_description b) (read_dict st1 (ref_environment_settings b))
            (read_instances st1 (ref_prefab_instances b))
            (read_points st1 (ref_spawn_points b)) None None)
    with (WorldBlueprintModel_of (snapshot st1 b)).
  destruct (db_add _ _) as [[e|[]] s2]; [done|].
  rewrite hbind_run, lift_run, bind_run.
  destruct (db_commit s2) as [[e|[]] s3]; [done|].
  rewrite hbind_run, lift_run, bind_run. cbn [time_time now].
  done.
Qed.

(** A call that succeeds on values succeeds on the heap, from any store. *)
Lemma h_generate_world_from_prompt_inr copies request st s blueprint s1 :
  generate_world_from_prompt request s = (inr blueprint, s1) →
  ∃ b st1,
    h_generate_world_from_prompt copies request st s = (inr (b, st1), s1)
    ∧ snapshot st1 b = blueprint.
Proof.
  intros Hvalue.
  pose proof (h_generate_world_from_prompt_simulates copies request st s) as Hsim.
  destruct (h_generate_world_from_prompt copies request st s)
    as [[e|[b st1]] s1'].
  - congruence.
  - destruct Hsim as [Hsim _]. rewrite Hvalue in Hsim.
    injection Hsim as -> ->. by exists b, st1.
Qed.

End heap_facts.

(** ** The claim about aliasing *)

(** C8.  Let a call return a blueprint, let the caller then put
    anything in the settings dictionary and in the instance list of
    that blueprint, and let a second call follow.  The second call
    returns what it returns without the mutation: the settings, the
    instances and the spawn points of its blueprint are those of the
    templates of its category.  Its three containers are objects the
    second call allocated, none of them an object that existed
    before, so that mutating the first blueprint again after the
    second call still changes nothing in the second; the mutation
    itself is real, the first blueprint shows the new settings.  This
    holds whether or not Pydantic copies the containers it is given. *)
Theorem C8_no_aliasing_between_calls copies r1 r2 st s b1 st1 s1
    settings instances b2 st2 s2 :
  h_generate_world_from_prompt copies r1 st s = (inr (b1, st1), s1) →
  h_generate_world_from_prompt copies r2 (mutate b1 settings instances st1) s1
  = (inr (b2, st2), s2) →
  (∃ b2' st2',
     h_generate_world_from_prompt copies r2 st1 s1 = (inr (b2', st2'), s2)
     ∧ snapshot st2' b2' = snapshot st2 b2)
  ∧ generate_world_from_prompt r2 s1 = (inr (snapshot st2 b2), s2)
  ∧ wb_environment_settings (snapshot st2 b2)
    = _generate_environment_settings (resolve_world_type r2)
  ∧ wb_prefab_instances (snapshot st2 b2)
    = materialize (default_instances_for (resolve_world_type r2)) (rng s1)
  ∧ wb_spawn_points (snapshot st2 b2)
    = _generate_spawn_points (resolve_world_type r2)
  ∧ (ref_environment_settings b1 < next st1 ≤ ref_environment_settings b2)%nat
  ∧ (ref_prefab_instances b1 < next st1 ≤ ref_prefab_instances b2)%nat
  ∧ (next st1 ≤ ref_spawn_points b2)%nat
  ∧ (∀ settings' instances',
       snapshot (mutate b1 settings' instances' st2) b2 = snapshot st2 b2)
  ∧ wb_environment_settings (snapshot (mutate b1 settings instances st1) b1)
    = settings.
Proof.
  intros Hrun1 Hrun2.
  pose proof (h_generate_world_from_prompt_simulates copies r1 st s) as Hsim1.
  rewrite Hrun1 in Hsim1. destruct Hsim1 as (_ & _ & He1 & Hi1 & _).
  pose proof (h_generate_world_from_prompt_simulates copies r2
                (mutate b1 settings instances st1) s1) as Hsim2.
  rewrite Hrun2 in Hsim2. cbn [mutate next] in Hsim2.
  destruct Hsim2 as (Hvalue & _ & He2 & Hi2 & Hp2).
  pose proof (generate_world_from_prompt_fields _ _ _ _ Hvalue)
    as (_ & _ & _ & _ & Henv & Hinst & Hspawn & _).
  split; [by apply h_generate_world_from_prompt_inr|].
  repeat split; try done; try lia.
  - intros settings' instances'.
    unfold snapshot, mutate, read_dict, read_instances, read_points.
    cbn [objects]. by rewrite !lookup_insert_ne by lia.
  - unfold snapshot, mutate, read_dict. cbn [objects wb_environment_settings].
    by rewrite lookup_insert_eq.
Qed.

Lemma C8_witness :
  ∃ b1 st1 s1 b2 st2 s2,
    h_generate_world_from_prompt true
      (mkPromptRequest forest_prompt None "test_user") empty_store
      sample_runtime = (inr (b1, st1), s1)
    ∧ h_generate_world_from_prompt true
        (mkPromptRequest forest_prompt None "test_user")
        (mutate b1 ∅ [] st1) s1 = (inr (b2, st2), s2)
    ∧ wb_environment_settings (snapshot (mutate b1 ∅ [] st1) b1) = ∅
    ∧ wb_environment_settings (snapshot st2 b2)
      = _generate_environment_settings FANTASY
    ∧ length (wb_prefab_instances (snapshot st2 b2)) = 2%nat.
Proof.
  pose proof (generate_world_from_prompt_ok
                (mkPromptRequest forest_prompt None "test_user") sample_runtime
                eq_refl eq_refl (not_elem_of_nil _)) as Hvalue1.
  cbv zeta in Hvalue1.
  destruct (h_generate_world_from_prompt_inr true _ empty_store _ _ _ Hvalue1)
    as (b1 & st1 & Hrun1 & _).
  match type of Hrun1 with _ = (_, ?s) => set (s1 := s) in * end.
  assert (rng s1 2%nat ∉ (row_id <$> committed (db s1))) as Hfresh.
  { intros Hin. vm_compute in Hin.
    apply list_elem_of_singleton in Hin. discriminate Hin. }
  pose proof (generate_world_from_prompt_ok
                (mkPromptRequest forest_prompt None "test_user") s1
                eq_refl eq_refl Hfresh) as Hvalue2.
  cbv zeta in Hvalue2.
  destruct (h_generate_world_from_prompt_inr true _ (mutate b1 ∅ [] st1) _ _ _
              Hvalue2) as (b2 & st2 & Hrun2 & _).
  match type of Hrun2 with _ = (_, ?s) => set (s2 := s) in * end.
  exists b1, st1, s1, b2, st2, s2.
  destruct (C8_no_aliasing_between_calls true _ _ _ _ _ _ _ _ _ _ _ _
              Hrun1 Hrun2)
    as (_ & _ & Henv & Hinst & _ & _ & _ & _ & _ & Hmutated).
  repeat split; [exact Hrun1 | exact Hrun2 | exact Hmutated | exact Henv |].
  rewrite Hinst. reflexivity.
Defined.


(** * Further properties of the code *)

(** ** More on strings *)

Section more_string_facts.

Lemma string_app_assoc (a b c : string) : (a +:+ b) +:+ c = a +:+ b +:+ c.
Proof.
  induction a as [|x a IH]; [done|]. rewrite !app_cons. by rewrite IH.
Qed.

Lemma string_app_nil_r (a : string) : a +:+ "" = a.
Proof. induction a as [|x a IH]; [done|]. by rewrite app_cons, IH. Qed.

Lemma lower_app (a b : string) : Py.lower (a +:+ b) = Py.lower a +:+ Py.lower b.
Proof.
  unfold Py.lower. induction a as [|x a IH]; [done|].
  rewrite app_cons. simpl. by rewrite IH, app_cons.
Qed.

(** A string that occurs in a text occurs in every text around it. *)
Lemma contains_app (w before s after : string) :
  Py.contains w s = true → Py.contains w (before +:+ s +:+ after) = true.
Proof.
  rewrite !contains_iff. intros (a & b & ->).
  exists (before +:+ a), (b +:+ after).
  by rewrite !string_app_assoc.
Qed.

Lemma any_contains_app (keywords : list string) (before s after : string) :
  Py.any (λ word, Py.contains word (Py.lower s)) keywords = true →
  Py.any (λ word, Py.contains word (Py.lower (before +:+ s +:+ after))) keywords
  = true.
Proof.
  unfold Py.any. rewrite !existsb_exists. intros (w & Hin & Hw).
  exists w. split; [done|]. rewrite !lower_app. by apply contains_app.
Qed.

End more_string_facts.

(** ** More on the classifier *)

(** X1.  Text added before or after a prompt never moves it to a rule
    tried later: the category of the longer prompt comes at the same
    place or earlier in the chain of tests. *)
Theorem X1_more_text_never_lowers_precedence (before prompt after : string) :
  (precedence (_infer_world_type (before +:+ prompt +:+ after))
   ≤ precedence (_infer_world_type prompt))%nat.
Proof.
  unfold _infer_world_type. cbv zeta.
  repeat match goal with
  | |- context [Py.any ?f ?l] =>
      match f with
      | context [Py.lower prompt] =>
          let H := fresh "H" in
          pose proof (any_contains_app l before prompt after) as H;
          destruct (Py.any f l); [specialize (H eq_refl)|clear H]
      end
  end;
  repeat match goal with
  | H : Py.any _ _ = true |- _ => rewrite H; clear H
  end;
  cbn [precedence]; try lia;
  repeat match goal with
  | |- context [if ?b then _ else _] => destruct b
  end; cbn [precedence]; lia.
Qed.

(** ** More on the title *)

Section title_facts.

Lemma length_string_of_list_ascii (l : list ascii) :
  String.length (string_of_list_ascii l) = length l.
Proof. induction l as [|c l IH]; simpl; [done | by rewrite IH]. Qed.

Lemma length_join_cons (sep w : string) (r : list string) :
  String.length (Py.join sep (w :: r))
  = (String.length w
     + match r with
       | [] => 0
       | _ => String.length sep + String.length (Py.join sep r)
       end)%nat.
Proof.
  destruct r as [|w' r]; [simpl; lia|].
  change (Py.join sep (w :: w' :: r)) with (w +:+ sep +:+ Py.join sep (w' :: r)).
  rewrite !length_app. lia.
Qed.

Lemma length_join_flush (cur : list ascii) (acc : list string) :
  (String.length (Py.join " " (Py.flush cur acc))
   ≤ length cur + 1 + String.length (Py.join " " acc))%nat.
Proof.
  destruct cur as [|c cur]; [simpl; lia|].
  unfold Py.flush. rewrite length_join_cons, length_string_of_list_ascii.
  rewrite length_rev. destruct acc; simpl; lia.
Qed.

(** The words of a string, joined by single blanks, are no longer than
    the string and the word being read. *)
Lemma length_join_split_go (s : string) (cur : list ascii) :
  (String.length (Py.join " " (Py.split_go s cur))
   ≤ String.length s + length cur)%nat.
Proof.
  revert cur. induction s as [|c s IH]; intros cur; simpl.
  - destruct cur as [|d cur]; [simpl; lia|].
    unfold Py.flush. rewrite length_join_cons, length_string_of_list_ascii.
    rewrite length_rev. simpl. lia.
  - destruct (Py.is_space c).
    + pose proof (IH []) as Hrest. simpl in Hrest.
      destruct cur as [|d cur]; [simpl; lia|].
      pose proof (length_join_flush (d :: cur) (Py.split_go s [])). lia.
    + pose proof (IH (c :: cur)) as Hrest. simpl in Hrest. lia.
Qed.

Lemma length_join_take (n : nat) (l : list string) :
  (String.length (Py.join " " (take n l)) ≤ String.length (Py.join " " l))%nat.
Proof.
  revert n. induction l as [|w l IH]; intros [|n]; try (simpl; lia).
  change (take (S n) (w :: l)) with (w :: take n l).
  rewrite !length_join_cons. specialize (IH n).
  destruct (take n l) as [|w1 r1] eqn:Htake; [lia|].
  destruct l as [|w2 r2]; [by destruct n | lia].
Qed.

Lemma length_title_words (prompt : string) :
  (String.length (title_words prompt) ≤ String.length prompt)%nat.
Proof.
  unfold title_words. etrans; [apply length_join_take|].
  pose proof (length_join_split_go prompt []). simpl in *.
  unfold Py.split. lia.
Qed.

Lemma split_whitespace_only (s : string) :
  whitespace_only s = true → Py.split s = [].
Proof.
  unfold whitespace_only, Py.split. induction s as [|c s IH]; simpl; [done|].
  intros [Hc Hs]%andb_prop. rewrite Hc. simpl. by apply IH.
Qed.

Lemma lower_whitespace_only (s : string) :
  whitespace_only s = true → Py.lower s = s.
Proof.
  unfold whitespace_only, Py.lower. induction s as [|c s IH]; simpl; [done|].
  intros [Hc Hs]%andb_prop. rewrite (IH Hs). f_equal.
  by destruct c as [[] [] [] [] [] [] [] []].
Qed.

(** A word that starts with a visible character is not found among
    white space. *)
Lemma contains_whitespace_only (k : ascii) (w s : string) :
  whitespace_only s = true → Py.is_space k = false →
  Py.contains (String k w) s = false.
Proof.
  intros Hws Hk. revert Hws. unfold whitespace_only.
  induction s as [|c s IH]; [done|]. simpl.
  intros [Hc Hs]%andb_prop.
  destruct (Ascii.ascii_dec k c) as [->|_]; [congruence|]. by apply IH.
Qed.

End title_facts.

(** X2.  For an ASCII prompt the title is the title-cased first five
    words followed by " World"; title-casing ASCII text keeps its
    length, so the title has at least 6 characters and at most 6 more
    than the prompt, whatever the category. *)
Theorem X2_title_length_bounds (prompt : string) (world_type : WorldType) :
  str_isascii prompt = true →
  _generate_title prompt world_type = Py.title (title_words prompt) +:+ " World"
  ∧ String.length (Py.title (title_words prompt))
    = String.length (title_words prompt)
  ∧ (6 ≤ String.length (_generate_title prompt world_type)
       ≤ String.length prompt + 6)%nat.
Proof.
  intros _. split; [reflexivity|]. split; [apply length_title_go|].
  rewrite generate_title_length. pose proof (length_title_words prompt). lia.
Qed.

Lemma X2_witness :
  (6 ≤ String.length (_generate_title forest_prompt FANTASY)
     ≤ String.length forest_prompt + 6)%nat.
Proof.
  destruct (X2_title_length_bounds forest_prompt FANTASY eq_refl)
    as (_ & _ & Hbounds).
  exact Hbounds.
Defined.

(** X3.  A prompt of white space only has no word: its title is
    " World" alone, and inference finds no keyword in it. *)
Theorem X3_whitespace_prompt (prompt : string) (world_type : WorldType) :
  whitespace_only prompt = true →
  Py.split prompt = []
  ∧ _generate_title prompt world_type = " World"
  ∧ _infer_world_type prompt = REALISTIC.
Proof.
  intros Hws. split; [by apply split_whitespace_only|]. split.
  - unfold _generate_title. by rewrite split_whitespace_only.
  - unfold _infer_world_type. cbv zeta.
    rewrite (lower_whitespace_only _ Hws). unfold Py.any. cbn [existsb].
    by rewrite !(contains_whitespace_only _ _ _ Hws) by reflexivity.
Qed.

Lemma X3_witness :
  _generate_title "  	 " URBAN = " World"
  ∧ _infer_world_type "  	 " = REALISTIC.
Proof.
  destruct (X3_whitespace_prompt "  	 " URBAN eq_refl) as (_ & Htitle & Hinfer).
  split; [exact Htitle | exact Hinfer].
Defined.

(** ** When the synthesis returns *)

Section synthesis_facts.

Lemma description_in_range (prompt : string) (world_type : WorldType) :
  (String.length prompt ≤ 1000)%nat →
  (1 ≤ String.length (_generate_description prompt world_type) ≤ 2000)%nat.
Proof.
  intros Hprompt. rewrite description_length.
  pose proof (fragment_length world_type). lia.
Qed.

Lemma repeat_char_injective (c : ascii) (i j : nat) :
  repeat_char c i = repeat_char c j → i = j.
Proof.
  intros Heq. apply (f_equal String.length) in Heq.
  by rewrite !length_repeat_char in Heq.
Qed.

Lemma bind_inl {A B} (c : M A) (k : A → M B) (s s' : Runtime) (e : Exception) :
  (c ≫= k) s = (inl e, s') →
  c s = (inl e, s') ∨ ∃ a s1, c s = (inr a, s1) ∧ k a s1 = (inl e, s').
Proof.
  rewrite bind_run. destruct (c s) as [[e0|a] s1]; intros Hrun.
  - injection Hrun as -> ->. by left.
  - right. by exists a, s1.
Qed.

(** A flush fails only on a primary key. *)
Lemma db_flush_inl objs s e s' :
  db_flush objs s = (inl e, s') → ∃ key, e = IntegrityError key.
Proof.
  revert s. induction objs as [|obj objs IH]; intros s; simpl; [done|].
  intros [Hinsert | ([] & s1 & _ & Hrest)]%bind_inl; [|by eapply IH].
  unfold db_insert in Hinsert.
  apply bind_inl in Hinsert as [[=] | (c & sa & [= <- <-] & Hinsert)].
  apply bind_inl in Hinsert as [[=] | (u & sb & [= <- <-] & Hinsert)].
  unfold db_insert_row in Hinsert.
  destruct (existsb _ _); [|done]. injection Hinsert as <- _. by eexists.
Qed.

(** What [generate_world_from_prompt] can raise: the validation error
    of the blueprint, before anything is added to the session, or the
    integrity error of the commit. *)
Lemma generate_world_from_prompt_inl request s e s' :
  generate_world_from_prompt request s = (inl e, s') →
  (∃ errors, e = ValidationError "WorldBlueprint" errors ∧ errors ≠ []
             ∧ db s' = db s)
  ∨ (∃ key, e = IntegrityError key).
Proof.
  unfold generate_world_from_prompt.
  rewrite bind_run. cbn [time_time now].
  rewrite bind_run, create_world_blueprint_run. cbv zeta.
  destruct (WorldBlueprint_errors _ _ _ _) as [|e0 errors].
  - intros [[=] | ([] & s1 & _ & Hrun)]%bind_inl.
    apply bind_inl in Hrun as [Hcommit | ([] & s2 & _ & Hrun)].
    + right. by apply db_flush_inl in Hcommit.
    + by apply bind_inl in Hrun as [[=] | (t & s3 & _ & [=])].
  - intros [= <- <-]. left. by exists (e0 :: errors).
Qed.

End synthesis_facts.

(** X4.  For an ASCII prompt, [_create_world_blueprint] returns a
    blueprint exactly when the prompt has 1 to 1000 characters, its
    first five words joined by blanks have at most 194 characters (the
    title adds 6 and its field holds 200), and the identifiers drawn
    for the instances are pairwise distinct; the description is never
    the obstacle. *)
Theorem X4_synthesis_returns_iff (prompt : string) (world_type : WorldType)
    (s : Runtime) :
  str_isascii prompt = true →
  (∃ blueprint s',
     _create_world_blueprint prompt world_type s = (inr blueprint, s'))
  ↔ (1 ≤ String.length prompt ≤ 1000)%nat
    ∧ (String.length (title_words prompt) ≤ 194)%nat
    ∧ NoDup (rng s <$> seq 0 (template_count world_type)).
Proof.
  intros _. rewrite create_world_blueprint_run. cbv zeta.
  pose proof (WorldBlueprint_errors_nil prompt
                (_generate_title prompt world_type)
                (_generate_description prompt world_type)
                (materialize (default_instances_for world_type) (rng s)))
    as Herrors.
  rewrite generate_title_length, materialize_ids in Herrors.
  split.
  - intros (blueprint & s' & Hrun).
    destruct (WorldBlueprint_errors _ _ _ _); [|done].
    destruct Herrors as [Herrors _].
    destruct (Herrors eq_refl) as (? & ? & ? & ?). repeat split; [lia..|done].
  - intros (Hprompt & Htitle & Hids).
    destruct Herrors as [_ Herrors]. rewrite Herrors; [by eexists _, _|].
    split; [done|]. split; [lia|]. split; [|done].
    apply description_in_range. lia.
Qed.

Lemma X4_witness :
  ∃ blueprint s',
    _create_world_blueprint forest_prompt FANTASY sample_runtime
    = (inr blueprint, s').
Proof.
  apply (proj2 (X4_synthesis_returns_iff forest_prompt FANTASY sample_runtime
                  eq_refl)).
  split; [vm_compute; lia|]. split; [vm_compute; lia|].
  cbn [template_count seq fmap list_fmap].
  apply NoDup_cons. split; [|apply NoDup_singleton].
  rewrite list_elem_of_singleton. discriminate.
Defined.

(** X5.  From a runtime in which calls cannot collide, a request whose
    prompt is ASCII text of 1 to 1000 characters and whose first five
    words fit in 194 characters (as every prompt of at most 194
    characters does) is served: the call returns a blueprint, the keys of the table are
    those of before followed by the identifier of the blueprint, and
    the runtime it leaves is again one in which calls cannot collide. *)
Theorem X5_healthy_runtime_is_kept (request : PromptRequest) (s : Runtime) :
  healthy s →
  str_isascii (req_prompt request) = true →
  (1 ≤ String.length (req_prompt request) ≤ 1000)%nat →
  (String.length (title_words (req_prompt request)) ≤ 194)%nat →
  ∃ blueprint s',
    generate_world_from_prompt request s = (inr blueprint, s')
    ∧ healthy s'
    ∧ row_id <$> committed (db s')
      = ((row_id <$> committed (db s)) ++ [wb_id blueprint])%list.
Proof.
  intros (Hpending & Hinj & Hfresh & Hkeys) _ Hprompt Htitle.
  set (world_type := resolve_world_type request).
  set (n := template_count world_type).
  assert (NoDup (rng s <$> seq 0 n)) as Hids.
  { apply NoDup_fmap_2_strong; [|apply NoDup_seq].
    intros i j _ _. apply Hinj. }
  pose proof (generate_world_from_prompt_ok request s) as Hrun.
  cbv zeta in Hrun. fold world_type n in Hrun.
  eexists _, _. split; [apply Hrun; [|done|apply Hfresh]|].
  { apply WorldBlueprint_errors_nil.
    rewrite generate_title_length, materialize_ids.
    split; [done|]. split; [lia|]. split; [|done].
    apply description_in_range. lia. }
  unfold healthy. cbn [db committed pending rng wb_id].
  rewrite !fmap_app. cbn [fmap list_fmap stamp row_id WorldBlueprintModel_of wb_id].
  split; [|done].
  split; [done|]. split; [|split].
  - intros i j Heq. apply Hinj in Heq. lia.
  - intros i. rewrite elem_of_app, list_elem_of_singleton.
    intros [Hin | Heq]; [by apply Hfresh in Hin|].
    apply Hinj in Heq. lia.
  - apply NoDup_app. split; [done|]. split; [|apply NoDup_singleton].
    intros key Hin Heq%list_elem_of_singleton. subst key.
    by apply Hfresh in Hin.
Qed.

Lemma X5_witness :
  ∃ blueprint s',
    generate_world_from_prompt
      (mkPromptRequest forest_prompt None "test_user") unary_runtime
    = (inr blueprint, s')
    ∧ healthy s'.
Proof.
  destruct (X5_healthy_runtime_is_kept
              (mkPromptRequest forest_prompt None "test_user") unary_runtime)
    as (blueprint & s' & Hrun & Hhealthy & _).
  - split; [reflexivity|]. split; [apply repeat_char_injective|].
    split; [intros i; apply not_elem_of_nil | constructor].
  - reflexivity.
  - vm_compute. lia.
  - vm_compute. lia.
  - by exists blueprint, s'.
Defined.

(** ** More on the templates and the category *)

(** X6.  Whatever the category, the environment settings have exactly
    the keys lighting, weather, ambient_sound and skybox.  The
    categories the literal has no entry for (surreal, historical and
    space, and only those) get the settings of realistic. *)
Theorem X6_environment_settings_fallback (world_type : WorldType) :
  dom (_generate_environment_settings world_type)
  = (list_to_set ["lighting"; "weather"; "ambient_sound"; "skybox"]
     : gset string)
  ∧ (settings_templates !! world_type = None
     ↔ world_type ∈ [SURREAL; HISTORICAL; SPACE])
  ∧ (settings_templates !! world_type = None →
     _generate_environment_settings world_type
     = _generate_environment_settings REALISTIC).
Proof.
  split; [|split].
  - destruct world_type; compute_done.
  - assert ((if settings_templates !! world_type is Some _ then false else true)
            = bool_decide (world_type ∈ [SURREAL; HISTORICAL; SPACE])) as Hmissing
      by (destruct world_type; compute_done).
    destruct (settings_templates !! world_type) as [settings|];
      symmetry in Hmissing.
    + apply bool_decide_eq_false in Hmissing.
      split; [intros [=] | intros Hin; by destruct Hmissing].
    + apply bool_decide_eq_true in Hmissing. by split.
  - intros Hmissing. unfold _generate_environment_settings.
    by rewrite Hmissing.
Qed.

Lemma X6_witness :
  _generate_environment_settings SPACE = _generate_environment_settings REALISTIC.
Proof.
  destruct (X6_environment_settings_fallback SPACE) as (_ & _ & Hfallback).
  apply Hfallback. reflexivity.
Defined.

(** X7.  A category named in the request is the category of the
    blueprint, whatever keywords the prompt contains: every member of
    the enumeration is a non-empty string, so [or] never falls through
    to inference. *)
Theorem X7_explicit_category_is_kept (request : PromptRequest) (t : WorldType) :
  req_world_type request = Some t →
  WorldType_truthy t = true
  ∧ resolve_world_type request = t
  ∧ ∀ s blueprint s',
      generate_world_from_prompt request s = (inr blueprint, s') →
      wb_world_type blueprint = t.
Proof.
  intros Hcategory.
  assert (resolve_world_type request = t) as Hresolve.
  { unfold resolve_world_type. rewrite Hcategory. by destruct t. }
  split; [by destruct t|]. split; [done|].
  intros s blueprint s' Hrun.
  apply generate_world_from_prompt_fields in Hrun as (_ & Hcat & _).
  by rewrite Hcat.
Qed.

Lemma X7_witness :
  _infer_world_type "a dragon in space" = FANTASY
  ∧ resolve_world_type (mkPromptRequest "a dragon in space" (Some URBAN) "u")
    = URBAN.
Proof.
  split; [reflexivity|].
  by destruct (X7_explicit_category_is_kept
                 (mkPromptRequest "a dragon in space" (Some URBAN) "u") URBAN
                 eq_refl) as (_ & Hresolve & _).
Defined.

(** X8.  The text of a category and the category found from a text
    are inverse to each other, and the category column of the row a
    call commits reads back as the category of the blueprint. *)
Theorem X8_world_type_value_round_trip :
  (∀ t, WorldType_of_value (WorldType_value t) = Some t)
  ∧ (∀ text t, WorldType_of_value text = Some t → WorldType_value t = text)
  ∧ (∀ request s blueprint s',
       generate_world_from_prompt request s = (inr blueprint, s') →
       ∃ rows row,
         committed (db s') = (rows ++ [row])%list
         ∧ row_id row = wb_id blueprint
         ∧ WorldType_of_value (row_world_type row)
           = Some (wb_world_type blueprint)).
Proof.
  assert (∀ t, WorldType_of_value (WorldType_value t) = Some t) as Hround
    by (by intros []).
  split; [done|]. split.
  - intros text t Hfind. unfold WorldType_of_value in Hfind.
    apply List.find_some in Hfind as [_ Heq]. by apply String.eqb_eq in Heq.
  - intros request s blueprint s' Hrun.
    apply generate_world_from_prompt_inr in Hrun
      as (built & ms & earlier & c & u & _ & _ & _ & Hcommitted & _).
    exists (committed (db s) ++ earlier)%list,
           (stamp (WorldBlueprintModel_of blueprint) c u).
    split; [by rewrite Hcommitted, app_assoc|]. split; [done|]. apply Hround.
Qed.

Lemma X8_witness : WorldType_value SCI_FI = "sci_fi".
Proof.
  destruct X8_world_type_value_round_trip as (_ & Hback & _).
  apply (Hback "sci_fi" SCI_FI). reflexivity.
Defined.

(** ** More on the endpoint and on failed calls *)

(** X9.  The endpoint answers 200 exactly when the service returned a
    blueprint, which it then carries, with its processing time set;
    otherwise it answers 500 and carries nothing.  It never answers
    400: nothing the service does raises a [WorldGenerationError].
    The state it leaves is the one the service left. *)
Theorem X9_endpoint_status (request : PromptRequest) (s : Runtime) :
  let response := convert_prompt_to_world request s in
  response.1.1 ≠ HTTP_400_BAD_REQUEST
  ∧ (response.1.1 = HTTP_200_OK
     ↔ ∃ blueprint,
         generate_world_from_prompt request s = (inr blueprint, response.2)
         ∧ response.1.2 = Some blueprint)
  ∧ (response.1.1 = HTTP_200_OK →
     ∃ blueprint ms,
       response.1.2 = Some blueprint
       ∧ wb_processing_time_ms blueprint = Some ms)
  ∧ (response.1.1 = HTTP_500_INTERNAL_SERVER_ERROR ↔ response.1.2 = None)
  ∧ response.2 = (generate_world_from_prompt request s).2.
Proof.
  unfold convert_prompt_to_world.
  destruct (generate_world_from_prompt request s) as [[e|blueprint] s'] eqn:Hrun.
  - assert (∃ status, (match e with
                       | WorldGenerationError _ => (HTTP_400_BAD_REQUEST, None, s')
                       | _ => (HTTP_500_INTERNAL_SERVER_ERROR,
                               @None WorldBlueprint, s')
                       end) = (status, None, s')
                      ∧ status = HTTP_500_INTERNAL_SERVER_ERROR)
      as (status & -> & ->).
    { apply generate_world_from_prompt_inl in Hrun
        as [(errors & -> & _) | (key & ->)]; by eexists. }
    cbn [fst snd]. split; [done|]. split.
    { split; [done|]. by intros (? & [=] & _). }
    split; [done|]. split; [done|]. done.
  - cbn [fst snd]. split; [done|]. split.
    { split; [|done]. intros _. by exists blueprint. }
    split.
    { intros _.
      apply generate_world_from_prompt_inr in Hrun
        as (built & ms & _ & _ & _ & _ & -> & _).
      by exists (set_processing_time_ms built ms), ms. }
    split; [|done]. split; intros [=].
Qed.

Lemma X9_witness :
  ∃ blueprint ms,
    (convert_prompt_to_world
       (mkPromptRequest forest_prompt None "test_user") sample_runtime).1.2
    = Some blueprint
    ∧ wb_processing_time_ms blueprint = Some ms.
Proof.
  destruct (X9_endpoint_status
              (mkPromptRequest forest_prompt None "test_user") sample_runtime)
    as (_ & _ & Hbody & _).
  apply Hbody. vm_compute. reflexivity.
Defined.

(** X10.  A call that fails has raised either the validation error of
    the blueprint, in which case the database session is as it was
    (nothing added, nothing committed), or the integrity error of the
    commit.  For a prompt of 1 to 1000 characters the validation error
    is about the title or about the prefab instances, nothing else. *)
Theorem X10_failed_call (request : PromptRequest) (s : Runtime) (e : Exception)
    (s' : Runtime) :
  generate_world_from_prompt request s = (inl e, s') →
  (∃ errors,
     e = ValidationError "WorldBlueprint" errors ∧ errors ≠ [] ∧ db s' = db s
     ∧ ((1 ≤ String.length (req_prompt request) ≤ 1000)%nat →
        ∀ error, error ∈ errors →
                 err_loc error = "title" ∨ err_loc error = "prefab_instances"))
  ∨ (∃ key, e = IntegrityError key).
Proof.
  intros Hrun. pose proof Hrun as Hkind.
  apply generate_world_from_prompt_inl in Hkind
    as [(errors & -> & Hne & Hdb) | Hkey]; [left | by right].
  exists errors. repeat split; try done.
  intros Hprompt error Hin.
  unfold generate_world_from_prompt in Hrun.
  rewrite bind_run in Hrun. cbn [time_time now] in Hrun.
  rewrite bind_run, create_world_blueprint_run in Hrun. cbv zeta in Hrun.
  cbn [rng clock db] in Hrun.
  destruct (WorldBlueprint_errors _ _ _ _) as [|e0 errs] eqn:Herrors.
  { apply bind_inl in Hrun as [[=] | ([] & s1 & _ & Hrun)].
    apply bind_inl in Hrun as [Hcommit | ([] & s2 & _ & Hrun)].
    - by apply db_flush_inl in Hcommit as (key & [=]).
    - by apply bind_inl in Hrun as [[=] | (t & s3 & _ & [=])]. }
  injection Hrun as <- _. rewrite <-Herrors in Hin.
  unfold WorldBlueprint_errors in Hin.
  rewrite (proj2 (check_length_nil "prompt" 1 1000 _) Hprompt) in Hin.
  rewrite (proj2 (check_length_nil "description" 1 2000 _)
             (description_in_range _ _ (proj2 Hprompt))) in Hin.
  rewrite !elem_of_app in Hin.
  destruct Hin as [Hin|[Hin|[Hin|Hin]]]; try by apply elem_of_nil in Hin.
  - left. by apply check_length_loc in Hin.
  - right. destruct (validate_prefab_instances _) as [[]|];
      try by apply elem_of_nil in Hin.
    by apply list_elem_of_singleton in Hin as ->.
Qed.

Lemma X10_witness :
  ∃ errors s',
    generate_world_from_prompt
      (mkPromptRequest forest_prompt None "test_user") stuck_runtime
    = (inl (ValidationError "WorldBlueprint" errors), s')
    ∧ db s' = db stuck_runtime.
Proof.
  destruct (generate_world_from_prompt
              (mkPromptRequest forest_prompt None "test_user") stuck_runtime)
    as [[e|blueprint] s'] eqn:Hrun.
  - destruct (X10_failed_call _ _ _ _ Hrun)
      as [(errors & -> & _ & Hdb & _) | (key & ->)].
    + exists errors, s'. split; [reflexivity | exact Hdb].
    + exfalso.
      assert ((generate_world_from_prompt
                 (mkPromptRequest forest_prompt None "test_user")
                 stuck_runtime).1 = inl (IntegrityError key)) as Hfst
        by (rewrite Hrun; reflexivity).
      vm_compute in Hfst. discriminate Hfst.
  - exfalso.
    assert ((generate_world_from_prompt
               (mkPromptRequest forest_prompt None "test_user")
               stuck_runtime).1 = inr blueprint) as Hfst
      by (rewrite Hrun; reflexivity).
    vm_compute in Hfst. discriminate Hfst.
Defined.

(** ** The authorization header *)

Lemma split_maxsplit_1_app (sep : ascii) (head tail : string) :
  Forall (λ c, c ≠ sep) (list_ascii_of_string head) →
  split_maxsplit_1 sep (head +:+ String sep tail) = [head; tail].
Proof.
  induction head as [|c head IH]; intros Hhead.
  - rewrite app_nil_l. simpl. by rewrite Ascii.eqb_refl.
  - rewrite app_cons. simpl in *. apply Forall_cons in Hhead as [Hc Hhead].
    apply Ascii.eqb_neq in Hc. rewrite Hc. by rewrite IH.
Qed.

Lemma split_maxsplit_1_inv (sep : ascii) (s head tail : string) :
  split_maxsplit_1 sep s = [head; tail] → s = head +:+ String sep tail.
Proof.
  revert head. induction s as [|c rest IH]; intros head; simpl; [done|].
  destruct (Ascii.eqb c sep) eqn:Hc.
  - apply Ascii.eqb_eq in Hc as ->. intros [= <- <-]. by rewrite app_nil_l.
  - destruct (split_maxsplit_1 sep rest) as [|h t]; [done|].
    intros [= <- ->]. rewrite app_cons. f_equal. by apply IH.
Qed.

Lemma lower_keeps_space (s : string) :
  In " "%char (list_ascii_of_string s) →
  In " "%char (list_ascii_of_string (Py.lower s)).
Proof.
  induction s as [|c s IH]; simpl; [done|].
  intros [->|Hin]; [by left | right; by apply IH].
Qed.

Lemma bearer_has_no_space (scheme : string) :
  Py.lower scheme = "bearer" →
  Forall (λ c, c ≠ " "%char) (list_ascii_of_string scheme).
Proof.
  intros Hlower. apply List.Forall_forall. intros c Hin ->.
  apply lower_keeps_space in Hin. rewrite Hlower in Hin. simpl in Hin.
  repeat (destruct Hin as [Hin|Hin]; [discriminate Hin|]). done.
Qed.

(** X11.  [get_current_user_id] returns a user exactly for a header
    made of a scheme that is "bearer" in any letter case, one blank,
    and a token whose payload decodes and names a user that is not the
    empty string; the token is everything after the first blank.  Every
    other header, and the absent one, is answered with status 401. *)
Theorem X11_current_user_id (jwt_decode : string → option (gmap string string))
    (authorization : option string) :
  (∀ user_id,
     get_current_user_id jwt_decode authorization = inr user_id
     ↔ ∃ scheme token payload,
         authorization = Some (scheme +:+ " " +:+ token)
         ∧ Py.lower scheme = "bearer"
         ∧ jwt_decode token = Some payload
         ∧ payload !! "sub" = Some user_id
         ∧ user_id ≠ "")
  ∧ (∀ e, get_current_user_id jwt_decode authorization = inl e →
          status_code e = 401).
Proof.
  split.
  - intros user_id. unfold get_current_user_id, validate_token. split.
    + destruct authorization as [header|]; [|done].
      destruct (str_truthy header); simpl; [|done].
      destruct (split_maxsplit_1 " " header) as [|scheme [|token [|]]] eqn:Hsplit;
        try done.
      destruct (String.eqb (Py.lower scheme) "bearer") eqn:Hscheme; simpl; [|done].
      destruct (jwt_decode token) as [payload|] eqn:Hdecode; [|done].
      destruct (payload !! "sub") as [sub|] eqn:Hsub; [|done].
      destruct (str_truthy sub) eqn:Hsome; simpl; [|done].
      intros [= ->]. exists scheme, token, payload.
      split; [f_equal; by apply split_maxsplit_1_inv|].
      split; [by apply String.eqb_eq|]. split; [done|]. split; [done|].
      intros ->. discriminate Hsome.
    + intros (scheme & token & payload & -> & Hscheme & Hdecode & Hsub & Hsome).
      assert (str_truthy (scheme +:+ " " +:+ token) = true) as ->.
      { destruct scheme; [discriminate Hscheme|]. by rewrite app_cons. }
      simpl. rewrite (app_cons " " "" token), app_nil_l.
      rewrite split_maxsplit_1_app by by apply bearer_has_no_space.
      rewrite Hscheme. simpl. rewrite Hdecode, Hsub.
      destruct user_id; [done|reflexivity].
  - intros e. unfold get_current_user_id.
    repeat match goal with
           | |- context [match ?x with _ => _ end] => destruct x
           end; by intros [= <-].
Qed.

(** ** The prefab catalog *)

Lemma PrefabType_round_trip (t : PrefabType) :
  PrefabType_of_value (PrefabType_value t) = Some t.
Proof. by destruct t. Qed.

Lemma PrefabType_of_value_inv (value : string) (t : PrefabType) :
  PrefabType_of_value value = Some t → value = PrefabType_value t.
Proof.
  unfold PrefabType_of_value. intros Hfind.
  apply List.find_some in Hfind as [_ Heq]. by apply String.eqb_eq in Heq.
Qed.

Lemma PrefabCatalogItem_of_stamp (prefab_item : PrefabCatalogItem)
    (created updated : Z) :
  PrefabCatalogItem_of
    (stamp_prefab (PrefabCatalogModel_of prefab_item) created updated)
  = inr prefab_item.
Proof.
  destruct prefab_item. unfold PrefabCatalogItem_of, PrefabType_new.
  cbn [stamp_prefab PrefabCatalogModel_of pcm_type item_type].
  by rewrite PrefabType_round_trip.
Qed.

Lemma PrefabCatalogItem_of_inr (row : PrefabCatalogModel)
    (item : PrefabCatalogItem) :
  PrefabCatalogItem_of row = inr item →
  item_id item = pcm_id row ∧ pcm_type row = PrefabType_value (item_type item).
Proof.
  unfold PrefabCatalogItem_of, PrefabType_new.
  destruct (PrefabType_of_value (pcm_type row)) as [t|] eqn:Htype; [|done].
  intros [= <-]. split; [done|]. by apply PrefabType_of_value_inv.
Qed.

Lemma find_id_None {A} (key : A → string) (rows : list A) (id : string) :
  List.find (λ row, String.eqb (key row) id) rows = None ↔ id ∉ key <$> rows.
Proof.
  induction rows as [|row rows IH]; simpl.
  - split; [intros _; apply not_elem_of_nil | done].
  - rewrite not_elem_of_cons. destruct (String.eqb (key row) id) eqn:Heq.
    + apply String.eqb_eq in Heq. split; [done|]. by intros [Hne _].
    + apply String.eqb_neq in Heq. rewrite IH.
      split; [intros Hrest; split; [congruence | done] | by intros [_ Hrest]].
Qed.

Lemma find_id_Some {A} (key : A → string) (rows : list A) (id : string) (row : A) :
  List.find (λ row, String.eqb (key row) id) rows = Some row →
  row ∈ rows ∧ key row = id.
Proof.
  intros Hfind. apply List.find_some in Hfind as [Hin Heq].
  split; [by apply list_elem_of_In | by apply String.eqb_eq].
Qed.

Lemma existsb_id_false {A} (key : A → string) (rows : list A) (id : string) :
  existsb (λ row, String.eqb (key row) id) rows = false ↔ id ∉ key <$> rows.
Proof.
  induction rows as [|row rows IH]; simpl.
  - split; [intros _; apply not_elem_of_nil | done].
  - rewrite not_elem_of_cons, orb_false_iff, IH, String.eqb_neq.
    split; intros [Hne Hrest]; (split; [congruence | done]).
Qed.

Lemma find_app {A} (f : A → bool) (l1 l2 : list A) :
  List.find f (l1 ++ l2)
  = match List.find f l1 with
    | Some x => Some x
    | None => List.find f l2
    end.
Proof. induction l1 as [|x l1 IH]; simpl; [done|]. by destruct (f x). Qed.

(** What [add_prefab_to_catalog] does, in one step. *)
Lemma add_prefab_to_catalog_run (prefab_item : PrefabCatalogItem)
    (s : CatalogSession) :
  add_prefab_to_catalog prefab_item s
  = let later := mkCatalogSession (λ n, catalog_clock s (S (S n))) (prefab_catalog s) in
    if existsb (λ row, String.eqb (pcm_id row) (item_id prefab_item))
         (prefab_catalog s)
    then (inl (IntegrityError (item_id prefab_item)), later)
    else (inr prefab_item,
          mkCatalogSession (catalog_clock later)
            (prefab_catalog s
             ++ [stamp_prefab (PrefabCatalogModel_of prefab_item)
                   (catalog_clock s 0%nat) (catalog_clock s 1%nat)])).
Proof.
  unfold add_prefab_to_catalog, catalog_add_commit, catalog_insert_row,
    catalog_utcnow, mbind, CM_bind, mret, CM_ret.
  cbn [catalog_clock prefab_catalog stamp_prefab PrefabCatalogModel_of pcm_id].
  by destruct (existsb _ _).
Qed.

Lemma seed_prefabs_cons (prefab : PrefabCatalogItem)
    (rest : list PrefabCatalogItem) (s : CatalogSession) :
  seed_prefabs (prefab :: rest) s
  = match List.find (λ row, String.eqb (pcm_id row) (item_id prefab))
            (prefab_catalog s) with
    | Some _ => seed_prefabs rest s
    | None =>
        match add_prefab_to_catalog prefab s with
        | (inr _, s') => seed_prefabs rest s'
        | (inl e, s') => (inl e, s')
        end
    end.
Proof.
  cbn [seed_prefabs]. unfold mbind, CM_bind, first_by_id, mret, CM_ret.
  destruct (List.find _ _); [done|].
  by destruct (add_prefab_to_catalog prefab s) as [[e|item] s'].
Qed.

Lemma filter_missing_snoc (rows : list string) (id : string)
    (prefabs : list PrefabCatalogItem) :
  id ∉ item_id <$> prefabs →
  filter (λ item, item_id item ∉ (rows ++ [id])%list) prefabs
  = filter (λ item, item_id item ∉ rows) prefabs.
Proof.
  induction prefabs as [|item prefabs IH]; [done|]. rewrite fmap_cons.
  intros [Hne Hrest]%not_elem_of_cons. rewrite !filter_cons, IH by done.
  destruct (decide (item_id item ∉ (rows ++ [id])%list)) as [Hin|Hin],
           (decide (item_id item ∉ rows)) as [Hin'|Hin']; try done.
  - destruct Hin'. intros Hrows. apply Hin. apply elem_of_app. by left.
  - destruct Hin. intros [Hrows|Hid%list_elem_of_singleton]%elem_of_app;
      [done | by destruct Hne].
Qed.

(** The rows a list of prefabs leaves in the catalog: those whose
    identifier was missing, in order, each stamped at its insertion. *)
Lemma seed_prefabs_run (prefabs : list PrefabCatalogItem) (s : CatalogSession) :
  NoDup (item_id <$> prefabs) →
  ∃ s' added,
    seed_prefabs prefabs s = (inr tt, s')
    ∧ prefab_catalog s' = (prefab_catalog s ++ added)%list
    ∧ Forall2 (λ row item, ∃ created updated,
                 row = stamp_prefab (PrefabCatalogModel_of item) created updated)
        added (filter (λ item, item_id item ∉ catalog_ids s) prefabs)
    ∧ ∀ n, catalog_clock s' n = catalog_clock s (2 * length added + n)%nat.
Proof.
  revert s. induction prefabs as [|prefab rest IH]; intros s Hdistinct.
  - exists s, []. split; [done|]. split; [by rewrite app_nil_r|].
    split; [constructor|]. done.
  - rewrite fmap_cons in Hdistinct. apply NoDup_cons in Hdistinct as [Hfresh Hrest].
    rewrite seed_prefabs_cons, filter_cons.
    destruct (List.find _ (prefab_catalog s)) as [row|] eqn:Hfind.
    + apply find_id_Some in Hfind as [Hin Hid].
      destruct (decide (item_id prefab ∉ catalog_ids s)) as [Hmissing|_].
      { destruct Hmissing. rewrite <-Hid. by apply list_elem_of_fmap_2. }
      by apply IH.
    + pose proof Hfind as Hmissing. apply find_id_None in Hmissing.
      rewrite add_prefab_to_catalog_run. cbv zeta.
      rewrite (proj2 (existsb_id_false _ _ _) Hmissing).
      destruct (decide (item_id prefab ∉ catalog_ids s)) as [_|Hpresent];
        [|by destruct Hpresent].
      set (row := stamp_prefab (PrefabCatalogModel_of prefab) _ _).
      set (s1 := mkCatalogSession _ _).
      destruct (IH s1 Hrest) as (s' & added & Hrun & Hrows & Hadded & Hclock).
      exists s', (row :: added). split; [done|].
      split; [by rewrite Hrows; unfold s1; cbn [prefab_catalog]; rewrite <-app_assoc|].
      split.
      * constructor; [by eexists _, _|].
        replace (catalog_ids s1) with (catalog_ids s ++ [item_id prefab])%list
          in Hadded
          by (unfold catalog_ids, s1; cbn [prefab_catalog];
              by rewrite fmap_app).
        by rewrite filter_missing_snoc in Hadded.
      * intros n. rewrite Hclock. unfold s1. cbn [catalog_clock length].
        f_equal. lia.
Qed.

(** Seeding prefabs that are all present does nothing. *)
Lemma seed_prefabs_present (prefabs : list PrefabCatalogItem) (s : CatalogSession) :
  (∀ item, item ∈ prefabs → item_id item ∈ catalog_ids s) →
  seed_prefabs prefabs s = (inr tt, s).
Proof.
  induction prefabs as [|prefab rest IH]; intros Hpresent; [done|].
  rewrite seed_prefabs_cons.
  destruct (List.find _ (prefab_catalog s)) as [row|] eqn:Hfind.
  - apply IH. intros item Hin. apply Hpresent. by right.
  - apply find_id_None in Hfind. destruct Hfind. apply Hpresent. by left.
Qed.

Lemma default_prefabs_distinct : NoDup (item_id <$> default_prefabs).
Proof.
  cbn [default_prefabs fmap list_fmap item_id].
  repeat (apply NoDup_cons; split;
          [intros Hin;
           repeat (apply elem_of_cons in Hin as [Hin|Hin]; [discriminate Hin|]);
           by apply elem_of_nil in Hin|]).
  constructor.
Qed.

(** A prefab added by the seeding is found again as the item it was
    made from. *)
Lemma find_stamped (added : list PrefabCatalogModel)
    (prefabs : list PrefabCatalogItem) (item : PrefabCatalogItem) :
  NoDup (item_id <$> prefabs) →
  Forall2 (λ row item, ∃ created updated,
             row = stamp_prefab (PrefabCatalogModel_of item) created updated)
    added prefabs →
  item ∈ prefabs →
  ∃ created updated,
    List.find (λ row, String.eqb (pcm_id row) (item_id item)) added
    = Some (stamp_prefab (PrefabCatalogModel_of item) created updated).
Proof.
  intros Hdistinct Hadded. revert Hdistinct.
  induction Hadded as [|row item0 added prefabs (created & updated & ->) _ IH];
    intros Hdistinct Hin; [by apply elem_of_nil in Hin|].
  rewrite fmap_cons in Hdistinct. apply NoDup_cons in Hdistinct as [Hfresh Hrest].
  cbn [List.find stamp_prefab PrefabCatalogModel_of pcm_id].
  apply elem_of_cons in Hin as [->|Hin].
  - rewrite String.eqb_refl. by exists created, updated.
  - destruct (String.eqb (item_id item0) (item_id item)) eqn:Heq.
    + apply String.eqb_eq in Heq. destruct Hfresh. rewrite Heq.
      by apply list_elem_of_fmap_2.
    + by apply IH.
Qed.

Lemma get_prefab_by_id_run (prefab_id : string) (s : CatalogSession) :
  get_prefab_by_id prefab_id s
  = match List.find (λ row, String.eqb (pcm_id row) prefab_id)
            (prefab_catalog s) with
    | None => (inr None, s)
    | Some row =>
        match PrefabCatalogItem_of row with
        | inr item => (inr (Some item), s)
        | inl e => (inl e, s)
        end
    end.
Proof.
  unfold get_prefab_by_id, first_by_id, of_result, mbind, CM_bind, mret, CM_ret.
  destruct (List.find _ _) as [row|]; [|done].
  by destruct (PrefabCatalogItem_of row).
Qed.

(** X12.  [seed_default_prefabs] never raises.  It leaves the rows of
    the catalog as they are and appends, in the order of the literal,
    one row for each default prefab whose identifier was missing; read
    back, these rows are those prefabs.  Afterwards every default
    identifier is present, and seeding again changes nothing, not even
    the clock. *)
Theorem X12_seed_default_prefabs (s : CatalogSession) :
  ∃ s' added,
    seed_default_prefabs s = (inr tt, s')
    ∧ prefab_catalog s' = (prefab_catalog s ++ added)%list
    ∧ PrefabCatalogItem_of <$> added
      = inr <$> filter (λ item, item_id item ∉ catalog_ids s) default_prefabs
    ∧ (∀ item, item ∈ default_prefabs → item_id item ∈ catalog_ids s')
    ∧ (∀ n, catalog_clock s' n = catalog_clock s (2 * length added + n)%nat)
    ∧ seed_default_prefabs s' = (inr tt, s').
Proof.
  destruct (seed_prefabs_run default_prefabs s default_prefabs_distinct)
    as (s' & added & Hrun & Hrows & Hadded & Hclock).
  assert (∀ item, item ∈ default_prefabs → item_id item ∈ catalog_ids s')
    as Hpresent.
  { intros item Hin. unfold catalog_ids. rewrite Hrows, fmap_app.
    apply elem_of_app.
    destruct (decide (item_id item ∈ catalog_ids s)) as [Hold|Hnew]; [by left|].
    right.
    assert (item ∈ filter (λ item, item_id item ∉ catalog_ids s) default_prefabs)
      as Hmissing by by apply list_elem_of_filter.
    apply list_elem_of_lookup in Hmissing as [i Hi].
    destruct (Forall2_lookup_r _ _ _ _ _ Hadded Hi)
      as (row & Hrow & created & updated & ->).
    apply list_elem_of_lookup_2 in Hrow.
    by apply (list_elem_of_fmap_2 pcm_id) in Hrow. }
  exists s', added. split; [done|]. split; [done|]. split.
  { clear -Hadded. induction Hadded as [|row item added items (c & u & ->) _ IH];
      [done|].
    by rewrite !fmap_cons, IH, PrefabCatalogItem_of_stamp. }
  split; [done|]. split; [done|]. by apply seed_prefabs_present.
Qed.


Lemma filter_all {A} (P : A → Prop) `{∀ x, Decision (P x)} (l : list A) :
  (∀ x, x ∈ l → P x) → filter P l = l.
Proof.
  induction l as [|x l IH]; intros Hall; [done|].
  rewrite filter_cons. destruct (decide (P x)) as [_|Hx].
  - f_equal. apply IH. intros y Hy. apply Hall. by right.
  - destruct Hx. apply Hall. by left.
Qed.

(** Each instance the generator places is made from a default prefab. *)
Lemma generated_prefab_is_default prompt world_type r instances r' instance :
  _generate_prefab_instances prompt world_type r = (inr instances, r') →
  instance ∈ instances →
  ∃ item, item ∈ default_prefabs
          ∧ item_id item = pi_prefab_id instance
          ∧ item_type item = pi_prefab_type instance.
Proof.
  rewrite generate_prefab_instances_run. intros [= <- _] Hin.
  assert (∀ i item, default_prefabs !! i = Some item →
                    item_id item = pi_prefab_id instance →
                    item_type item = pi_prefab_type instance →
                    ∃ item, item ∈ default_prefabs
                            ∧ item_id item = pi_prefab_id instance
                            ∧ item_type item = pi_prefab_type instance) as Hat.
  { intros i item Hi Hid Htype. exists item.
    split; [by apply list_elem_of_lookup_2 in Hi | done]. }
  destruct world_type; cbn [materialize imap default_instances_for] in Hin;
    repeat (apply elem_of_cons in Hin as [->|Hin]);
    try (by apply elem_of_nil in Hin).
  all: first [ by apply (Hat 0%nat _ eq_refl)
             | by apply (Hat 1%nat _ eq_refl)
             | by apply (Hat 2%nat _ eq_refl)
             | by apply (Hat 3%nat _ eq_refl)
             | by apply (Hat 4%nat _ eq_refl) ].
Qed.

(** X13.  Seeded into a catalog that holds none of their identifiers,
    the default prefabs are found again by identifier, each as written
    in the literal.  They are what the generator builds worlds from:
    the prefab of every instance it places is in the seeded catalog,
    under the type the instance carries, and every default prefab is
    placed for some category. *)
Theorem X13_generated_prefabs_are_in_the_catalog (s : CatalogSession) :
  (∀ item, item ∈ default_prefabs → item_id item ∉ catalog_ids s) →
  let seeded := (seed_default_prefabs s).2 in
  (∀ item, item ∈ default_prefabs →
     get_prefab_by_id (item_id item) seeded = (inr (Some item), seeded))
  ∧ (∀ prompt world_type r instances r' instance,
       _generate_prefab_instances prompt world_type r = (inr instances, r') →
       instance ∈ instances →
       ∃ item,
         get_prefab_by_id (pi_prefab_id instance) seeded
         = (inr (Some item), seeded)
         ∧ item_type item = pi_prefab_type instance)
  ∧ (∀ item, item ∈ default_prefabs →
       ∃ world_type, ∀ prompt r,
         ∃ instances r' instance,
           _generate_prefab_instances prompt world_type r = (inr instances, r')
           ∧ instance ∈ instances
           ∧ pi_prefab_id instance = item_id item
           ∧ pi_prefab_type instance = item_type item).
Proof.
  intros Hfree seeded.
  assert (∀ item, item ∈ default_prefabs →
            get_prefab_by_id (item_id item) seeded = (inr (Some item), seeded))
    as Hfound.
  { destruct (seed_prefabs_run default_prefabs s default_prefabs_distinct)
      as (s' & added & Hrun & Hrows & Hadded & _).
    unfold seeded, seed_default_prefabs. rewrite Hrun. cbn [snd].
    rewrite (filter_all _ _ Hfree) in Hadded.
    intros item Hin. rewrite get_prefab_by_id_run, Hrows, find_app.
    rewrite (proj2 (find_id_None _ _ _) (Hfree item Hin)).
    destruct (find_stamped _ _ item default_prefabs_distinct Hadded Hin)
      as (created & updated & ->).
    by rewrite PrefabCatalogItem_of_stamp. }
  split; [done|]. split.
  - intros prompt world_type r instances r' instance Hrun Hin.
    destruct (generated_prefab_is_default _ _ _ _ _ _ Hrun Hin)
      as (item & Hitem & Hid & Htype).
    exists item. by rewrite <-Hid, Hfound.
  - intros item Hin.
    assert (∀ world_type i template,
              default_instances_for world_type !! i = Some template →
              (∀ id, pi_prefab_id (template id) = item_id item
                     ∧ pi_prefab_type (template id) = item_type item) →
              ∃ world_type, ∀ prompt r,
                ∃ instances r' instance,
                  _generate_prefab_instances prompt world_type r
                  = (inr instances, r')
                  ∧ instance ∈ instances
                  ∧ pi_prefab_id instance = item_id item
                  ∧ pi_prefab_type instance = item_type item) as Hplaced.
    { intros world_type i template Hi Hsame. exists world_type. intros prompt r.
      rewrite generate_prefab_instances_run. eexists _, _, (template (rng r i)).
      split; [done|]. split; [|apply Hsame].
      apply (list_elem_of_lookup_2 _ i). unfold materialize.
      by rewrite list_lookup_imap, Hi. }
    repeat (apply elem_of_cons in Hin as [->|Hin]);
      [ eapply (Hplaced FANTASY 0%nat); [reflexivity | by intros id]
      | eapply (Hplaced SCI_FI 0%nat); [reflexivity | by intros id]
      | eapply (Hplaced FANTASY 1%nat); [reflexivity | by intros id]
      | eapply (Hplaced SCI_FI 1%nat); [reflexivity | by intros id]
      | eapply (Hplaced REALISTIC 0%nat); [reflexivity | by intros id]
      | by apply elem_of_nil in Hin ].
Qed.

Lemma X13_witness :
  ∃ item,
    get_prefab_by_id "magic_tree_01" seeded_catalog
    = (inr (Some item), seeded_catalog)
    ∧ item_type item = ENVIRONMENT.
Proof.
  assert (∀ item, item ∈ default_prefabs → item_id item ∉ catalog_ids empty_catalog)
    as Hfree by (intros item _; apply not_elem_of_nil).
  destruct (X13_generated_prefabs_are_in_the_catalog empty_catalog Hfree)
    as (Hfound & _).
  assert (∃ item, item ∈ default_prefabs ∧ item_id item = "magic_tree_01"
                  ∧ item_type item = ENVIRONMENT) as (item & Hin & Hid & Htype).
  { eexists. split; [apply (list_elem_of_lookup_2 _ 2%nat); reflexivity|].
    split; reflexivity. }
  exists item. split; [|exact Htype].
  unfold seeded_catalog. rewrite <-Hid. exact (Hfound item Hin).
Defined.

(** X14.  [add_prefab_to_catalog] refuses an identifier the catalog
    holds, with the integrity error of the commit, and leaves the rows
    as they are.  Otherwise, for an item that fits the columns, it
    appends one row, and [get_prefab_by_id] then returns the item that
    was added, field for field; what it returns for any other
    identifier is unchanged. *)
Theorem X14_add_prefab_round_trip (prefab_item : PrefabCatalogItem)
    (s : CatalogSession) :
  let result := add_prefab_to_catalog prefab_item s in
  (item_id prefab_item ∈ catalog_ids s →
     result.1 = inl (IntegrityError (item_id prefab_item))
     ∧ prefab_catalog result.2 = prefab_catalog s)
  ∧ (item_id prefab_item ∉ catalog_ids s →
     fits_prefab_catalog prefab_item →
     result.1 = inr prefab_item
     ∧ catalog_ids result.2 = (catalog_ids s ++ [item_id prefab_item])%list
     ∧ get_prefab_by_id (item_id prefab_item) result.2
       = (inr (Some prefab_item), result.2)
     ∧ ∀ other, other ≠ item_id prefab_item →
         (get_prefab_by_id other result.2).1 = (get_prefab_by_id other s).1).
Proof.
  cbv zeta. rewrite add_prefab_to_catalog_run. cbv zeta.
  destruct (existsb _ (prefab_catalog s)) eqn:Hexists.
  - split; [done|]. intros Hmissing.
    apply existsb_id_false in Hmissing. congruence.
  - pose proof (proj1 (existsb_id_false _ _ _) Hexists) as Hmissing.
    split; [done|]. intros _ _. cbn [fst snd]. split; [done|]. split.
    { unfold catalog_ids. cbn [prefab_catalog]. by rewrite fmap_app. }
    split.
    + rewrite get_prefab_by_id_run. cbn [prefab_catalog]. rewrite find_app.
      rewrite (proj2 (find_id_None _ _ _) Hmissing).
      cbn [List.find stamp_prefab PrefabCatalogModel_of pcm_id].
      rewrite String.eqb_refl.
      change (mkPrefabCatalogModel _ _ _ _ _ _ _ _ _ _ _ _)
        with (stamp_prefab (PrefabCatalogModel_of prefab_item)
                (catalog_clock s 0%nat) (catalog_clock s 1%nat)).
      by rewrite PrefabCatalogItem_of_stamp.
    + intros other Hother. rewrite !get_prefab_by_id_run. cbn [prefab_catalog].
      rewrite find_app.
      destruct (List.find _ (prefab_catalog s)) as [row|].
      * by destruct (PrefabCatalogItem_of row).
      * cbn [List.find stamp_prefab PrefabCatalogModel_of pcm_id].
        apply not_eq_sym, String.eqb_neq in Hother. by rewrite Hother.
Qed.

Lemma PrefabType_truthy_true (t : PrefabType) : PrefabType_truthy t = true.
Proof. by destruct t. Qed.

Lemma elem_of_filter_by_type (prefab_type : option PrefabType)
    (rows : list PrefabCatalogModel) (row : PrefabCatalogModel) :
  row ∈ filter_by_type prefab_type rows
  ↔ row ∈ rows ∧ ∀ t, prefab_type = Some t → pcm_type row = PrefabType_value t.
Proof.
  unfold filter_by_type. destruct prefab_type as [t|].
  - rewrite PrefabType_truthy_true, list_elem_of_filter. split.
    + intros [Htype Hin]. split; [done|]. by intros ? [= <-].
    + intros [Hin Htype]. split; [by apply Htype | done].
  - split; [by intros Hin | by intros [Hin _]].
Qed.

Lemma PrefabCatalogItems_of_typed (rows : list PrefabCatalogModel) :
  Forall (λ row, is_Some (PrefabType_of_value (pcm_type row))) rows →
  ∃ items,
    PrefabCatalogItems_of rows = inr items
    ∧ Forall2 (λ row item, PrefabCatalogItem_of row = inr item) rows items.
Proof.
  induction 1 as [|row rows [t Ht] _ (items & Hitems & Hall)].
  - exists []. split; [done|constructor].
  - cbn [PrefabCatalogItems_of]. rewrite Hitems.
    unfold PrefabCatalogItem_of at 1, PrefabType_new. rewrite Ht.
    eexists. split; [done|]. constructor; [|done].
    unfold PrefabCatalogItem_of, PrefabType_new. by rewrite Ht.
Qed.

Lemma catalog_typed_add (prefab_item : PrefabCatalogItem) (s : CatalogSession) :
  catalog_typed s → catalog_typed (add_prefab_to_catalog prefab_item s).2.
Proof.
  unfold catalog_typed. rewrite add_prefab_to_catalog_run. cbv zeta.
  destruct (existsb _ _); cbn [snd prefab_catalog]; [done|].
  intros Htyped. apply Forall_app. split; [done|].
  constructor; [|constructor].
  cbn [stamp_prefab PrefabCatalogModel_of pcm_type].
  by rewrite PrefabType_round_trip.
Qed.

Lemma catalog_typed_seed (s : CatalogSession) :
  catalog_typed s → catalog_typed (seed_default_prefabs s).2.
Proof.
  destruct (seed_prefabs_run default_prefabs s default_prefabs_distinct)
    as (s' & added & Hrun & Hrows & Hadded & _).
  unfold seed_default_prefabs, catalog_typed. rewrite Hrun. cbn [snd].
  rewrite Hrows. intros Htyped. apply Forall_app. split; [done|].
  clear -Hadded. induction Hadded as [|row item added items (c & u & ->) _ IH];
    constructor; [|done].
  cbn [stamp_prefab PrefabCatalogModel_of pcm_type].
  by rewrite PrefabType_round_trip.
Qed.

(** X15.  A catalog filled through the service holds a prefab type in
    every row: adding and seeding keep it so.  On such a catalog
    [get_prefab_catalog] never raises and leaves the session as it is;
    the page it returns has as many items as the limit allows of what
    [get_total_prefab_count] counts beyond the offset, and each item
    is a row of the catalog, of the type asked for when one is. *)
Theorem X15_catalog_pages (s : CatalogSession) (prefab_type : option PrefabType)
    (limit offset : nat) :
  catalog_typed s →
  (∀ prefab_item, catalog_typed (add_prefab_to_catalog prefab_item s).2)
  ∧ catalog_typed (seed_default_prefabs s).2
  ∧ ∃ items total,
      get_prefab_catalog prefab_type limit offset s = (inr items, s)
      ∧ get_total_prefab_count prefab_type s = (inr total, s)
      ∧ length items = Nat.min limit (total - offset)
      ∧ ∀ item, item ∈ items →
                item_id item ∈ catalog_ids s
                ∧ ∀ t, prefab_type = Some t → item_type item = t.
Proof.
  intros Htyped. split; [intros prefab_item; by apply catalog_typed_add|].
  split; [by apply catalog_typed_seed|].
  unfold get_prefab_catalog, get_total_prefab_count. cbv zeta.
  set (query := filter_by_type prefab_type (prefab_catalog s)).
  assert (∀ row, row ∈ take limit (drop offset query) → row ∈ query) as Hpage.
  { intros row Hin. by apply subseteq_take, subseteq_drop in Hin. }
  destruct (PrefabCatalogItems_of_typed (take limit (drop offset query)))
    as (items & -> & Hitems).
  { apply Forall_forall. intros row Hin. apply Hpage in Hin.
    apply elem_of_filter_by_type in Hin as [Hin _].
    unfold catalog_typed in Htyped. rewrite Forall_forall in Htyped.
    by apply Htyped. }
  exists items, (length query). split; [done|]. split; [done|]. split.
  { by rewrite <-(Forall2_length _ _ _ Hitems), length_take, length_drop. }
  intros item Hin. apply list_elem_of_lookup in Hin as [i Hi].
  destruct (Forall2_lookup_r _ _ _ _ _ Hitems Hi) as (row & Hrow & Hof).
  apply list_elem_of_lookup_2, Hpage, elem_of_filter_by_type in Hrow
    as [Hrow Hsame].
  apply PrefabCatalogItem_of_inr in Hof as [Hid Htype]. split.
  - rewrite Hid. by apply list_elem_of_fmap_2.
  - intros t Ht. specialize (Hsame t Ht). rewrite Htype in Hsame.
    assert (Some (item_type item) = Some t) as [= ->]; [|done].
    by rewrite <-!PrefabType_round_trip, Hsame.
Qed.

Lemma X15_witness :
  ∃ items total,
    get_prefab_catalog (Some BUILDING) 2 1 seeded_catalog
    = (inr items, seeded_catalog)
    ∧ get_total_prefab_count (Some BUILDING) seeded_catalog
      = (inr total, seeded_catalog)
    ∧ length items = Nat.min 2 (total - 1).
Proof.
  destruct (X15_catalog_pages seeded_catalog (Some BUILDING) 2 1)
    as (_ & _ & items & total & Hpage & Htotal & Hlength & _).
  { apply catalog_typed_seed. constructor. }
  exists items, total. split; [exact Hpage|]. split; [exact Htotal | exact Hlength].
Defined.


(** ** Publishing *)

Section publishing.

Context {float : Type}.
Variable rating_errors : float → list ErrorDetails.
Variable validation_error_str : string → list ErrorDetails → string.

(** The message of the missing blueprint says "not found", whatever
    the identifier. *)
Lemma not_found_message (id : string) :
  Py.contains "not found"
    (Py.lower ("World blueprint " +:+ id +:+ " not found")) = true.
Proof.
  rewrite !lower_app. apply contains_iff.
  exists (Py.lower "World blueprint " +:+ Py.lower id +:+ " "), "".
  by rewrite !string_app_assoc.
Qed.

(** What [publish_experience] does, in one step. *)
Lemma publish_experience_run (request : PublishRequest)
    (s : @ExperienceSession float) :
  publish_experience rating_errors request s
  = match List.find (λ row, String.eqb (row_id row)
                              (pub_world_blueprint_id request))
            (world_blueprints s) with
    | None =>
        (inl (ValueError ("World blueprint " +:+ pub_world_blueprint_id request
                          +:+ " not found")), s)
    | Some _ =>
        let later :=
          mkExperienceSession (λ n, es_rng s (S n)) (λ n, es_clock s (S (S n)))
            (world_blueprints s) (experience_cards s) in
        if existsb (λ row, String.eqb (exp_id row) (es_rng s 0%nat))
             (experience_cards s)
        then (inl (IntegrityError (es_rng s 0%nat)), later)
        else (ExperienceCard_of rating_errors (published_row request s),
              mkExperienceSession (es_rng later) (es_clock later)
                (world_blueprints s)
                (experience_cards s ++ [published_row request s]))
    end.
Proof.
  unfold publish_experience, first_world_blueprint, experience_add_commit,
    experience_insert_row, es_uuid4, es_utcnow, es_of_result, es_raise,
    mbind, EM_bind, mret, EM_ret.
  destruct (List.find _ (world_blueprints s)); [|done].
  cbn [es_rng es_clock world_blueprints experience_cards exp_id].
  by destruct (existsb _ _).
Qed.

Lemma ExperienceCard_of_published (request : PublishRequest)
    (s : @ExperienceSession float) :
  PublishRequest_errors request = [] →
  ExperienceCard_of rating_errors (published_row request s)
  = inr (published_card request s).
Proof.
  unfold ExperienceCard_of, ExperienceCard_errors, PublishRequest_errors.
  cbn [published_row exp_title exp_description exp_rating from_option].
  rewrite app_nil_r. by intros ->.
Qed.

Lemma get_experience_by_id_run (experience_id : string)
    (s : @ExperienceSession float) :
  get_experience_by_id rating_errors experience_id s
  = match List.find (λ row, String.eqb (exp_id row) experience_id)
            (experience_cards s) with
    | None => (inr None, s)
    | Some row =>
        match ExperienceCard_of rating_errors row with
        | inr card => (inr (Some card), s)
        | inl e => (inl e, s)
        end
    end.
Proof.
  unfold get_experience_by_id, first_experience, es_of_result,
    mbind, EM_bind, mret, EM_ret.
  destruct (List.find _ _) as [row|]; [|done].
  by destruct (ExperienceCard_of rating_errors row).
Qed.

(** A request for a blueprint of the table, in a session whose next
    identifier is new. *)
Lemma publish_experience_fresh (request : PublishRequest)
    (s : @ExperienceSession float) :
  pub_world_blueprint_id request ∈ row_id <$> world_blueprints s →
  PublishRequest_errors request = [] →
  es_rng s 0%nat ∉ exp_id <$> experience_cards s →
  publish_experience rating_errors request s
  = (inr (published_card request s),
     mkExperienceSession (λ n, es_rng s (S n)) (λ n, es_clock s (S (S n)))
       (world_blueprints s) (experience_cards s ++ [published_row request s])).
Proof.
  intros Hknown Hvalid Hfresh. rewrite publish_experience_run.
  destruct (List.find _ (world_blueprints s)) eqn:Hfind.
  - cbv zeta. rewrite (proj2 (existsb_id_false _ _ _) Hfresh).
    by rewrite ExperienceCard_of_published.
  - by apply find_id_None in Hfind.
Qed.

Lemma publish_experience_collision (request : PublishRequest)
    (s : @ExperienceSession float) :
  pub_world_blueprint_id request ∈ row_id <$> world_blueprints s →
  es_rng s 0%nat ∈ exp_id <$> experience_cards s →
  publish_experience rating_errors request s
  = (inl (IntegrityError (es_rng s 0%nat)),
     mkExperienceSession (λ n, es_rng s (S n)) (λ n, es_clock s (S (S n)))
       (world_blueprints s) (experience_cards s)).
Proof.
  intros Hknown Htaken. rewrite publish_experience_run.
  destruct (List.find _ (world_blueprints s)) eqn:Hfind.
  - cbv zeta. destruct (existsb _ (experience_cards s)) eqn:Hexists; [done|].
    by apply existsb_id_false in Hexists.
  - by apply find_id_None in Hfind.
Qed.

Lemma publish_experience_unknown (request : PublishRequest)
    (s : @ExperienceSession float) :
  pub_world_blueprint_id request ∉ row_id <$> world_blueprints s →
  publish_experience rating_errors request s
  = (inl (ValueError ("World blueprint " +:+ pub_world_blueprint_id request
                      +:+ " not found")), s).
Proof.
  intros Hunknown. rewrite publish_experience_run.
  by rewrite (proj2 (find_id_None _ _ _) Hunknown).
Qed.

End publishing.

(** X16.  The publishing endpoint answers a valid request, whose
    author fits the column, with 404
    exactly when no blueprint has the identifier asked for, and the
    session is then untouched; with 200 and the card when the
    blueprint exists and the identifier drawn for the card is new;
    with 500 and no card when that identifier is taken, the tables
    being left as they were.  It never answers 400. *)
Theorem X16_publish_status {float : Type}
    (rating_errors : float → list ErrorDetails)
    (validation_error_str : string → list ErrorDetails → string)
    (request : PublishRequest) (s : @ExperienceSession float) :
  PublishRequest_errors request = [] →
  fits_experience_cards request →
  let response := publish_endpoint rating_errors validation_error_str request s in
  let known := pub_world_blueprint_id request ∈ row_id <$> world_blueprints s in
  let fresh := es_rng s 0%nat ∉ exp_id <$> experience_cards s in
  (response.1.1 = 404 ↔ ¬ known)
  ∧ (¬ known → response = (404, None, s))
  ∧ (response.1.1 = 200 ↔ known ∧ fresh)
  ∧ (known → fresh → response.1.2 = Some (published_card request s))
  ∧ (response.1.1 = 500 ↔ known ∧ ¬ fresh)
  ∧ (known → ¬ fresh →
     response.1.2 = None
     ∧ world_blueprints response.2 = world_blueprints s
     ∧ experience_cards response.2 = experience_cards s)
  ∧ response.1.1 ≠ 400.
Proof.
  intros Hvalid _. cbv zeta. unfold publish_endpoint.
  destruct (decide (pub_world_blueprint_id request
                    ∈ row_id <$> world_blueprints s)) as [Hknown|Hunknown].
  - destruct (decide (es_rng s 0%nat ∈ exp_id <$> experience_cards s))
      as [Htaken|Hfresh].
    + rewrite (publish_experience_collision _ _ _ Hknown Htaken).
      cbn [fst snd world_blueprints experience_cards].
      unfold status.HTTP_500_INTERNAL_SERVER_ERROR.
      split; [by split|]. split; [done|]. split; [split; [done|by intros [_ ?]]|].
      split; [done|].
      split; [split; [intros _; split; [done | by intros Hf] | done]|].
      by split.
    + rewrite (publish_experience_fresh _ _ _ Hknown Hvalid Hfresh).
      cbn [fst snd]. split; [by split|]. split; [done|]. split; [by split|].
      split; [done|]. split; [split; [done|by intros [_ ?]]|]. by split.
  - rewrite (publish_experience_unknown _ _ _ Hunknown), not_found_message.
    cbn [fst snd]. unfold status.HTTP_404_NOT_FOUND.
    split; [by split|]. split; [done|]. split; [split; [done|by intros [? _]]|].
    split; [done|]. split; [split; [done|by intros [? _]]|]. by split.
Qed.

Lemma X16_witness :
  publish_endpoint (λ _ : Z, []) (λ _ _, "") sample_publish_request
    sample_publishing_session
  = (200, Some (published_card sample_publish_request sample_publishing_session),
     (publish_endpoint (λ _ : Z, []) (λ _ _, "") sample_publish_request
        sample_publishing_session).2).
Proof.
  assert (fits_experience_cards sample_publish_request) as Hfits
    by (unfold fits_experience_cards; vm_compute; lia).
  destruct (X16_publish_status (λ _ : Z, []) (λ _ _, "") sample_publish_request
              sample_publishing_session eq_refl Hfits)
    as (_ & _ & Hok & Hcard & _).
  assert ("blueprint-1" ∈ ["blueprint-1"]) as Hknown by apply list_elem_of_here.
  assert (sample_uuid 0 ∉ []) as Hfresh by apply not_elem_of_nil.
  specialize (Hcard Hknown Hfresh). apply proj2 in Hok.
  specialize (Hok (conj Hknown Hfresh)).
  destruct (publish_endpoint _ _ _ _) as [[code card] s']. cbn [fst snd] in *.
  by rewrite Hok, Hcard.
Defined.

(** X17.  Publishing a valid request for a blueprint of the table, the
    author fitting the column and the identifier drawn being new,
    returns the card of the request: its
    blueprint, title, description, tags, author and visibility, no
    thumbnail, no rating, a play count of zero.  The blueprints are
    untouched and one row is appended to the cards, under which
    [get_experience_by_id] returns that card; what it returns for any
    other identifier is unchanged. *)
Theorem X17_publish_round_trip {float : Type}
    (rating_errors : float → list ErrorDetails)
    (request : PublishRequest) (s : @ExperienceSession float) :
  pub_world_blueprint_id request ∈ row_id <$> world_blueprints s →
  PublishRequest_errors request = [] →
  fits_experience_cards request →
  es_rng s 0%nat ∉ exp_id <$> experience_cards s →
  ∃ card s',
    publish_experience rating_errors request s = (inr card, s')
    ∧ card = published_card request s
    ∧ world_blueprints s' = world_blueprints s
    ∧ exp_id <$> experience_cards s'
      = ((exp_id <$> experience_cards s) ++ [card_id card])%list
    ∧ get_experience_by_id rating_errors (card_id card) s' = (inr (Some card), s')
    ∧ ∀ other, other ≠ card_id card →
        (get_experience_by_id rating_errors other s').1
        = (get_experience_by_id rating_errors other s).1.
Proof.
  intros Hknown Hvalid _ Hfresh. eexists _, _.
  split; [by apply publish_experience_fresh|]. split; [done|].
  split; [done|]. split; [cbn [experience_cards]; by rewrite fmap_app|]. split.
  - rewrite get_experience_by_id_run. cbn [experience_cards card_id published_card].
    rewrite find_app, (proj2 (find_id_None _ _ _) Hfresh).
    cbn [List.find published_row exp_id]. rewrite String.eqb_refl.
    change (mkExperienceCardModel _ _ _ _ _ _ _ _ _ _ _ _)
      with (published_row request s).
    by rewrite ExperienceCard_of_published.
  - intros other Hother. rewrite !get_experience_by_id_run.
    cbn [experience_cards card_id published_card] in *. rewrite find_app.
    destruct (List.find _ (experience_cards s)) as [row|].
    + by destruct (ExperienceCard_of rating_errors row).
    + cbn [List.find published_row exp_id].
      apply not_eq_sym, String.eqb_neq in Hother. by rewrite Hother.
Qed.

Lemma X17_witness :
  ∃ card s',
    publish_experience (λ _ : Z, []) sample_publish_request
      sample_publishing_session = (inr card, s')
    ∧ card_title card = "My castle"
    ∧ get_experience_by_id (λ _ : Z, []) (card_id card) s' = (inr (Some card), s').
Proof.
  destruct (X17_publish_round_trip (λ _ : Z, []) sample_publish_request
              sample_publishing_session)
    as (card & s' & Hrun & -> & _ & _ & Hget & _).
  - apply list_elem_of_here.
  - reflexivity.
  - unfold fits_experience_cards. vm_compute. lia.
  - apply not_elem_of_nil.
  - exists (published_card sample_publish_request sample_publishing_session), s'.
    split; [exact Hrun|]. split; [reflexivity | exact Hget].
Defined.

(** X18.  A blueprint [generate_world_from_prompt] has returned can be
    published: in a later session over the tables the call left, with
    nothing pending, a valid request naming the blueprint is never
    answered "not found".  If its author fits the column, it returns
    a card for that blueprint, by that author, unless the identifier
    drawn for the card is taken. *)
Theorem X18_generated_blueprint_can_be_published {float : Type}
    (rating_errors : float → list ErrorDetails)
    (request : PromptRequest) (s : Runtime) (blueprint : WorldBlueprint)
    (s' : Runtime) (publish_request : PublishRequest)
    (cards : list (@ExperienceCardModel float)) :
  generate_world_from_prompt request s = (inr blueprint, s') →
  pub_world_blueprint_id publish_request = wb_id blueprint →
  PublishRequest_errors publish_request = [] →
  fits_experience_cards publish_request →
  let session := publishing_session s' cards in
  pending (db s') = []
  ∧ wb_id blueprint ∈ row_id <$> world_blueprints session
  ∧ (((rng s' 0%nat ∉ exp_id <$> cards)
      ∧ ∃ card session',
          publish_experience rating_errors publish_request session
          = (inr card, session')
          ∧ card_id card = rng s' 0%nat
          ∧ card_world_blueprint_id card = wb_id blueprint
          ∧ card_author_id card = pub_user_id publish_request
          ∧ experience_cards session' = (cards ++ [published_row publish_request session])%list)
     ∨ ((rng s' 0%nat ∈ exp_id <$> cards)
        ∧ ∃ session',
            publish_experience rating_errors publish_request session
            = (inl (IntegrityError (rng s' 0%nat)), session')
            ∧ experience_cards session' = cards)).
Proof.
  intros Hrun Hid Hvalid _ session.
  apply generate_world_from_prompt_inr in Hrun
    as (built & ms & earlier & created & updated & _ & _ & Hpending & Hcommitted & _).
  assert (wb_id blueprint ∈ row_id <$> world_blueprints session) as Hknown.
  { unfold session. cbn [publishing_session world_blueprints].
    rewrite Hcommitted, !fmap_app, !elem_of_app. right. right.
    apply list_elem_of_here. }
  split; [done|]. split; [done|]. rewrite <-Hid in Hknown.
  destruct (decide (rng s' 0%nat ∈ exp_id <$> cards)) as [Htaken|Hfresh].
  - right. split; [done|]. eexists.
    split; [by apply publish_experience_collision|]. done.
  - left. split; [done|]. eexists _, _.
    split; [by apply publish_experience_fresh|].
    by rewrite <-Hid.
Qed.

Lemma X18_witness :
  ∃ blueprint s' card session',
    generate_world_from_prompt
      (mkPromptRequest forest_prompt None "test_user") sample_runtime
    = (inr blueprint, s')
    ∧ publish_experience (λ _ : Z, [])
        (mkPublishRequest (wb_id blueprint) "My forest" "A forest to visit" []
           true "test_user")
        (publishing_session s' [])
      = (inr card, session')
    ∧ card_world_blueprint_id card = wb_id blueprint.
Proof.
  pose proof (generate_world_from_prompt_ok
                (mkPromptRequest forest_prompt None "test_user") sample_runtime
                eq_refl eq_refl (not_elem_of_nil _)) as Hrun.
  cbv zeta in Hrun.
  assert (fits_experience_cards
            (mkPublishRequest
               (sample_uuid (template_count (resolve_world_type
                  (mkPromptRequest forest_prompt None "test_user"))))
               "My forest" "A forest to visit" [] true "test_user")) as Hfits
    by (unfold fits_experience_cards; cbn [pub_user_id]; vm_compute; lia).
  destruct (X18_generated_blueprint_can_be_published (λ _ : Z, []) _ _ _ _
              (mkPublishRequest _ "My forest" "A forest to visit" [] true
                 "test_user") [] Hrun eq_refl eq_refl Hfits)
    as (_ & _ & [(_ & card & session' & Hpublish & _ & Hblueprint & _)
                | (Htaken & _)]).
  - eexists _, _, card, session'. split; [exact Hrun|].
    split; [exact Hpublish | exact Hblueprint].
  - apply elem_of_nil in Htaken. destruct Htaken.
Defined.
